(** * libcpc: the client library of the CPC daemon (lib/sl_cpc.c)

    A shallow embedding of the library half of the Co-Processor
    Communication daemon.  The library is a thin, stateful layer over
    the C library: every function validates its arguments, talks to the
    daemon over SOCK_SEQPACKET sockets and reports failures through its
    return value and [errno].

    The C functions are written in a small state-and-early-return monad
    over the process state ([proc]); everything the C library or the
    kernel decides (return values, received datagrams, addresses handed
    out by malloc) is supplied by an arbitrary environment [libc], a
    function of the log of the calls made so far.  A theorem proved for
    all environments therefore holds whatever the daemon and the kernel
    do. *)

From Stdlib Require Import ZArith String List Lia DecimalString.
From stdpp Require Import base option list gmap strings.

Local Open Scope Z_scope.

(** ** Constants of the system headers (Linux, LP64, little endian) *)

Definition EPERM : Z := 1.
Definition EAGAIN : Z := 11.
Definition ENOMEM : Z := 12.
Definition EINVAL : Z := 22.
Definition ERANGE : Z := 34.
Definition ELIBBAD : Z := 80.
Definition ECONNRESET : Z := 104.

Definition MSG_DONTWAIT : Z := 64.      (* 0x40 *)
Definition O_NONBLOCK : Z := 2048.      (* 04000 *)
Definition INT_MAX : Z := 2147483647.

Definition sizeof_bool : Z := 1.
Definition sizeof_int : Z := 4.
Definition sizeof_uint8_t : Z := 1.
Definition sizeof_uint32_t : Z := 4.
Definition sizeof_pid_t : Z := 4.
Definition sizeof_size_t : Z := 8.
Definition sizeof_sun_path : Z := 108.  (* struct sockaddr_un, <sys/un.h> *)

(** ** Constants of sl_cpc.c itself *)

Definition DEFAULT_INSTANCE_NAME : string := "cpcd_0".
Definition DEFAULT_SOCKET_FOLDER : string := "/dev/shm".
Definition CTRL_SOCKET_TIMEOUT_SEC : Z := 2.
Definition DEFAULT_ENDPOINT_SOCKET_SIZE : Z := 4087.

(** ** Declarations of the headers that sl_cpc.c includes

    sl_cpc.h, version.h and server_core/cpcd_exchange.h are not part of
    the sources at hand.  The numeric values they give to the names used
    by sl_cpc.c are taken as parameters. *)

Class Headers := {
  (* version.h *)
  LIBRARY_API_VERSION : Z;
  (* sl_cpc.h *)
  SL_CPC_READ_MINIMUM_SIZE : Z;
  SL_CPC_FLAG_NON_BLOCK : Z;
  SL_CPC_ENDPOINT_SECURITY : Z;
  (* server_core/cpcd_exchange.h: cpcd_exchange_type_t *)
  EXCHANGE_ENDPOINT_STATUS_QUERY : Z;
  EXCHANGE_OPEN_ENDPOINT_QUERY : Z;
  EXCHANGE_MAX_WRITE_SIZE_QUERY : Z;
  EXCHANGE_VERSION_QUERY : Z;
  EXCHANGE_CLOSE_ENDPOINT_QUERY : Z;
  EXCHANGE_SET_PID_QUERY : Z
}.

(** Modelled from the spec: the layout of [cpcd_exchange_buffer_t]
    (server_core/cpcd_exchange.h is missing).  The spec gives every
    control message as [{type:u8, endpoint:u8, payload[]}]: two header
    bytes followed by a flexible payload, so that [sizeof] is 2. *)
Definition sizeof_cpcd_exchange_buffer_t : Z := 2.

(** A message as it travels on a socket: the [type] byte, the
    [endpoint_number] byte, then the payload. Bytes are integers in
    [0, 256). *)
Definition exchange_buffer (type endpoint_number : Z) (payload : list Z) : list Z :=
  type :: endpoint_number :: payload.

(** Modelled from the spec: [cpc_timeval_t] of sl_cpc.h (missing), the
    two [int] fields [seconds] and [microseconds] that sl_cpc.c reads
    and writes. *)
Definition sizeof_cpc_timeval_t : Z := 2 * sizeof_int.

(** [cpc_option_t] of sl_cpc.h, with the enumerators that sl_cpc.c
    names; [CPC_OPTION_other] stands for any further value. *)
Inductive cpc_option_t :=
| CPC_OPTION_NONE
| CPC_OPTION_RX_TIMEOUT
| CPC_OPTION_TX_TIMEOUT
| CPC_OPTION_BLOCKING
| CPC_OPTION_SOCKET_SIZE
| CPC_OPTION_MAX_WRITE_SIZE
| CPC_OPTION_other (n : Z).

(** The object an option pointer ([optval]) points to. *)
Inductive optval_t :=
| opt_bool (b : bool)
| opt_timeval (seconds microseconds : Z)
| opt_int (n : Z)
| opt_size_t (n : Z).

(** ** The environment: C library and kernel *)

Inductive sockopt := SO_RCVTIMEO | SO_SNDTIMEO | SO_SNDBUF.

Inductive mutex_op :=
| pthread_mutex_init | pthread_mutex_lock
| pthread_mutex_unlock | pthread_mutex_destroy.

(** Which mutex of which object (by the object's address). *)
Inductive mutex := ctrl_sock_fd_lock (handle : Z) | sock_fd_lock (ep : Z).

Inductive request :=
| Send (fd : Z) (msg : list Z) (flags : Z)
| Recv (fd : Z) (len : Z) (flags : Z)
| Socket
| Connect (fd : Z) (path : string)
| Close (fd : Z)
| Access (path : string)
| Setsockopt (fd : Z) (opt : sockopt) (val : optval_t)
| Getsockopt (fd : Z) (opt : sockopt)
| FcntlGetfl (fd : Z)
| FcntlSetfl (fd : Z) (flags : Z)
| Malloc (size : Z)
| Free (addr : Z)
| Strdup (s : string)
| Mutex (op : mutex_op) (m : mutex)
| Sleep (seconds : Z)
| Getpid
| Signal_SIGUSR1
| Stderr (msg : string)
| Callback (fn : Z)
| Indeterminate.

(** What a call answers: its return value, the value it leaves in
    [errno] if it sets it, and the bytes it writes back (the datagram of
    a [Recv], the option value of a [Getsockopt]). *)
Record response := Response {
  rv : Z;
  rerrno : option Z;
  rdata : list Z
}.

Definition event : Type := request * response.

(** The environment answers a request knowing the whole log of earlier
    calls, most recent first. *)
Class Libc := { libc : list event -> request -> response }.

(** ** Process state *)

Record opaque_t := Opaque { ptr : Z }.   (* struct { void *ptr; } *)
Definition cpc_handle_t := opaque_t.
Definition cpc_endpoint_t := opaque_t.

Record sli_cpc_handle_t := Handle {
  ctrl_sock_fd : Z;
  max_write_size : Z
  (* ctrl_sock_fd_lock : the mutex [ctrl_sock_fd_lock] of this address *)
}.

Record sli_cpc_endpoint_t := Endpoint {
  id : Z;
  sock_fd : Z;
  lib_handle : Z
  (* sock_fd_lock : the mutex [sock_fd_lock] of this address *)
}.

Record proc := Proc {
  errno : Z;
  saved_enable_tracing : bool;
  saved_instance_name : option string;      (* None: NULL *)
  saved_reset_callback : Z;                 (* function pointer, 0: NULL *)
  sigusr1_handler : bool;                   (* SIGUSR1_handler installed *)
  handles : gmap Z sli_cpc_handle_t;        (* live sli_cpc_handle_t objects *)
  endpoints : gmap Z sli_cpc_endpoint_t;    (* live sli_cpc_endpoint_t objects *)
  calls : list event                        (* log, most recent first *)
}.

Definition with_errno (e : Z) (p : proc) : proc :=
  Proc e (saved_enable_tracing p) (saved_instance_name p) (saved_reset_callback p)
       (sigusr1_handler p) (handles p) (endpoints p) (calls p).
Definition with_saved_enable_tracing (b : bool) (p : proc) : proc :=
  Proc (errno p) b (saved_instance_name p) (saved_reset_callback p)
       (sigusr1_handler p) (handles p) (endpoints p) (calls p).
Definition with_saved_instance_name (n : option string) (p : proc) : proc :=
  Proc (errno p) (saved_enable_tracing p) n (saved_reset_callback p)
       (sigusr1_handler p) (handles p) (endpoints p) (calls p).
Definition with_saved_reset_callback (f : Z) (p : proc) : proc :=
  Proc (errno p) (saved_enable_tracing p) (saved_instance_name p) f
       (sigusr1_handler p) (handles p) (endpoints p) (calls p).
Definition with_sigusr1_handler (b : bool) (p : proc) : proc :=
  Proc (errno p) (saved_enable_tracing p) (saved_instance_name p) (saved_reset_callback p)
       b (handles p) (endpoints p) (calls p).
Definition with_handles (h : gmap Z sli_cpc_handle_t) (p : proc) : proc :=
  Proc (errno p) (saved_enable_tracing p) (saved_instance_name p) (saved_reset_callback p)
       (sigusr1_handler p) h (endpoints p) (calls p).
Definition with_endpoints (e : gmap Z sli_cpc_endpoint_t) (p : proc) : proc :=
  Proc (errno p) (saved_enable_tracing p) (saved_instance_name p) (saved_reset_callback p)
       (sigusr1_handler p) (handles p) e (calls p).
Definition with_calls (c : list event) (p : proc) : proc :=
  Proc (errno p) (saved_enable_tracing p) (saved_instance_name p) (saved_reset_callback p)
       (sigusr1_handler p) (handles p) (endpoints p) c.

(** ** Statements and functions

    A statement of a function returning [R] either falls through with a
    value, returns from the function, or stops the process. *)

Inductive fault :=
| assertion_failed      (* assert() *)
| invalid_pointer       (* a pointer that does not point to a live object *)
| killed_by_signal.     (* default disposition of SIGUSR1 *)

Inductive outcome (R A : Type) :=
| Next (a : A) (p : proc)
| Return (r : R) (p : proc)
| Stop (f : fault) (p : proc).
Arguments Next {R A} a p.
Arguments Return {R A} r p.
Arguments Stop {R A} f p.

Definition stmt (R A : Type) := proc -> outcome R A.

Inductive result (R : Type) :=
| Done (r : R) (p : proc)
| Fault (f : fault) (p : proc).
Arguments Done {R} r p.
Arguments Fault {R} f p.

Definition ret {R A} (a : A) : stmt R A := fun p => Next a p.

Definition bind {R A B} (m : stmt R A) (k : A -> stmt R B) : stmt R B :=
  fun p => match m p with
           | Next a p' => k a p'
           | Return r p' => Return r p'
           | Stop f p' => Stop f p'
           end.

Definition return_ {R A} (r : R) : stmt R A := fun p => Return r p.
Definition stop {R A} (f : fault) : stmt R A := fun p => Stop f p.

(** A function body run to completion. *)
Definition func {R} (body : stmt R R) : proc -> result R :=
  fun p => match body p with
           | Next r p' => Done r p'
           | Return r p' => Done r p'
           | Stop f p' => Fault f p'
           end.

(** A function called from a statement. *)
Definition invoke {R A} (f : proc -> result A) : stmt R A :=
  fun p => match f p with
           | Done a p' => Next a p'
           | Fault f p' => Stop f p'
           end.

Definition when {R} (c : bool) (body : stmt R unit) : stmt R unit :=
  if c then body else ret tt.

Declare Scope cpc_scope.
Delimit Scope cpc_scope with cpc.
Notation "'let*' x := m 'in' k" := (bind m (fun x => k))
  (at level 10, x name, m at level 100, k at level 200) : cpc_scope.
Notation "'let*' ' pat := m 'in' k" := (bind m (fun x => match x with pat => k end))
  (at level 10, pat pattern, m at level 100, k at level 200) : cpc_scope.
Notation "m ;; k" := (bind m (fun _ => k))
  (at level 100, k at level 200, right associativity) : cpc_scope.
Local Open Scope cpc_scope.

Definition get {R A} (f : proc -> A) : stmt R A := fun p => Next (f p) p.
Definition modify {R} (f : proc -> proc) : stmt R unit := fun p => Next tt (f p).
Definition set_errno {R} (e : Z) : stmt R unit := modify (with_errno e).

(** What [recv] returns for an answer of the environment, and what it
    leaves in the buffer. *)
Definition recv_count (a : response) (len : Z) : Z :=
  if rv a <? 0 then rv a
  else Z.of_nat (length (take (Z.to_nat len) (rdata a))).

Definition recv_buffer (a : response) (len : Z) (buf : list Z) : list Z :=
  if rv a <? 0 then buf
  else let d := take (Z.to_nat len) (rdata a) in d ++ drop (length d) buf.

Section Library.
Context `{Headers} `{Libc}.

(** A call into the C library: the environment answers, the call is
    logged, and [errno] takes the value the call leaves in it. *)
Definition call {R} (q : request) : stmt R response :=
  fun p =>
    let a := libc (calls p) q in
    Next a (with_calls ((q, a) :: calls p)
             (with_errno (default (errno p) (rerrno a)) p)).

(** A call whose result is its return value. *)
Definition sys {R} (q : request) : stmt R Z :=
  let* a := call q in ret (rv a).

(** A call that leaves [errno] alone ([free], and whatever runs between
    the save and the restore of [errno] in [lib_trace]). *)
Definition quiet {R} (q : request) : stmt R unit :=
  let* e := get errno in
  let* _ := call q in
  set_errno e.

(** [recv(fd, buf, len, flags)]: a negative answer is a failure;
    otherwise the datagram, cut to [len] bytes, overwrites the start of
    the buffer and its length is returned (0 for a closed connection). *)
Definition recv {R} (fd : Z) (buf : list Z) (len flags : Z) : stmt R (Z * list Z) :=
  let* a := call (Recv fd len flags) in
  ret (recv_count a len, recv_buffer a len buf).

(** [lib_trace]: prints a time stamp and the message on [stderr] and
    restores [errno]. *)
Definition lib_trace {R} (msg : string) : stmt R unit :=
  let* errno_backup := get errno in
  let* _ := call (Stderr msg) in
  set_errno errno_backup.

Definition trace_lib {R} (format : string) : stmt R unit :=
  let* tracing := get saved_enable_tracing in
  when tracing (lib_trace ("libcpc: " ++ format)).

Definition trace_lib_error {R} (format : string) : stmt R unit :=
  let* tracing := get saved_enable_tracing in
  when tracing (lib_trace ("libcpc: " ++ format ++ " : %m")).

(** Pointer dereferences. *)
Definition deref_handle {R} (a : Z) : stmt R sli_cpc_handle_t :=
  fun p => match handles p !! a with
           | Some h => Next h p
           | None => Stop invalid_pointer p
           end.

Definition deref_endpoint {R} (a : Z) : stmt R sli_cpc_endpoint_t :=
  fun p => match endpoints p !! a with
           | Some e => Next e p
           | None => Stop invalid_pointer p
           end.

Definition is_null {A} (o : option A) : bool :=
  match o with None => true | Some _ => false end.

(** Objects on the heap.  [malloc] returns memory of indeterminate
    content; every field is written before it is read, and the fields
    not yet written are shown as 0. *)
Definition sizeof_sli_cpc_handle_t : Z := 56.
Definition sizeof_sli_cpc_endpoint_t : Z := 56.

Definition store_handle {R} (a : Z) (h : sli_cpc_handle_t) : stmt R unit :=
  modify (fun p => with_handles (<[a := h]> (handles p)) p).

Definition store_endpoint {R} (a : Z) (e : sli_cpc_endpoint_t) : stmt R unit :=
  modify (fun p => with_endpoints (<[a := e]> (endpoints p)) p).

Definition free {R} (a : Z) : stmt R unit := quiet (Free a).

Definition free_handle {R} (a : Z) : stmt R unit :=
  free a ;; modify (fun p => with_handles (delete a (handles p)) p).

Definition free_endpoint {R} (a : Z) : stmt R unit :=
  free a ;; modify (fun p => with_endpoints (delete a (endpoints p)) p).

(** Integers in memory, little endian. *)
Fixpoint le_bytes (n : nat) (v : Z) : list Z :=
  match n with
  | O => []
  | S n' => (v mod 256) :: le_bytes n' (v / 256)
  end.

Fixpoint le_value (bs : list Z) : Z :=
  match bs with
  | [] => 0
  | b :: bs' => (b mod 256) + 256 * le_value bs'
  end.

Definition payload (msg : list Z) : list Z :=
  drop (Z.to_nat sizeof_cpcd_exchange_buffer_t) msg.

(** [memcpy(&x, src, sizeof(uint32_t))] into a [size_t] object [x]: the
    four low bytes are replaced, the four high bytes keep what they
    held. *)
Definition memcpy_uint32_into_size_t (x : Z) (src : list Z) : Z :=
  (x mod 2 ^ 64) / 2 ^ 32 * 2 ^ 32 + le_value (take 4 src).

(** The conversions [(ssize_t)] of a [size_t], [(size_t)] of an
    [ssize_t] and [(int)] of a [long]. *)
Definition to_ssize_t (v : Z) : Z :=
  let u := v mod 2 ^ 64 in if u <? 2 ^ 63 then u else u - 2 ^ 64.
Definition to_size_t (v : Z) : Z := v mod 2 ^ 64.
Definition to_int (v : Z) : Z :=
  let u := v mod 2 ^ 32 in if u <? 2 ^ 31 then u else u - 2 ^ 32.

(** ** get_max_write *)
Definition get_max_write (lib_handle : Z) : proc -> result Z :=
  func (
    (* size_t max_write_size; is not initialised *)
    let* max_write_size := sys Indeterminate in
    let max_write_query_len := sizeof_cpcd_exchange_buffer_t + sizeof_uint32_t in
    let max_write_query :=
      exchange_buffer (EXCHANGE_MAX_WRITE_SIZE_QUERY mod 256) 0 (repeat 0 4) in
    let* h := deref_handle lib_handle in
    let* bytes_written := sys (Send (ctrl_sock_fd h) max_write_query 0) in
    when (bytes_written <? max_write_query_len) (
      trace_lib_error "write()" ;;
      return_ (-1)) ;;
    let* '(bytes_read, max_write_query) :=
      recv (ctrl_sock_fd h) max_write_query max_write_query_len 0 in
    when (negb (bytes_read =? max_write_query_len)) (
      when (bytes_read =? 0) (
        set_errno ECONNRESET ;;
        trace_lib_error "recv(), connection closed") ;;
      trace_lib_error "recv()" ;;
      return_ (-1)) ;;
    let max_write_size :=
      memcpy_uint32_into_size_t max_write_size (payload max_write_query) in
    ret (to_ssize_t max_write_size)).

(** ** check_version *)
Definition check_version (lib_handle : Z) : proc -> result bool :=
  func (
    let version_query_len := sizeof_cpcd_exchange_buffer_t + sizeof_uint8_t in
    let version_query :=
      exchange_buffer (EXCHANGE_VERSION_QUERY mod 256) 0 [LIBRARY_API_VERSION mod 256] in
    let* h := deref_handle lib_handle in
    let* bytes_written := sys (Send (ctrl_sock_fd h) version_query 0) in
    when (bytes_written <? version_query_len) (
      trace_lib_error "write() failed when matching libcpc version with the daemon" ;;
      return_ false) ;;
    let* '(bytes_read, version_query) :=
      recv (ctrl_sock_fd h) version_query version_query_len 0 in
    when (negb (bytes_read =? version_query_len)) (
      when (bytes_read =? 0) (
        set_errno ECONNRESET ;;
        trace_lib_error "recv(), connection closed") ;;
      trace_lib_error "recv() failed when matching libcpc version with the daemon" ;;
      return_ false) ;;
    let version := nth 0 (payload version_query) 0 in
    when (negb (version =? LIBRARY_API_VERSION)) (
      set_errno ELIBBAD ;;
      return_ false) ;;
    ret true).

(** ** set_pid *)
Definition set_pid (lib_handle : Z) : proc -> result Z :=
  func (
    let set_pid_query_len := sizeof_cpcd_exchange_buffer_t + sizeof_pid_t in
    let* pid := sys Getpid in
    let set_pid_query :=
      exchange_buffer (EXCHANGE_SET_PID_QUERY mod 256) 0 (le_bytes 4 pid) in
    let* h := deref_handle lib_handle in
    let* bytes_written := sys (Send (ctrl_sock_fd h) set_pid_query 0) in
    when (bytes_written <? set_pid_query_len) (
      trace_lib_error "write()" ;;
      return_ (-1)) ;;
    ret 0).

(** ** SIGUSR1_handler *)
Definition SIGUSR1_handler (signum : Z) : proc -> result unit :=
  func (
    let* cb := get saved_reset_callback in
    when (negb (cb =? 0)) (
      let* _ := call (Callback cb) in ret tt)).

(** The kernel delivering SIGUSR1 to the process: the installed handler
    runs, or the default disposition terminates the process. *)
Definition SIGUSR1 : Z := 10.
Definition deliver_SIGUSR1 : proc -> result unit :=
  fun p => if sigusr1_handler p then SIGUSR1_handler SIGUSR1 p
           else Fault killed_by_signal p.

(** [strdup]: the copy, or NULL. *)
Definition strdup {R} (s : string) : stmt R (option string) :=
  let* a := sys (Strdup s) in
  ret (if a =? 0 then None else Some s).

(** [snprintf(path, size, FOLDER "/cpcd/%s/ctrl.cpcd.sock", name)]: the
    whole text, of which [path] receives at most [size - 1] characters. *)
Definition ctrl_socket_path (instance_name : string) : string :=
  DEFAULT_SOCKET_FOLDER ++ "/cpcd/" ++ instance_name ++ "/ctrl.cpcd.sock".

Definition strlen (s : string) : Z := Z.of_nat (String.length s).

(** ** cpc_init

    [handle] is the caller's [cpc_handle_t] ([None]: a NULL pointer);
    the function returns its result and the object's new content. *)
Definition cpc_init (handle : option cpc_handle_t) (instance_name : option string)
    (enable_tracing : bool) (reset_callback : Z)
    : proc -> result (Z * option cpc_handle_t) :=
  func (
    (* Save the parameters internally for possible further re-init *)
    modify (with_saved_enable_tracing enable_tracing) ;;
    modify (with_saved_reset_callback reset_callback) ;;
    let* saved := get saved_instance_name in
    when (is_null saved) (
      match instance_name with
      | None =>
          let* copy := strdup DEFAULT_INSTANCE_NAME in
          modify (with_saved_instance_name copy) ;;
          when (is_null copy) (set_errno ENOMEM ;; return_ (-1, handle))
      | Some name =>
          let* copy := strdup name in
          modify (with_saved_instance_name copy) ;;
          when (is_null copy) (set_errno ENOMEM ;; return_ (-1, handle))
      end) ;;
    (* Create the endpoint path *)
    let* saved := get saved_instance_name in
    let* name := match saved with Some n => ret n | None => stop invalid_pointer end in
    let size := sizeof_sun_path - 1 in
    let sun_path := ctrl_socket_path name in
    let nchars := strlen sun_path in
    when ((nchars <? 0) || (size <=? nchars)) (
      set_errno ERANGE ;;
      return_ (-1, handle)) ;;
    when (negb (reset_callback =? 0)) (
      let* _ := call Signal_SIGUSR1 in
      modify (with_sigusr1_handler true)) ;;
    let* h := match handle with
              | Some h => ret h
              | None => set_errno EINVAL ;; return_ (-1, handle)
              end in
    let* r := sys (Access sun_path) in
    when (negb (r =? 0)) (
      trace_lib_error "access() : %s doesn't exist." ;;
      return_ (-1, handle)) ;;
    let* lib_handle := sys (Malloc sizeof_sli_cpc_handle_t) in
    when (lib_handle =? 0) (
      set_errno ENOMEM ;;
      trace_lib_error "malloc()" ;;
      return_ (-1, handle)) ;;
    let* fd := sys Socket in
    store_handle lib_handle (Handle fd 0) ;;
    when (fd =? 0) (
      trace_lib_error "socket()" ;;
      free_handle lib_handle ;;
      return_ (-1, handle)) ;;
    let* r := sys (Connect fd sun_path) in
    when (r <? 0) (
      trace_lib_error "connect() : could not connect to %s." ;;
      free_handle lib_handle ;;
      return_ (-1, handle)) ;;
    (* Set ctrl socket timeout *)
    let* r := sys (Setsockopt fd SO_RCVTIMEO (opt_timeval CTRL_SOCKET_TIMEOUT_SEC 0)) in
    when (r <? 0) (
      trace_lib_error "setsockopt()" ;;
      free_handle lib_handle ;;
      return_ (-1, handle)) ;;
    let* r := invoke (set_pid lib_handle) in
    when (r <? 0) (
      trace_lib_error "failed to set pid" ;;
      free_handle lib_handle ;;
      return_ (-1, handle)) ;;
    let* r := invoke (get_max_write lib_handle) in
    when (r <? 0) (
      trace_lib_error "failed to get max_write_size" ;;
      free_handle lib_handle ;;
      return_ (-1, handle)) ;;
    store_handle lib_handle (Handle fd (to_size_t r)) ;;
    let* ok := invoke (check_version lib_handle) in
    when (negb ok) (
      trace_lib_error "failed to match library version with the daemon" ;;
      free_handle lib_handle ;;
      return_ (-1, handle)) ;;
    let* r := sys (Mutex pthread_mutex_init (ctrl_sock_fd_lock lib_handle)) in
    when (r <? 0) (
      trace_lib_error "pthread_mutex_init()" ;;
      free_handle lib_handle ;;
      return_ (-1, handle)) ;;
    trace_lib "CPC Lib initialized" ;;
    ret (0, Some (Opaque lib_handle))).

(** ** cpc_restart *)

Definition sleep (seconds : Z) : proc -> result unit :=
  func (let* _ := call (Sleep seconds) in ret tt).

(** The loop [for (i = 0; i < 5; i++) { sleep(1); ret = cpc_init(...);
    if (ret == 0) break; }], by the number of iterations left. *)
Fixpoint restart_loop {R} (left : nat) (ret_ : Z) (handle : option cpc_handle_t)
    : stmt R (Z * option cpc_handle_t) :=
  match left with
  | O => ret (ret_, handle)
  | S left' =>
      let* _ := invoke (sleep 1) in
      let* name := get saved_instance_name in
      let* tracing := get saved_enable_tracing in
      let* cb := get saved_reset_callback in
      let* '(ret_, handle) := invoke (cpc_init handle name tracing cb) in
      if ret_ =? 0 then ret (ret_, handle)
      else restart_loop left' ret_ handle
  end.

Definition cpc_restart (handle : option cpc_handle_t)
    : proc -> result (Z * option cpc_handle_t) :=
  func (
    let* h := match handle with Some h => ret h | None => stop invalid_pointer end in
    when (ptr h =? 0) (
      set_errno EINVAL ;;
      return_ (-1, handle)) ;;
    let lib_handle := ptr h in
    let* lh := deref_handle lib_handle in
    let* r := sys (Close (ctrl_sock_fd lh)) in
    when (negb (r =? 0)) (
      set_errno EINVAL ;;
      return_ (-1, handle)) ;;
    let* r := sys (Mutex pthread_mutex_destroy (ctrl_sock_fd_lock lib_handle)) in
    when (negb (r =? 0)) (
      set_errno EINVAL ;;
      return_ (-1, handle)) ;;
    free_handle lib_handle ;;
    let handle := Some (Opaque 0) in
    (* Init the lib again with the same parameters as the first time. *)
    restart_loop 5 r handle).

(** ** cpc_open_endpoint *)

(** [%d] of an endpoint id. *)
Definition decimal (n : Z) : string :=
  NilZero.string_of_int (Z.to_int n).

(** [snprintf(path, size, FOLDER "/cpcd/%s/ep%d.cpcd.sock", name, id)]. *)
Definition ep_socket_path (instance_name : string) (id : Z) : string :=
  DEFAULT_SOCKET_FOLDER ++ "/cpcd/" ++ instance_name ++ "/ep" ++ decimal id ++ ".cpcd.sock".

(** [handle] is passed by value; [endpoint] is the caller's
    [cpc_endpoint_t] ([None]: a NULL pointer), returned with its new
    content.  [id] and [tx_window_size] are [uint8_t]. *)
Definition cpc_open_endpoint (handle : cpc_handle_t) (endpoint : option cpc_endpoint_t)
    (id : Z) (tx_window_size : Z) : proc -> result (Z * option cpc_endpoint_t) :=
  func (
    let open_query_len := sizeof_cpcd_exchange_buffer_t + sizeof_bool in
    trace_lib "Opening EP #%d" ;;
    (* Create the endpoint socket path *)
    let* saved := get saved_instance_name in
    let* name := match saved with Some n => ret n | None => stop invalid_pointer end in
    let size := sizeof_sun_path - 1 in
    let sun_path := ep_socket_path name id in
    let nchars := strlen sun_path in
    when ((nchars <? 0) || (size <=? nchars)) (
      set_errno ERANGE ;;
      return_ (-1, endpoint)) ;;
    (* Only tx window of 1 is supported at the moment *)
    when (negb (tx_window_size =? 1)) (
      set_errno EINVAL ;;
      return_ (-1, endpoint)) ;;
    when ((id =? 0) || is_null endpoint || (ptr handle =? 0)) (
      set_errno EINVAL ;;
      return_ (-1, endpoint)) ;;
    let lib_handle := ptr handle in
    let* ep := sys (Malloc sizeof_sli_cpc_endpoint_t) in
    when (ep =? 0) (
      set_errno ENOMEM ;;
      return_ (-1, endpoint)) ;;
    store_endpoint ep (Endpoint id 0 lib_handle) ;;
    let* open_query := sys (Malloc open_query_len) in
    when (open_query =? 0) (
      trace_lib_error "malloc()" ;;
      free_endpoint ep ;;
      return_ (-1, endpoint)) ;;
    let query := exchange_buffer (EXCHANGE_OPEN_ENDPOINT_QUERY mod 256) id [0] in
    trace_lib "open endpoint, requesting open" ;;
    let* lh := deref_handle lib_handle in
    let* r := sys (Mutex pthread_mutex_lock (ctrl_sock_fd_lock lib_handle)) in
    when (r <? 0) (
      trace_lib_error "pthread_mutex_lock()" ;;
      free open_query ;;
      free_endpoint ep ;;
      return_ (-1, endpoint)) ;;
    let* bytes_written := sys (Send (ctrl_sock_fd lh) query 0) in
    when (bytes_written <? open_query_len) (
      let* r := sys (Mutex pthread_mutex_unlock (ctrl_sock_fd_lock lib_handle)) in
      when (r <? 0) (trace_lib_error "pthread_mutex_unlock()") ;;
      trace_lib_error "write()" ;;
      free open_query ;;
      free_endpoint ep ;;
      return_ (-1, endpoint)) ;;
    trace_lib "open endpoint, wrote %zd bytes" ;;
    trace_lib "open endpoint, waiting for open request reply" ;;
    let* '(bytes_read, query) := recv (ctrl_sock_fd lh) query open_query_len 0 in
    let* r := sys (Mutex pthread_mutex_unlock (ctrl_sock_fd_lock lib_handle)) in
    when (r <? 0) (
      trace_lib_error "pthread_mutex_unlock()" ;;
      free open_query ;;
      free_endpoint ep ;;
      return_ (-1, endpoint)) ;;
    when (negb (bytes_read =? open_query_len)) (
      when (bytes_read =? 0) (
        set_errno ECONNRESET ;;
        trace_lib_error "recv(), connection closed") ;;
      trace_lib_error "open endpoint failed to open request recv(), received %d bytes. Errno:" ;;
      free open_query ;;
      free_endpoint ep ;;
      return_ (-1, endpoint)) ;;
    trace_lib "open endpoint received %d bytes" ;;
    let can_open := negb (nth 0 (payload query) 0 =? 0) in
    when (negb can_open) (
      (if id =? SL_CPC_ENDPOINT_SECURITY then
         set_errno EPERM ;;
         trace_lib_error "open endpoint, cannot open security endpoint as a client"
       else
         set_errno EAGAIN ;;
         trace_lib_error "open endpoint, endpoint on secondary is not opened") ;;
      free open_query ;;
      free_endpoint ep ;;
      return_ (-1, endpoint)) ;;
    let* fd := sys Socket in
    store_endpoint ep (Endpoint id fd lib_handle) ;;
    when (fd =? 0) (
      trace_lib_error "socket()" ;;
      free_endpoint ep ;;
      return_ (-1, endpoint)) ;;
    let* r := sys (Connect fd sun_path) in
    when (r <? 0) (
      trace_lib_error "connect()" ;;
      let* r := sys (Close fd) in
      when (r <? 0) (trace_lib_error "close()") ;;
      free open_query ;;
      free_endpoint ep ;;
      return_ (-1, endpoint)) ;;
    trace_lib "open endpoint, connected, waiting for server ack" ;;
    let* '(bytes_read, query) := recv fd query open_query_len 0 in
    when (negb (bytes_read =? sizeof_cpcd_exchange_buffer_t)
          || negb (nth 0 query 0 =? EXCHANGE_OPEN_ENDPOINT_QUERY)) (
      when (bytes_read =? 0) (
        set_errno ECONNRESET ;;
        trace_lib_error "recv(), connection closed") ;;
      let* r := sys (Close fd) in
      when (r <? 0) (trace_lib_error "close()") ;;
      trace_lib_error "open endpoint open request ack recv()" ;;
      free open_query ;;
      free_endpoint ep ;;
      return_ (-1, endpoint)) ;;
    free open_query ;;
    let ep_socket_size := DEFAULT_ENDPOINT_SOCKET_SIZE in
    let* r := sys (Setsockopt fd SO_SNDBUF (opt_int ep_socket_size)) in
    when (negb (r =? 0)) (
      trace_lib_error "open endpoint setsockopt()" ;;
      let* r := sys (Close fd) in
      when (r <? 0) (trace_lib_error "close()") ;;
      free_endpoint ep ;;
      return_ (-1, endpoint)) ;;
    let* r := sys (Mutex pthread_mutex_init (sock_fd_lock ep)) in
    when (r <? 0) (
      trace_lib_error "pthread_mutex_init()" ;;
      let* r := sys (Close fd) in
      when (r <? 0) (trace_lib_error "close()") ;;
      free_endpoint ep ;;
      return_ (-1, endpoint)) ;;
    trace_lib "Opened EP #%d" ;;
    ret (fd, Some (Opaque ep))).

(** ** cpc_close_endpoint

    [endpoint] is the caller's [cpc_endpoint_t] ([None]: a NULL
    pointer), returned with its new content. *)
Definition cpc_close_endpoint (endpoint : option cpc_endpoint_t)
    : proc -> result (Z * option cpc_endpoint_t) :=
  func (
    let close_query_len := sizeof_cpcd_exchange_buffer_t in
    let* e := match endpoint with
              | Some e => ret e
              | None =>
                  set_errno EINVAL ;;
                  trace_lib_error "cpc_close_endpoint()" ;;
                  return_ (-1, endpoint)
              end in
    let ep := ptr e in
    when (ep =? 0) (
      set_errno EINVAL ;;
      trace_lib_error "cpc_close_endpoint()" ;;
      return_ (-1, endpoint)) ;;
    let* ep_ := deref_endpoint ep in
    trace_lib "Closing EP #%d" ;;
    let* r := sys (Close (sock_fd ep_)) in
    when (r <? 0) (
      trace_lib_error "close()" ;;
      free_endpoint ep ;;
      return_ (-1, Some (Opaque 0))) ;;
    let lib_handle := lib_handle ep_ in
    let close_query := exchange_buffer (EXCHANGE_CLOSE_ENDPOINT_QUERY mod 256) (id ep_) [] in
    trace_lib "Sending close request EP #%d" ;;
    let* lh := deref_handle lib_handle in
    let* r := sys (Mutex pthread_mutex_lock (ctrl_sock_fd_lock lib_handle)) in
    when (r <? 0) (
      trace_lib_error "pthread_mutex_lock()" ;;
      free_endpoint ep ;;
      return_ (-1, Some (Opaque 0))) ;;
    let* bytes_written := sys (Send (ctrl_sock_fd lh) close_query 0) in
    when ((bytes_written <? 0) || (to_size_t bytes_written <? close_query_len)) (
      let* r := sys (Mutex pthread_mutex_unlock (ctrl_sock_fd_lock lib_handle)) in
      when (r <? 0) (trace_lib_error "pthread_mutex_unlock()") ;;
      trace_lib_error "Close endpoint request fail" ;;
      free_endpoint ep ;;
      return_ (-1, Some (Opaque 0))) ;;
    trace_lib "Waiting for request reply on EP #%d" ;;
    let* '(bytes_read, close_query) := recv (ctrl_sock_fd lh) close_query close_query_len 0 in
    let* r := sys (Mutex pthread_mutex_unlock (ctrl_sock_fd_lock lib_handle)) in
    when (r <? 0) (
      trace_lib_error "pthread_mutex_unlock()" ;;
      free_endpoint ep ;;
      return_ (-1, Some (Opaque 0))) ;;
    when (negb (bytes_read =? close_query_len)) (
      when (bytes_read =? 0) (
        set_errno ECONNRESET ;;
        trace_lib_error "recv(), connection closed") ;;
      trace_lib_error "Close request recv()" ;;
      free_endpoint ep ;;
      return_ (-1, Some (Opaque 0))) ;;
    let* r := sys (Mutex pthread_mutex_destroy (sock_fd_lock ep)) in
    when (r <? 0) (
      trace_lib_error "pthread_mutex_destroy()" ;;
      free_endpoint ep ;;
      return_ (-1, Some (Opaque 0))) ;;
    free_endpoint ep ;;
    ret (0, Some (Opaque 0))).

(** ** cpc_read_endpoint

    [buffer] is the content of the caller's buffer ([None]: NULL); the
    function returns its result and the buffer's new content. *)
Definition cpc_read_endpoint (endpoint : cpc_endpoint_t) (buffer : option (list Z))
    (count : Z) (flags : Z) : proc -> result (Z * option (list Z)) :=
  func (
    let sock_flags := 0 in
    when (is_null buffer || (count <? SL_CPC_READ_MINIMUM_SIZE) || (ptr endpoint =? 0)) (
      set_errno EINVAL ;;
      trace_lib_error "cpc_read_endpoint()" ;;
      return_ (-1, buffer)) ;;
    let* ep := deref_endpoint (ptr endpoint) in
    trace_lib "Reading on EP #%d" ;;
    let sock_flags :=
      if Z.land flags SL_CPC_FLAG_NON_BLOCK =? 0 then sock_flags
      else Z.lor sock_flags MSG_DONTWAIT in
    let* '(bytes_read, buffer') := recv (sock_fd ep) (default [] buffer) count sock_flags in
    when (bytes_read =? 0) (
      set_errno ECONNRESET ;;
      trace_lib_error "recv(), connection closed" ;;
      return_ (-1, Some buffer')) ;;
    when (bytes_read <? 0) (
      let* e := get errno in
      when (negb (e =? EAGAIN)) (trace_lib_error "recv()") ;;
      return_ (-1, Some buffer')) ;;
    trace_lib "Read on EP #%d" ;;
    ret (bytes_read, Some buffer')).


(** ** cpc_write_endpoint

    [data] is the content of the caller's buffer ([None]: NULL), of
    which [data_length] bytes are sent. *)
Definition cpc_write_endpoint (endpoint : cpc_endpoint_t) (data : option (list Z))
    (data_length : Z) (flags : Z) : proc -> result Z :=
  func (
    let sock_flags := 0 in
    when ((ptr endpoint =? 0) || is_null data || (data_length =? 0)) (
      set_errno EINVAL ;;
      trace_lib_error "cpc_write_endpoint()" ;;
      return_ (-1)) ;;
    let* ep := deref_endpoint (ptr endpoint) in
    let* lh := deref_handle (lib_handle ep) in
    when (max_write_size lh <? data_length) (
      set_errno EINVAL ;;
      trace_lib_error "payload too large cpc_write_endpoint()" ;;
      return_ (-1)) ;;
    trace_lib "Writing to EP #%d" ;;
    let sock_flags :=
      if Z.land flags SL_CPC_FLAG_NON_BLOCK =? 0 then sock_flags
      else Z.lor sock_flags MSG_DONTWAIT in
    let bytes := default [] data in
    when (Z.of_nat (length bytes) <? data_length) (stop invalid_pointer) ;;
    let* bytes_written :=
      sys (Send (sock_fd ep) (take (Z.to_nat data_length) bytes) sock_flags) in
    when (bytes_written =? -1) (
      trace_lib_error "write()" ;;
      return_ (-1)) ;;
    when (negb (to_size_t bytes_written =? data_length)) (stop assertion_failed) ;;
    ret bytes_written).

Definition is_CPC_OPTION_NONE (o : cpc_option_t) : bool :=
  match o with CPC_OPTION_NONE => true | _ => false end.

(** ** cpc_set_endpoint_option

    [optval] is the object the option pointer points to ([None]:
    NULL). *)
Definition cpc_set_endpoint_option (endpoint : cpc_endpoint_t) (option_ : cpc_option_t)
    (optval : option optval_t) (optlen : Z) : proc -> result Z :=
  func (
    when (is_CPC_OPTION_NONE option_ || (ptr endpoint =? 0) || is_null optval) (
      set_errno EINVAL ;;
      return_ (-1)) ;;
    let ep := ptr endpoint in
    match option_ with
    | CPC_OPTION_RX_TIMEOUT =>
        when (negb (optlen =? sizeof_cpc_timeval_t)) (
          set_errno EINVAL ;;
          trace_lib_error "optval must be of type cpc_timeval_t" ;;
          return_ (-1)) ;;
        let* sockopt_ := match optval with
                         | Some (opt_timeval s us) => ret (opt_timeval s us)
                         | _ => stop invalid_pointer
                         end in
        let* ep_ := deref_endpoint ep in
        let* r := sys (Setsockopt (sock_fd ep_) SO_RCVTIMEO sockopt_) in
        when (r <? 0) (
          trace_lib_error "setsockopt()" ;;
          return_ (-1))
    | CPC_OPTION_TX_TIMEOUT =>
        when (negb (optlen =? sizeof_cpc_timeval_t)) (
          set_errno EINVAL ;;
          trace_lib_error "optval must be of type cpc_timeval_t" ;;
          return_ (-1)) ;;
        let* sockopt_ := match optval with
                         | Some (opt_timeval s us) => ret (opt_timeval s us)
                         | _ => stop invalid_pointer
                         end in
        let* ep_ := deref_endpoint ep in
        let* r := sys (Setsockopt (sock_fd ep_) SO_SNDTIMEO sockopt_) in
        when (r <? 0) (
          trace_lib "error cpc_set_endpoint_option setsockopt()" ;;
          return_ (-1))
    | CPC_OPTION_BLOCKING =>
        when (negb (optlen =? sizeof_bool)) (
          set_errno EINVAL ;;
          trace_lib_error "optval must be of type bool" ;;
          return_ (-1)) ;;
        let* ep_ := deref_endpoint ep in
        let* r := sys (Mutex pthread_mutex_lock (sock_fd_lock ep)) in
        when (r <? 0) (
          trace_lib_error "pthread_mutex_lock()" ;;
          return_ (-1)) ;;
        let* flags := sys (FcntlGetfl (sock_fd ep_)) in
        when (flags <? 0) (
          let* r := sys (Mutex pthread_mutex_unlock (sock_fd_lock ep)) in
          when (r <? 0) (trace_lib_error "pthread_mutex_unlock()") ;;
          trace_lib_error "fnctl()" ;;
          return_ (-1)) ;;
        let* b := match optval with
                  | Some (opt_bool b) => ret b
                  | _ => stop invalid_pointer
                  end in
        let flags := if b then Z.land flags (Z.lnot O_NONBLOCK)
                     else Z.lor flags O_NONBLOCK in
        let* ret_ := sys (FcntlSetfl (sock_fd ep_) flags) in
        let* r := sys (Mutex pthread_mutex_unlock (sock_fd_lock ep)) in
        when (r <? 0) (
          trace_lib_error "pthread_mutex_unlock()" ;;
          return_ (-1)) ;;
        when (ret_ <? 0) (
          trace_lib_error "fnctl()" ;;
          return_ (-1))
    | CPC_OPTION_SOCKET_SIZE =>
        when (negb (optlen =? sizeof_int)) (
          set_errno EINVAL ;;
          trace_lib_error "optval must be of type int" ;;
          return_ (-1)) ;;
        let* n := match optval with
                  | Some (opt_int n) => ret (opt_int n)
                  | _ => stop invalid_pointer
                  end in
        let* ep_ := deref_endpoint ep in
        let* r := sys (Setsockopt (sock_fd ep_) SO_SNDBUF n) in
        when (negb (r =? 0)) (
          trace_lib_error "setsockopt()" ;;
          return_ (-1))
    | _ =>
        set_errno EINVAL ;;
        return_ (-1)
    end ;;
    ret 0).

(** What [getsockopt(SO_SNDBUF)] leaves at [optval] when the kernel
    copies the first [copied] bytes of the [int] [v] there.  With no
    byte copied the object is left alone; with all [sizeof(int)] bytes
    it is the [int] [v]; with fewer, the low bytes of the [int] that
    was there are replaced (the bytes are in little-endian order). *)
Definition store_int_prefix {R} (copied v : Z) (optval : option optval_t)
    : stmt R (option optval_t) :=
  if copied =? 0 then ret optval
  else if copied =? sizeof_int then ret (Some (opt_int v))
  else match optval with
       | Some (opt_int old) =>
           let n := Z.to_nat copied in
           ret (Some (opt_int (to_int (le_value (take n (le_bytes 4 v)
                                                 ++ drop n (le_bytes 4 old))))))
       | _ => stop invalid_pointer   (* no [int] at [optval] to complete *)
       end.

(** ** cpc_get_endpoint_option

    [optval] is the object the option pointer points to and [optlen]
    the [size_t] that the length pointer points to ([None]: NULL); both
    are returned with their new content. *)
Definition cpc_get_endpoint_option (endpoint : cpc_endpoint_t) (option_ : cpc_option_t)
    (optval : option optval_t) (optlen : option Z)
    : proc -> result (Z * option optval_t * option Z) :=
  func (
    when (is_CPC_OPTION_NONE option_ || (ptr endpoint =? 0) || is_null optval
          || is_null optlen) (
      set_errno EINVAL ;;
      return_ (-1, optval, optlen)) ;;
    let ep := ptr endpoint in
    let len := default 0 optlen in
    match option_ with
    | CPC_OPTION_RX_TIMEOUT =>
        when (negb (len =? sizeof_cpc_timeval_t)) (
          set_errno EINVAL ;;
          trace_lib_error "optval must be of type cpc_timeval_t" ;;
          return_ (-1, optval, optlen)) ;;
        let* ep_ := deref_endpoint ep in
        let* a := call (Getsockopt (sock_fd ep_) SO_RCVTIMEO) in
        when (rv a <? 0) (
          trace_lib_error "getsockopt()" ;;
          return_ (-1, optval, optlen)) ;;
        let tv_sec := nth 0 (rdata a) 0 in
        let tv_usec := nth 1 (rdata a) 0 in
        when ((INT_MAX <? tv_sec) || (INT_MAX <? tv_usec)) (
          set_errno EINVAL ;;
          trace_lib_error "getsockopt returned value out of bound" ;;
          return_ (-1, optval, optlen)) ;;
        ret (0, Some (opt_timeval (to_int tv_sec) (to_int tv_usec)), optlen)
    | CPC_OPTION_TX_TIMEOUT =>
        when (negb (len =? sizeof_cpc_timeval_t)) (
          set_errno EINVAL ;;
          trace_lib_error "optval must be of type cpc_timeval_t" ;;
          return_ (-1, optval, optlen)) ;;
        let* ep_ := deref_endpoint ep in
        let* a := call (Getsockopt (sock_fd ep_) SO_SNDTIMEO) in
        when (rv a <? 0) (
          trace_lib "error cpc_get_endpoint_option getsockopt()" ;;
          return_ (-1, optval, optlen)) ;;
        let tv_sec := nth 0 (rdata a) 0 in
        let tv_usec := nth 1 (rdata a) 0 in
        when ((INT_MAX <? tv_sec) || (INT_MAX <? tv_usec)) (
          set_errno EINVAL ;;
          trace_lib_error "getsockopt returned value out of bound" ;;
          return_ (-1, optval, optlen)) ;;
        ret (0, Some (opt_timeval (to_int tv_sec) (to_int tv_usec)), optlen)
    | CPC_OPTION_BLOCKING =>
        when (len <? sizeof_bool) (
          set_errno ENOMEM ;;
          trace_lib_error "Insufficient space to store option value" ;;
          return_ (-1, optval, optlen)) ;;
        let optlen := Some sizeof_bool in
        let* ep_ := deref_endpoint ep in
        let* flags := sys (FcntlGetfl (sock_fd ep_)) in
        when (flags <? 0) (
          trace_lib_error "fnctl()" ;;
          return_ (-1, optval, optlen)) ;;
        if negb (Z.land flags O_NONBLOCK =? 0) then
          ret (0, Some (opt_bool false), optlen)
        else
          ret (0, Some (opt_bool true), optlen)
    | CPC_OPTION_SOCKET_SIZE =>
        let socklen := len mod 2 ^ 32 in
        when (len <? sizeof_int) (
          set_errno ENOMEM ;;
          trace_lib_error "Insufficient space to store option value" ;;
          return_ (-1, optval, optlen)) ;;
        let* ep_ := deref_endpoint ep in
        let* a := call (Getsockopt (sock_fd ep_) SO_SNDBUF) in
        when (rv a <? 0) (
          trace_lib_error "getsockopt()" ;;
          return_ (-1, optval, optlen)) ;;
        (* the kernel copies no more than [socklen] bytes of the int
           and stores how many it copied *)
        let socklen := Z.min socklen sizeof_int in
        let* optval := store_int_prefix socklen (nth 0 (rdata a) 0) optval in
        ret (0, optval, Some socklen)
    | CPC_OPTION_MAX_WRITE_SIZE =>
        let optlen := Some sizeof_size_t in
        let* ep_ := deref_endpoint ep in
        let* lh := deref_handle (lib_handle ep_) in
        ret (0, Some (opt_size_t (max_write_size lh)), optlen)
    | _ =>
        set_errno EINVAL ;;
        return_ (-1, optval, optlen)
    end).

End Library.


(** ** Reading the log *)

(** The flags given to the last successful [F_SETFL] on [fd], as far as
    the log (most recent call first) tells: closing the descriptor
    forgets them. *)
Fixpoint last_setfl (fd : Z) (log : list event) : option Z :=
  match log with
  | [] => None
  | (FcntlSetfl fd' fl, a) :: log' =>
      if (fd' =? fd) && (0 <=? rv a) then Some fl else last_setfl fd log'
  | (Close fd', _) :: log' =>
      if fd' =? fd then None else last_setfl fd log'
  | _ :: log' => last_setfl fd log'
  end.

(** ** Demonstration platform

    Concrete header constants and a small daemon, used to run the
    library on examples. *)
Module Demo.

#[export] Instance headers : Headers := {|
  LIBRARY_API_VERSION := 2;
  SL_CPC_READ_MINIMUM_SIZE := 4087;
  SL_CPC_FLAG_NON_BLOCK := 1;
  SL_CPC_ENDPOINT_SECURITY := 14;
  EXCHANGE_ENDPOINT_STATUS_QUERY := 0;
  EXCHANGE_OPEN_ENDPOINT_QUERY := 1;
  EXCHANGE_MAX_WRITE_SIZE_QUERY := 2;
  EXCHANGE_VERSION_QUERY := 3;
  EXCHANGE_CLOSE_ENDPOINT_QUERY := 4;
  EXCHANGE_SET_PID_QUERY := 5
|}.

Definition ok (v : Z) : response := Response v None [].
Definition datagram (d : list Z) : response := Response 0 None d.

Definition count_requests (f : request -> bool) (log : list event) : Z :=
  Z.of_nat (length (filter (fun e => Is_true (f e.1)) log)).

Definition is_Socket (q : request) : bool :=
  match q with Socket => true | _ => false end.
Definition is_Malloc (q : request) : bool :=
  match q with Malloc _ => true | _ => false end.

(** The most recent message sent on [fd], unless a datagram was
    received on [fd] since. *)
Fixpoint pending_query (fd : Z) (log : list event) : option (list Z) :=
  match log with
  | [] => None
  | (Send fd' m _, _) :: log' => if fd' =? fd then Some m else pending_query fd log'
  | (Recv fd' _ _, _) :: log' => if fd' =? fd then None else pending_query fd log'
  | _ :: log' => pending_query fd log'
  end.

(** Has a datagram been received on [fd] already? *)
Definition received_on (fd : Z) (log : list event) : bool :=
  existsb (fun e => match e.1 with Recv fd' _ _ => fd' =? fd | _ => false end) log.

(** What the platform does: the API version and the maximal write size
    the daemon reports, the first message on an endpoint socket, what
    the endpoint socket delivers afterwards, and what a variable that
    was not initialised holds. *)
Record script := Script {
  version : Z;
  max_write : Z;
  ack : response;
  inbox : response;
  stack : Z
}.

(** The daemon's answer to a control query. *)
Definition reply (s : script) (query : list Z) : list Z :=
  match query with
  | [t; e; _] =>
      if t =? 3 then [3; e; version s]     (* version *)
      else [t; e; 1]                       (* open endpoint: can_open *)
  | [t; e; _; _; _; _] => [t; e] ++ le_bytes 4 (max_write s)   (* max write size *)
  | _ => query                             (* close endpoint *)
  end.

Definition daemon (s : script) (log : list event) (q : request) : response :=
  match q with
  | Send _ msg _ => ok (Z.of_nat (length msg))
  | Recv fd _ _ =>
      match pending_query fd log with
      | Some query => datagram (reply s query)
      | None => if received_on fd log then inbox s else ack s
      end
  | Socket => ok (3 + count_requests is_Socket log)
  | Malloc _ => ok (4096 + 64 * count_requests is_Malloc log)
  | Strdup _ => ok 1
  | FcntlGetfl fd => ok (default 2 (last_setfl fd log))
  | Getpid => ok 4242
  | Indeterminate => ok (stack s)
  | _ => ok 0
  end.

(** A healthy daemon whose endpoint delivers ["ping"]. *)
Definition healthy : script :=
  Script 2 4087 (datagram [1; 0]) (datagram [112; 105; 110; 103]) 0.
(** An endpoint whose connection is lost: its socket is at end of file. *)
Definition lost : script := Script 2 4087 (datagram [1; 0]) (datagram []) 0.
(** A daemon of another API version. *)
Definition old : script := Script 1 4087 (datagram [1; 0]) (datagram []) 0.
(** A server whose first message on the endpoint socket has a payload. *)
Definition chatty : script := Script 2 4087 (datagram [1; 0; 7]) (datagram []) 0.
(** A healthy daemon on a platform where the 8 bytes of a [size_t] that
    was not initialised hold [0x0000000100000000]. *)
Definition dirty : script :=
  Script 2 4087 (datagram [1; 0]) (datagram [112; 105; 110; 103]) (2 ^ 32).

#[export] Instance kernel : Libc := {| libc := daemon healthy |}.

Definition final {R} (r : result R) : proc :=
  match r with Done _ p => p | Fault _ p => p end.

Definition boot : proc := Proc 0 false None 0 false ∅ ∅ [].
Definition user_handle : option cpc_handle_t := Some (Opaque 0).
Definition user_endpoint : option cpc_endpoint_t := Some (Opaque 0).
Definition user_buffer : list Z := repeat 0 4087.
Definition oversized : list Z := repeat 0 5000.
Definition on_reset : Z := 77.    (* the address of the user's callback *)

Section Runs.
Context (s : script).
#[local] Instance scripted : Libc := {| libc := daemon s |}.

(** [cpc_init], then [cpc_open_endpoint] on endpoint 3, then calls on
    that endpoint. *)
Definition initialise : result (Z * option cpc_handle_t) :=
  cpc_init user_handle None false on_reset boot.
Definition initialised : proc := final initialise.
Definition handle : cpc_handle_t := Opaque 4096.

Definition open (tx_window_size : Z) : result (Z * option cpc_endpoint_t) :=
  cpc_open_endpoint handle user_endpoint 3 tx_window_size initialised.
Definition opened : proc := final (open 1).
Definition endpoint : cpc_endpoint_t := Opaque 4160.

Definition read : result (Z * option (list Z)) :=
  cpc_read_endpoint endpoint (Some user_buffer) 4087 0 opened.
Definition write_too_much : result Z :=
  cpc_write_endpoint endpoint (Some oversized) 5000 0 opened.

Definition set_blocking (b : bool) : result Z :=
  cpc_set_endpoint_option endpoint CPC_OPTION_BLOCKING (Some (opt_bool b)) sizeof_bool opened.
Definition get_blocking (b : bool) : result (Z * option optval_t * option Z) :=
  cpc_get_endpoint_option endpoint CPC_OPTION_BLOCKING (Some (opt_bool true)) (Some 1)
    (final (set_blocking b)).

Definition close : result (Z * option cpc_endpoint_t) :=
  cpc_close_endpoint (Some endpoint) opened.
Definition closed : proc := final close.
Definition close_again : result (Z * option cpc_endpoint_t) :=
  cpc_close_endpoint (Some (Opaque 0)) closed.

Definition restart : result (Z * option cpc_handle_t) :=
  cpc_restart (Some handle) initialised.
Definition signalled : result unit := deliver_SIGUSR1 initialised.
End Runs.

(** The daemon is replaced by one of another API version once the
    library is initialised, and the version is checked again. *)
Definition downgraded : result bool :=
  check_version (H0 := scripted old) 4096 (initialised healthy).

End Demo.

(** ** cpc_get_endpoint_state

    [state] is the content of the caller's [cpc_endpoint_state_t], read
    as an unsigned little-endian number ([None]: a NULL pointer); the
    function returns its result and the object's new content.  [id] is
    a [uint8_t]. *)
Section EndpointState.
Context `{Headers} `{Libc}.

(** Modelled from the spec: sl_cpc.h, which declares the enumeration
    [cpc_endpoint_state_t] carried as payload of the endpoint status
    query, is not part of the sources; the size of the type is a
    parameter. *)
Context (sizeof_cpc_endpoint_state_t : Z).

Definition cpc_get_endpoint_state (handle : cpc_handle_t) (id : Z) (state : option Z)
    : proc -> result (Z * option Z) :=
  func (
    let request_buffer_len := sizeof_cpcd_exchange_buffer_t + sizeof_cpc_endpoint_state_t in
    when (is_null state || (ptr handle =? 0) || (id =? 0)) (
      set_errno EINVAL ;;
      return_ (-1, state)) ;;
    let lib_handle := ptr handle in
    let* request_buffer := sys (Malloc request_buffer_len) in
    when (request_buffer =? 0) (
      trace_lib_error "malloc()" ;;
      set_errno ENOMEM ;;
      return_ (-1, state)) ;;
    let query :=
      exchange_buffer (EXCHANGE_ENDPOINT_STATUS_QUERY mod 256) id
        (repeat 0 (Z.to_nat sizeof_cpc_endpoint_state_t)) in
    trace_lib "Get Endpoint state, writing" ;;
    let* lh := deref_handle lib_handle in
    let* r := sys (Mutex pthread_mutex_lock (ctrl_sock_fd_lock lib_handle)) in
    when (r <? 0) (
      trace_lib_error "pthread_mutex_lock()" ;;
      free request_buffer ;;
      return_ (-1, state)) ;;
    let* bytes_written := sys (Send (ctrl_sock_fd lh) query 0) in
    when (bytes_written <=? 0) (
      let* r := sys (Mutex pthread_mutex_unlock (ctrl_sock_fd_lock lib_handle)) in
      when (r <? 0) (trace_lib_error "pthread_mutex_unlock()") ;;
      trace_lib_error "write()" ;;
      free request_buffer ;;
      return_ (-1, state)) ;;
    trace_lib "Get Endpoint state, reading" ;;
    let* '(bytes_read, reply) := recv (ctrl_sock_fd lh) query request_buffer_len 0 in
    let* r := sys (Mutex pthread_mutex_unlock (ctrl_sock_fd_lock lib_handle)) in
    when (r <? 0) (
      trace_lib_error "pthread_mutex_unlock()" ;;
      free request_buffer ;;
      return_ (-1, state)) ;;
    when (bytes_read <=? 0) (
      when (bytes_read =? 0) (
        set_errno ECONNRESET ;;
        trace_lib_error "recv(), connection closed") ;;
      trace_lib_error "recv()" ;;
      free request_buffer ;;
      return_ (-1, state)) ;;
    let state :=
      Some (le_value (take (Z.to_nat sizeof_cpc_endpoint_state_t) (payload reply))) in
    free request_buffer ;;
    ret (0, state)).

End EndpointState.

(** ** Further scenarios on the demonstration platform *)
Module Scenarios.
Import Demo.

(** An endpoint on which nothing is to be read: the socket is not
    blocking and [recv] fails with [EAGAIN]. *)
Definition idle : script :=
  Script 2 4087 (datagram [1; 0]) (Response (-1) (Some EAGAIN) []) 0.

(** A daemon that refuses to open endpoints: it answers every open
    query with [can_open] false. *)
Definition refusing_daemon (log : list event) (q : request) : response :=
  match q with
  | Recv fd _ _ =>
      match pending_query fd log with
      | Some [t; e; _] =>
          if t =? 1 then datagram [1; e; 0] else daemon healthy log q
      | _ => daemon healthy log q
      end
  | _ => daemon healthy log q
  end.

Definition refusing : Libc := {| libc := refusing_daemon |}.

(** An endpoint socket whose send queue is full: [send] on it fails
    with [EAGAIN]. *)
Definition failing_send (log : list event) (q : request) : response :=
  match q with
  | Send fd _ _ =>
      if fd =? 4 then Response (-1) (Some EAGAIN) [] else daemon healthy log q
  | _ => daemon healthy log q
  end.

Definition congested : Libc := {| libc := failing_send |}.

(** A control socket that cannot be closed: [close] fails with [EIO]. *)
Definition EIO : Z := 5.

Definition failing_close (log : list event) (q : request) : response :=
  match q with
  | Close _ => Response (-1) (Some EIO) []
  | _ => daemon healthy log q
  end.

Definition unclosable : Libc := {| libc := failing_close |}.

(** A process that has closed its standard input: once the control
    socket is there, the lowest free descriptor, which [socket] gives
    out, is 0. *)
Definition lowest_descriptor (log : list event) (q : request) : response :=
  match q with
  | Socket => if count_requests is_Socket log =? 0 then ok 3 else ok 0
  | _ => daemon healthy log q
  end.

Definition without_stdin : Libc := {| libc := lowest_descriptor |}.

(** The size of [cpc_endpoint_state_t] on the platform. *)
Definition sizeof_state : Z := 4.

End Scenarios.

(** * Properties *)

(** ** The log between two states *)

(** The calls made between two states, in the order they were made. *)
Definition since (p p' : proc) : list event :=
  rev (take (length (calls p') - length (calls p))%nat (calls p')).

(** Nothing but trace output. *)
Definition is_Stderr (e : event) : Prop :=
  match e.1 with Stderr _ => True | _ => False end.
Definition only_traces (d : list event) : Prop := Forall is_Stderr d.

(** [reply_to query a d]: in [d], the message [query] is sent and the
    very next call receives a datagram, with answer [a]. *)
Fixpoint reply_to (query : list Z) (a : response) (d : list event) : Prop :=
  match d with
  | [] => False
  | e :: d' =>
      match e.1, d' with
      | Send _ m _, (Recv _ _ _, a') :: _ =>
          (m = query /\ a' = a) \/ reply_to query a d'
      | _, _ => reply_to query a d'
      end
  end.

(** The first [recv] of a piece of log: socket, length asked for and
    answer. *)
Fixpoint first_Recv (d : list event) : option (Z * Z * response) :=
  match d with
  | [] => None
  | (Recv fd len _, a) :: _ => Some (fd, len, a)
  | _ :: d' => first_Recv d'
  end.

(** What follows the first [connect] of a piece of log. *)
Fixpoint after_Connect (d : list event) : list event :=
  match d with
  | [] => []
  | (Connect _ _, _) :: d' => d'
  | _ :: d' => after_Connect d'
  end.

(** The first message awaited on a socket once it is connected. *)
Definition first_message (d : list event) : option (Z * Z * response) :=
  first_Recv (after_Connect d).

Section Messages.
Context `{Headers}.

Definition version_query : list Z :=
  exchange_buffer (EXCHANGE_VERSION_QUERY mod 256) 0 [LIBRARY_API_VERSION mod 256].

Definition max_write_size_query : list Z :=
  exchange_buffer (EXCHANGE_MAX_WRITE_SIZE_QUERY mod 256) 0 (repeat 0 4).

(** A reply to the version query, at least as long as the query, whose
    version byte is not the library's. *)
Definition version_mismatch (a : response) : Prop :=
  0 <= rv a /\ (3 <= length (rdata a))%nat /\
  nth 2 (rdata a) 0 <> LIBRARY_API_VERSION.

(** The acknowledgement of an endpoint socket: a message received
    without error that is exactly [sizeof(cpcd_exchange_buffer_t)] bytes
    long, hence has no payload, and is of type
    [EXCHANGE_OPEN_ENDPOINT_QUERY]. *)
Definition is_ack (a : response) : Prop :=
  0 <= rv a /\
  Z.of_nat (length (rdata a)) = sizeof_cpcd_exchange_buffer_t /\
  nth 0 (rdata a) 0 = EXCHANGE_OPEN_ENDPOINT_QUERY.

(** The length that [cpc_open_endpoint] asks of [recv] when it awaits
    the acknowledgement: [open_query_len], one byte more than the
    acknowledgement, so that a message with a payload is told apart. *)
Definition ack_recv_length : Z := sizeof_cpcd_exchange_buffer_t + sizeof_bool.

End Messages.

(** The kernel keeps the [O_NONBLOCK] status flag of an open file
    description: [F_GETFL] reports the bit last set with [F_SETFL]. *)
Definition fcntl_keeps_O_NONBLOCK `{Libc} : Prop :=
  forall log fd fl,
    last_setfl fd log = Some fl ->
    0 <= rv (libc log (FcntlGetfl fd)) ->
    Z.land (rv (libc log (FcntlGetfl fd))) O_NONBLOCK = Z.land fl O_NONBLOCK.

Section Restart.
Context `{Headers} `{Libc}.

(** [retried name tracing cb h q rs rh p']: starting in state [q] with
    the caller's handle [h], the library sleeps one second and runs
    [cpc_init] with the instance name, the tracing flag and the reset
    callback given, again and again until an attempt returns 0; [rs]
    lists what the attempts returned, and the last attempt returned
    [rh] in state [p']. *)
Inductive retried (name : option string) (tracing : bool) (cb : Z) :
    option cpc_handle_t -> proc -> list Z -> Z * option cpc_handle_t -> proc -> Prop :=
| retried_last h q q1 rh p' :
    sleep 1 q = Done tt q1 ->
    cpc_init h name tracing cb q1 = Done rh p' ->
    retried name tracing cb h q [rh.1] rh p'
| retried_again h q q1 r1 h1 p1 rs rh p' :
    sleep 1 q = Done tt q1 ->
    cpc_init h name tracing cb q1 = Done (r1, h1) p1 ->
    r1 <> 0 ->
    retried name tracing cb h1 p1 rs rh p' ->
    retried name tracing cb h q (r1 :: rs) rh p'.

(** The old handle [h] is destroyed between [p] and [q]: its control
    socket is closed, its mutex destroyed and its memory freed. *)
Definition torn_down (h : cpc_handle_t) (p q : proc) : Prop :=
  exists lh a1 a2 a3,
    handles p !! ptr h = Some lh /\
    since p q = [ (Close (ctrl_sock_fd lh), a1);
                  (Mutex pthread_mutex_destroy (ctrl_sock_fd_lock (ptr h)), a2);
                  (Free (ptr h), a3) ] /\
    rv a1 = 0 /\ rv a2 = 0 /\
    handles q = delete (ptr h) (handles p) /\
    saved_instance_name q = saved_instance_name p /\
    saved_enable_tracing q = saved_enable_tracing p /\
    saved_reset_callback q = saved_reset_callback p.

(** What the environment answers to the two calls with which
    [cpc_restart] begins, in state [p], for the handle object [lh] at
    address [a]: [close] on its control socket, and, after that call,
    [pthread_mutex_destroy] on its mutex. *)
Definition close_answer (lh : sli_cpc_handle_t) (p : proc) : response :=
  libc (calls p) (Close (ctrl_sock_fd lh)).

Definition destroy_answer (a : Z) (lh : sli_cpc_handle_t) (p : proc) : response :=
  libc ((Close (ctrl_sock_fd lh), close_answer lh p) :: calls p)
    (Mutex pthread_mutex_destroy (ctrl_sock_fd_lock a)).

(** [restarted h p r h' p']: [cpc_restart], called in state [p] on the
    handle [h], destroys the old handle and then runs [cpc_init] with
    the saved instance name, tracing flag and reset callback, each
    attempt after a sleep of one second, at least once and at most 5
    times, stopping at the first attempt that returns 0; it returns
    [r], what the last attempt returned, which is 0 if and only if one
    attempt returned 0, and leaves the caller's handle as [h'] in state
    [p']. *)
Definition restarted (h : cpc_handle_t) (p : proc)
    (r : Z) (h' : option cpc_handle_t) (p' : proc) : Prop :=
  exists q rs,
    torn_down h p q /\
    retried (saved_instance_name p) (saved_enable_tracing p) (saved_reset_callback p)
      (Some (Opaque 0)) q rs (r, h') p' /\
    (1 <= length rs <= 5)%nat /\
    (r = 0 <-> 0 ∈ rs) /\
    (r <> 0 -> length rs = 5%nat).

End Restart.

(** ** A weakest-precondition reading of statements

    [wp m p Q]: the outcome of running [m] in state [p] satisfies [Q].
    The rules below follow the syntax of the statement, so that a
    function is executed symbolically one statement at a time. *)

Definition wp {R A} (m : stmt R A) (p : proc) (Q : outcome R A -> Prop) : Prop :=
  Q (m p).

Definition finished {R} (P : R -> proc -> Prop) (o : outcome R R) : Prop :=
  match o with
  | Next r p' => P r p'
  | Return r p' => P r p'
  | Stop _ _ => True
  end.

Definition terminated {R} (P : R -> proc -> Prop) (o : outcome R R) : Prop :=
  match o with
  | Next r p' => P r p'
  | Return r p' => P r p'
  | Stop _ _ => False
  end.


(** ** Messages and critical sections in the log *)

(** The messages sent, in the order of the calls: descriptor and bytes. *)
Fixpoint sent (d : list event) : list (Z * list Z) :=
  match d with
  | [] => []
  | (Send fd m _, _) :: d' => (fd, m) :: sent d'
  | _ :: d' => sent d'
  end.

(** The messages awaited, in the order of the calls: descriptor, length
    asked for and what the call answered. *)
Fixpoint received (d : list event) : list (Z * Z * response) :=
  match d with
  | [] => []
  | (Recv fd len _, a) :: d' => (fd, len, a) :: received d'
  | _ :: d' => received d'
  end.

Definition mutex_eqb (m m' : mutex) : bool :=
  match m, m' with
  | ctrl_sock_fd_lock a, ctrl_sock_fd_lock a' => a =? a'
  | sock_fd_lock a, sock_fd_lock a' => a =? a'
  | _, _ => false
  end.

(** [exclusive m fd held d]: starting with the mutex [m] held or not,
    the calls of [d] lock [m] only when it is not held and unlock it
    only when it is, send and receive on the descriptor [fd] only while
    it is held, and leave it released.  The library takes a lock for
    acquired unless [pthread_mutex_lock] returns a negative value. *)
Fixpoint exclusive (m : mutex) (fd : Z) (held : bool) (d : list event) : bool :=
  match d with
  | [] => negb held
  | (Mutex pthread_mutex_lock m', a) :: d' =>
      if mutex_eqb m' m then negb held && exclusive m fd (0 <=? rv a) d'
      else exclusive m fd held d'
  | (Mutex pthread_mutex_unlock m', _) :: d' =>
      if mutex_eqb m' m then held && exclusive m fd false d'
      else exclusive m fd held d'
  | (Send fd' _ _, _) :: d' =>
      (negb (fd' =? fd) || held) && exclusive m fd held d'
  | (Recv fd' _ _, _) :: d' =>
      (negb (fd' =? fd) || held) && exclusive m fd held d'
  | _ :: d' => exclusive m fd held d'
  end.

(** The addresses obtained from [malloc] (not NULL) and those given to
    [free], in the order of the calls. *)
Fixpoint allocated (d : list event) : list Z :=
  match d with
  | [] => []
  | (Malloc _, a) :: d' => if rv a =? 0 then allocated d' else rv a :: allocated d'
  | _ :: d' => allocated d'
  end.

Fixpoint freed (d : list event) : list Z :=
  match d with
  | [] => []
  | (Free a, _) :: d' => a :: freed d'
  | _ :: d' => freed d'
  end.

Section Queries.
Context `{Headers}.

Definition set_pid_query (pid : Z) : list Z :=
  exchange_buffer (EXCHANGE_SET_PID_QUERY mod 256) 0 (le_bytes 4 pid).

Definition open_endpoint_query (id : Z) : list Z :=
  exchange_buffer (EXCHANGE_OPEN_ENDPOINT_QUERY mod 256) id [0].

Definition close_endpoint_query (id : Z) : list Z :=
  exchange_buffer (EXCHANGE_CLOSE_ENDPOINT_QUERY mod 256) id [].

Definition endpoint_status_query (id size : Z) : list Z :=
  exchange_buffer (EXCHANGE_ENDPOINT_STATUS_QUERY mod 256) id (repeat 0 (Z.to_nat size)).

(** The flags that [recv] and [send] are given for the flags of a read
    or of a write. *)
Definition sock_flags_of (flags : Z) : Z :=
  if Z.land flags SL_CPC_FLAG_NON_BLOCK =? 0 then 0 else MSG_DONTWAIT.

End Queries.

(** ** Endpoint options *)

(** The [optlen] that [cpc_set_endpoint_option] accepts for an option
    ([None]: an option that cannot be set). *)
Definition set_option_length (o : cpc_option_t) : option Z :=
  match o with
  | CPC_OPTION_RX_TIMEOUT | CPC_OPTION_TX_TIMEOUT => Some sizeof_cpc_timeval_t
  | CPC_OPTION_BLOCKING => Some sizeof_bool
  | CPC_OPTION_SOCKET_SIZE => Some sizeof_int
  | _ => None
  end.

(** The socket option behind an endpoint option that is a socket
    option. *)
Definition sockopt_of (o : cpc_option_t) : option sockopt :=
  match o with
  | CPC_OPTION_RX_TIMEOUT => Some SO_RCVTIMEO
  | CPC_OPTION_TX_TIMEOUT => Some SO_SNDTIMEO
  | CPC_OPTION_SOCKET_SIZE => Some SO_SNDBUF
  | _ => None
  end.

(** The [errno] with which [cpc_get_endpoint_option] turns down an
    option and a [*optlen] before calling anything ([None]: it goes
    on). *)
Definition get_option_error (o : cpc_option_t) (len : Z) : option Z :=
  match o with
  | CPC_OPTION_RX_TIMEOUT | CPC_OPTION_TX_TIMEOUT =>
      if len =? sizeof_cpc_timeval_t then None else Some EINVAL
  | CPC_OPTION_BLOCKING => if len <? sizeof_bool then Some ENOMEM else None
  | CPC_OPTION_SOCKET_SIZE => if len <? sizeof_int then Some ENOMEM else None
  | CPC_OPTION_MAX_WRITE_SIZE => None
  | _ => Some EINVAL
  end.

(** ** The ways in which [cpc_open_endpoint] ends *)

(** The three ways in which [cpc_open_endpoint] ends, read off the log
    [d] of its calls: [socket] has returned 0; or the endpoint's mutex
    has been initialised ([pthread_mutex_init], the last call of a
    successful open, did not return a negative value); or neither. *)
Definition socket_gave_zero (d : list event) : Prop :=
  exists sa, (Socket, sa) ∈ d /\ rv sa = 0.

Definition mutex_initialised (d : list event) : Prop :=
  exists m i, (Mutex pthread_mutex_init m, i) ∈ d /\ 0 <= rv i.
(** * Lemmas and proof automation *)


Lemma since_app p p' d : calls p' = d ++ calls p -> since p p' = rev d.
Proof.
  intros E. unfold since. rewrite E, length_app.
  replace (length d + length (calls p) - length (calls p))%nat with (length d) by lia.
  by rewrite take_app_length.
Qed.

Lemma since_refl p : since p p = [].
Proof. by rewrite (since_app p p []). Qed.

Section Rules.
Context `{Headers} `{Libc}.
Context {R A B : Type}.
Implicit Types (p : proc) (Q : outcome R B -> Prop).

Lemma func_wp (body : stmt R R) p (P : R -> proc -> Prop) :
  wp body p (finished P) -> forall r p', func body p = Done r p' -> P r p'.
Proof.
  unfold wp, func, finished. destruct (body p); intros HP r' p' E;
    inversion E; by subst.
Qed.

Lemma func_wp_total (body : stmt R R) p (P : R -> proc -> Prop) :
  wp body p (terminated P) -> exists r p', func body p = Done r p' /\ P r p'.
Proof.
  unfold wp, func, terminated. destruct (body p); intros HP; eauto. done.
Qed.

Lemma wp_bind_ret (m : stmt R B) p Q : wp (bind m ret) p Q -> wp m p Q.
Proof. unfold wp, bind, ret. by destruct (m p). Qed.

Lemma wp_assoc {C} (m : stmt R C) (k1 : C -> stmt R A) (k : A -> stmt R B) p Q :
  wp (bind m (fun x => bind (k1 x) k)) p Q -> wp (bind (bind m k1) k) p Q.
Proof. unfold wp, bind. by destruct (m p). Qed.

Lemma wp_ret_bind (a : A) (k : A -> stmt R B) p Q :
  wp (k a) p Q -> wp (bind (ret a) k) p Q.
Proof. done. Qed.

Lemma wp_return_bind (r : R) (k : A -> stmt R B) p Q :
  Q (Return r p) -> wp (bind (return_ r) k) p Q.
Proof. done. Qed.

Lemma wp_stop_bind (f : fault) (k : A -> stmt R B) p Q :
  Q (Stop f p) -> wp (bind (stop f) k) p Q.
Proof. done. Qed.

Lemma wp_call (q : request) (k : response -> stmt R B) p Q :
  (forall a, a = libc (calls p) q ->
     wp (k a) (with_calls ((q, a) :: calls p)
                 (with_errno (default (errno p) (rerrno a)) p)) Q) ->
  wp (bind (call q) k) p Q.
Proof. intros HQ. by apply HQ. Qed.

Lemma wp_get (f : proc -> A) (k : A -> stmt R B) p Q v :
  f p = v -> wp (k v) p Q -> wp (bind (get f) k) p Q.
Proof. by intros <-. Qed.

Lemma wp_modify (f : proc -> proc) (k : unit -> stmt R B) p Q p' :
  f p = p' -> wp (k tt) p' Q -> wp (bind (modify f) k) p Q.
Proof. by intros <-. Qed.

Lemma wp_when (c : bool) (body : stmt R unit) (k : unit -> stmt R B) p Q :
  (c = true -> wp (bind body k) p Q) ->
  (c = false -> wp (k tt) p Q) ->
  wp (bind (when c body) k) p Q.
Proof. destruct c; auto. Qed.

Lemma wp_when_true (body : stmt R unit) (k : unit -> stmt R B) p Q :
  wp (bind body k) p Q -> wp (bind (when true body) k) p Q.
Proof. done. Qed.

Lemma wp_when_false (body : stmt R unit) (k : unit -> stmt R B) p Q :
  wp (k tt) p Q -> wp (bind (when false body) k) p Q.
Proof. done. Qed.

Lemma wp_invoke (body : stmt A A) (k : A -> stmt R B) p Q :
  wp body p (fun o => match o with
                      | Next a p' => wp (k a) p' Q
                      | Return a p' => wp (k a) p' Q
                      | Stop f p' => Q (Stop f p')
                      end) ->
  wp (bind (invoke (func body)) k) p Q.
Proof. unfold wp, bind, invoke, func. by destruct (body p). Qed.

Lemma wp_sys (q : request) (k : Z -> stmt R B) p Q :
  (forall a, a = libc (calls p) q ->
     wp (k (rv a)) (with_calls ((q, a) :: calls p)
                      (with_errno (default (errno p) (rerrno a)) p)) Q) ->
  wp (bind (sys q) k) p Q.
Proof. intros HQ. by apply HQ. Qed.

Lemma wp_recv (fd : Z) (buf : list Z) (len flags : Z) (k : Z * list Z -> stmt R B) p Q :
  (forall a, a = libc (calls p) (Recv fd len flags) ->
     wp (k (recv_count a len, recv_buffer a len buf))
        (with_calls ((Recv fd len flags, a) :: calls p)
           (with_errno (default (errno p) (rerrno a)) p)) Q) ->
  wp (bind (recv fd buf len flags) k) p Q.
Proof. intros HQ. by apply HQ. Qed.

Lemma wp_set_errno (e : Z) (k : unit -> stmt R B) p Q :
  wp (k tt) (with_errno e p) Q -> wp (bind (set_errno e) k) p Q.
Proof. done. Qed.

Lemma wp_lib_trace (msg : string) (k : unit -> stmt R B) p Q :
  (forall a, a = libc (calls p) (Stderr msg) ->
     wp (k tt) (with_calls ((Stderr msg, a) :: calls p) p) Q) ->
  wp (bind (lib_trace msg) k) p Q.
Proof. intros HQ. destruct p. by apply HQ. Qed.

Lemma wp_trace_lib_on (format : string) (k : unit -> stmt R B) p Q :
  saved_enable_tracing p = true ->
  (forall a, a = libc (calls p) (Stderr ("libcpc: " ++ format)) ->
     wp (k tt) (with_calls ((Stderr ("libcpc: " ++ format), a) :: calls p) p) Q) ->
  wp (bind (trace_lib format) k) p Q.
Proof.
  intros Ht HQ. unfold trace_lib, wp, bind at 1 2, get. rewrite Ht.
  by apply wp_lib_trace.
Qed.

Lemma wp_trace_lib_off (format : string) (k : unit -> stmt R B) p Q :
  saved_enable_tracing p = false ->
  wp (k tt) p Q ->
  wp (bind (trace_lib format) k) p Q.
Proof. intros Ht HQ. unfold trace_lib, wp, bind at 1 2, get. by rewrite Ht. Qed.

Lemma wp_trace_lib_error_on (format : string) (k : unit -> stmt R B) p Q :
  saved_enable_tracing p = true ->
  (forall a, a = libc (calls p) (Stderr ("libcpc: " ++ format ++ " : %m")) ->
     wp (k tt)
        (with_calls ((Stderr ("libcpc: " ++ format ++ " : %m"), a) :: calls p) p) Q) ->
  wp (bind (trace_lib_error format) k) p Q.
Proof.
  intros Ht HQ. unfold trace_lib_error, wp, bind at 1 2, get. rewrite Ht.
  by apply wp_lib_trace.
Qed.

Lemma wp_trace_lib_error_off (format : string) (k : unit -> stmt R B) p Q :
  saved_enable_tracing p = false ->
  wp (k tt) p Q ->
  wp (bind (trace_lib_error format) k) p Q.
Proof. intros Ht HQ. unfold trace_lib_error, wp, bind at 1 2, get. by rewrite Ht. Qed.

Lemma wp_free (a : Z) (k : unit -> stmt R B) p Q :
  (forall r, r = libc (calls p) (Free a) ->
     wp (k tt) (with_calls ((Free a, r) :: calls p) p) Q) ->
  wp (bind (free a) k) p Q.
Proof. intros HQ. destruct p. by apply HQ. Qed.

Lemma wp_free_handle (a : Z) (k : unit -> stmt R B) p Q :
  (forall r, r = libc (calls p) (Free a) ->
     wp (k tt) (with_handles (delete a (handles p))
                  (with_calls ((Free a, r) :: calls p) p)) Q) ->
  wp (bind (free_handle a) k) p Q.
Proof. intros HQ. destruct p. by apply HQ. Qed.

Lemma wp_free_endpoint (a : Z) (k : unit -> stmt R B) p Q :
  (forall r, r = libc (calls p) (Free a) ->
     wp (k tt) (with_endpoints (delete a (endpoints p))
                  (with_calls ((Free a, r) :: calls p) p)) Q) ->
  wp (bind (free_endpoint a) k) p Q.
Proof. intros HQ. destruct p. by apply HQ. Qed.

Lemma wp_store_handle (a : Z) (h : sli_cpc_handle_t) (k : unit -> stmt R B) p Q :
  wp (k tt) (with_handles (<[a := h]> (handles p)) p) Q ->
  wp (bind (store_handle a h) k) p Q.
Proof. done. Qed.

Lemma wp_store_endpoint (a : Z) (e : sli_cpc_endpoint_t) (k : unit -> stmt R B) p Q :
  wp (k tt) (with_endpoints (<[a := e]> (endpoints p)) p) Q ->
  wp (bind (store_endpoint a e) k) p Q.
Proof. done. Qed.

End Rules.

Section RulesHeap.
Context {R B : Type}.
Implicit Types (p : proc) (Q : outcome R B -> Prop).

Lemma wp_deref_handle (a : Z) (k : sli_cpc_handle_t -> stmt R B) p Q :
  match handles p !! a with
  | Some h => wp (k h) p Q
  | None => Q (Stop invalid_pointer p)
  end ->
  wp (bind (deref_handle a) k) p Q.
Proof. unfold wp, bind, deref_handle. by destruct (handles p !! a). Qed.

Lemma wp_deref_endpoint (a : Z) (k : sli_cpc_endpoint_t -> stmt R B) p Q :
  match endpoints p !! a with
  | Some h => wp (k h) p Q
  | None => Q (Stop invalid_pointer p)
  end ->
  wp (bind (deref_endpoint a) k) p Q.
Proof. unfold wp, bind, deref_endpoint. by destruct (endpoints p !! a). Qed.

End RulesHeap.

(** Normal form of a state expression. *)
Ltac proc_eval t :=
  eval lazy beta iota delta
    [with_errno with_saved_enable_tracing with_saved_instance_name
     with_saved_reset_callback with_sigusr1_handler with_handles with_endpoints
     with_calls errno saved_enable_tracing saved_instance_name
     saved_reset_callback sigusr1_handler handles endpoints calls] in t.

Ltac proc_norm :=
  lazymatch goal with
  | |- wp ?m ?p ?Q => let p' := proc_eval p in change (wp m p' Q)
  end.

Ltac wp_unfold_head m :=
  let h := lazymatch m with
           | ?h _ _ _ _ _ _ => h | ?h _ _ _ _ _ => h | ?h _ _ _ _ => h
           | ?h _ _ _ => h | ?h _ _ => h | ?h _ => h | ?h => h
           end in
  unfold h at 1.

(** Evaluate a test in which no variable occurs. *)
Ltac closed_test c :=
  tryif (match c with context [?v] => is_var v end) then fail
  else (let b := eval vm_compute in c in change c with b).

(** Use a hypothesis that settles (part of) the test [c]. *)
Ltac known_test c :=
  match goal with
  | Hc : ?x = ?b |- _ =>
      lazymatch b with true => idtac | false => idtac end;
      lazymatch c with context [x] => rewrite Hc; cbn [negb orb andb] end
  end.

(** The answer [a] of a call and what the environment says of it. *)
Ltac answer_named keep :=
  let a := fresh "a" in
  let Ea := fresh "Ea" in
  intros a Ea;
  lazymatch keep with
  | true => lazy beta iota delta [calls] in Ea
  | false => clear Ea
  end;
  proc_norm.

Ltac wp_trace keep :=
  lazymatch goal with
  | |- wp (bind (trace_lib ?f) ?k) ?p ?Q =>
      let t := proc_eval (saved_enable_tracing p) in
      lazymatch t with
      | true => simple apply (wp_trace_lib_on f k p Q eq_refl); answer_named keep
      | false => simple apply (wp_trace_lib_off f k p Q eq_refl)
      | _ => destruct t
      end
  | |- wp (bind (trace_lib_error ?f) ?k) ?p ?Q =>
      let t := proc_eval (saved_enable_tracing p) in
      lazymatch t with
      | true => simple apply (wp_trace_lib_error_on f k p Q eq_refl); answer_named keep
      | false => simple apply (wp_trace_lib_error_off f k p Q eq_refl)
      | _ => destruct t
      end
  end.

Ltac wp_step_gen keep :=
  lazy beta iota zeta;
  lazymatch goal with
  | |- wp (bind (when ?c _) _) _ _ =>
      lazymatch c with
      | context [if ?c' then _ else _] =>
          let E := fresh "E" in destruct c' eqn:E
      | _ => idtac
      end
  | |- wp (bind (match (if ?c' then _ else _) with _ => _ end) _) _ _ =>
      let E := fresh "E" in destruct c' eqn:E
  | |- _ => idtac
  end;
  lazymatch goal with
  | |- wp (bind (when ?c _) _) _ _ =>
      lazymatch c with
      | context [is_null None] => cbn [is_null negb orb andb]
      | context [is_null (Some _)] => cbn [is_null negb orb andb]
      | _ => idtac
      end
  | |- _ => idtac
  end;
  lazymatch goal with
  | |- wp (bind (bind _ _) _) _ _ => simple apply wp_assoc
  | |- wp (bind (ret _) _) _ _ => simple apply wp_ret_bind
  | |- wp (bind (return_ _) _) _ _ => simple apply wp_return_bind
  | |- wp (bind (stop _) _) _ _ => simple apply wp_stop_bind
  | |- wp (bind (call _) _) _ _ => simple apply wp_call; answer_named keep
  | |- wp (bind (sys _) _) _ _ => simple apply wp_sys; answer_named keep
  | |- wp (bind (recv _ _ _ _) _) _ _ => simple apply wp_recv; answer_named keep
  | |- wp (bind (free _) _) _ _ => simple apply wp_free; answer_named keep
  | |- wp (bind (free_handle _) _) _ _ => simple apply wp_free_handle; answer_named keep
  | |- wp (bind (free_endpoint _) _) _ _ =>
      simple apply wp_free_endpoint; answer_named keep
  | |- wp (bind (trace_lib _) _) _ _ => wp_trace keep
  | |- wp (bind (trace_lib_error _) _) _ _ => wp_trace keep
  | |- wp (bind (set_errno _) _) _ _ => simple apply wp_set_errno; proc_norm
  | |- wp (bind (store_handle _ _) _) _ _ => simple apply wp_store_handle; proc_norm
  | |- wp (bind (store_endpoint _ _) _) _ _ =>
      simple apply wp_store_endpoint; proc_norm
  | |- wp (bind (get ?f) ?k) ?p ?Q =>
      let v := proc_eval (f p) in
      simple apply (wp_get f k p Q v eq_refl)
  | |- wp (bind (modify ?f) ?k) ?p ?Q =>
      let p' := proc_eval (f p) in
      simple apply (wp_modify f k p Q p' eq_refl)
  | |- wp (bind (when true _) _) _ _ => simple apply wp_when_true
  | |- wp (bind (when false _) _) _ _ => simple apply wp_when_false
  | |- wp (bind (when ?c _) _) _ _ =>
      first
        [ is_var c; destruct c
        | closed_test c
        | known_test c
        | let E := fresh "E" in simple apply wp_when; intros E ]
  | |- wp (bind (if ?c then _ else _) _) _ _ =>
      first
        [ is_var c; destruct c
        | closed_test c
        | known_test c
        | let E := fresh "E" in destruct c eqn:E ]
  | |- wp (bind (match ?o with _ => _ end) _) _ _ =>
      tryif is_var o then destruct o
      else (let E := fresh "E" in destruct o eqn:E)
  | |- wp (bind (invoke (func _)) _) _ _ => simple apply wp_invoke
  | |- wp (bind (invoke ?f) _) _ _ => wp_unfold_head f
  | |- wp (bind (deref_handle _) _) _ _ =>
      simple apply wp_deref_handle; lazy beta iota delta [handles];
      rewrite ?lookup_insert_eq
  | |- wp (bind (deref_endpoint _) _) _ _ =>
      simple apply wp_deref_endpoint; lazy beta iota delta [endpoints];
      rewrite ?lookup_insert_eq
  | |- wp (bind ?m _) _ _ => wp_unfold_head m
  | |- wp (ret ?a) ?p ?Q => change (Q (Next a p))
  | |- wp (return_ ?r) ?p ?Q => change (Q (Return r p))
  | |- wp (stop ?f) ?p ?Q => change (Q (Stop f p))
  | |- wp _ _ _ => simple apply wp_bind_ret
  | |- finished _ _ => unfold finished
  | |- terminated _ _ => unfold terminated
  | |- match ?o with _ => _ end =>
      first
        [ is_var o; destruct o
        | match goal with Hl : o = _ |- _ => rewrite Hl end
        | let E := fresh "E" in destruct o eqn:E ]
  end.

Ltac wp_step := wp_step_gen false.

(** Symbolic execution; [wp_run_eq] keeps, for every call, the equation
    that says which answer of the environment it stands for. *)
Ltac wp_run_eq := repeat wp_step_gen true.
Ltac wp_run := repeat wp_step.

Ltac wp_start :=
  lazymatch goal with
  | |- forall r p', func ?body ?p = Done r p' -> @?P r p' =>
      apply (func_wp body p P)
  | |- exists r p', func ?body ?p = Done r p' /\ @?P r p' =>
      apply (func_wp_total body p P)
  end.

Ltac prefix_of l l0 :=
  lazymatch l with
  | l0 => constr:(@nil event)
  | ?e :: ?t => let d := prefix_of t l0 in constr:(e :: d)
  end.

(** Spell out [since p p'] when the log of [p'] visibly extends that of [p]. *)
Ltac since_norm :=
  repeat match goal with
  | |- context [since ?p ?p'] =>
      let l := eval lazy beta iota delta [calls] in (calls p') in
      let l0 := eval lazy beta iota delta [calls] in (calls p) in
      let d := prefix_of l l0 in
      rewrite (since_app p p' d) by reflexivity
  end; cbn [rev app].


(** Membership of an event in a spelled-out piece of log. *)
Ltac elem_cases H :=
  repeat first
    [ apply elem_of_nil in H; contradiction
    | apply elem_of_cons in H; destruct H as [H | H];
      [ try discriminate H | ] ].

Ltac elem_solve :=
  repeat first [ apply list_elem_of_here | apply list_elem_of_further ].

Ltac only_traces_solve :=
  unfold only_traces; repeat first [ apply Forall_nil_2 | apply Forall_cons_2; [exact I | ] ].

Lemma only_traces_cons e d : only_traces (e :: d) -> is_Stderr e /\ only_traces d.
Proof. apply Forall_cons_1. Qed.

(** A log with a call other than trace output is not [only_traces]. *)
Ltac traces_inv Ht :=
  repeat (apply only_traces_cons in Ht;
          let Hh := fresh in
          destruct Ht as [Hh Ht]; try (exfalso; exact Hh); clear Hh).

(** The test of the path length. *)
Lemma too_long_test path :
  sizeof_sun_path - 1 <= strlen path ->
  (strlen path <? 0) || (sizeof_sun_path - 1 <=? strlen path) = false -> False.
Proof.
  intros Hl [_ E]%orb_false_elim. apply Z.leb_gt in E. lia.
Qed.

Lemma fits_test path :
  (strlen path <? 0) || (sizeof_sun_path - 1 <=? strlen path) = false ->
  strlen path < sizeof_sun_path - 1.
Proof. intros [_ E]%orb_false_elim. by apply Z.leb_gt in E. Qed.

Lemma fits_not_rejected path :
  strlen path < sizeof_sun_path - 1 ->
  (strlen path <? 0) || (sizeof_sun_path - 1 <=? strlen path) = true -> False.
Proof.
  intros Hl [E | E]%orb_prop.
  - apply Z.ltb_lt in E. unfold strlen in E. lia.
  - apply Z.leb_le in E. lia.
Qed.


Section Properties.
Context `{Headers} `{Libc}.

(** C10. Reads require a minimum buffer size at the public interface:
    a call of [cpc_read_endpoint] with a NULL buffer, with [count]
    strictly less than [SL_CPC_READ_MINIMUM_SIZE] or with a NULL
    endpoint returns -1 with [errno] set to [EINVAL]; it calls nothing
    but the trace output, so that nothing is received from the socket,
    and the caller's buffer and the library's objects are untouched. *)
Theorem cpc_read_endpoint_rejects_invalid_arguments
    (endpoint : cpc_endpoint_t) (buffer : option (list Z)) (count flags : Z) (p : proc) :
  buffer = None \/ count < SL_CPC_READ_MINIMUM_SIZE \/ ptr endpoint = 0 ->
  exists r p',
    cpc_read_endpoint endpoint buffer count flags p = Done r p' /\
    r = (-1, buffer) /\ errno p' = EINVAL /\
    only_traces (since p p') /\
    (forall fd len fl a, (Recv fd len fl, a) ∉ since p p') /\
    handles p' = handles p /\ endpoints p' = endpoints p.
Proof.
  intros Hbad.
  assert (E : is_null buffer || (count <? SL_CPC_READ_MINIMUM_SIZE)
              || (ptr endpoint =? 0) = true).
  { destruct Hbad as [-> | [Hc | Hp]]; [done | | ].
    - apply Z.ltb_lt in Hc. rewrite Hc. by destruct (is_null buffer).
    - apply Z.eqb_eq in Hp. rewrite Hp. apply orb_true_r. }
  destruct p as [e0 tr nm cb sh hs es l0].
  unfold cpc_read_endpoint. wp_start. rewrite E.
  wp_run; since_norm; (repeat split); try only_traces_solve;
    try (intros fd len fl r Hin; elem_cases Hin).
Qed.

(** C1, as amended.  When the endpoint's socket reports the end of the
    connection ([recv] returns 0 bytes), [cpc_read_endpoint] returns -1
    and sets [errno] to [ECONNRESET]. *)
Theorem cpc_read_endpoint_connection_lost
    (endpoint : cpc_endpoint_t) (buffer : option (list Z)) (count flags : Z)
    (p : proc) (r : Z * option (list Z)) (p' : proc) :
  cpc_read_endpoint endpoint buffer count flags p = Done r p' ->
  forall fd len fl a,
    (Recv fd len fl, a) ∈ since p p' ->
    recv_count a len = 0 ->
    r.1 = -1 /\ errno p' = ECONNRESET.
Proof.
  destruct p as [e0 tr nm cb sh hs es l0].
  revert r p'. unfold cpc_read_endpoint. wp_start.
  wp_run; try exact I; since_norm; intros fd len fl r Hin Hr; elem_cases Hin.
  all: try done.
  all: injection Hin as -> -> -> ->.
  all: match goal with
       | Hc : (recv_count _ _ =? 0) = false |- _ => apply Z.eqb_neq in Hc; congruence
       end.
Qed.

Lemma cpc_close_endpoint_leaves_null endpoint p re p' :
  cpc_close_endpoint endpoint p = Done re p' ->
  re.2 = None \/ re.2 = Some (Opaque 0).
Proof.
  destruct p as [e0 tr nm cb sh hs es l0].
  revert re p'. unfold cpc_close_endpoint. wp_start.
  wp_run; try exact I; cbn [snd]; auto.
  all: match goal with
       | Hc : (ptr ?o =? 0) = true |- _ =>
           apply Z.eqb_eq in Hc; destruct o; simpl in Hc; subst; auto
       end.
Qed.

Lemma cpc_close_endpoint_null endpoint p :
  endpoint = None \/ endpoint = Some (Opaque 0) ->
  exists r p',
    cpc_close_endpoint endpoint p = Done r p' /\
    r = (-1, endpoint) /\ errno p' = EINVAL /\
    only_traces (since p p') /\
    handles p' = handles p /\ endpoints p' = endpoints p.
Proof.
  destruct p as [e0 tr nm cb sh hs es l0].
  unfold cpc_close_endpoint. intros [-> | ->]; wp_start;
    wp_run; since_norm; (repeat split); only_traces_solve.
Qed.

(** C2, as amended.  Closing an endpoint that [cpc_close_endpoint] has
    already been called on is an error without effect: the second call
    returns -1 with [errno] set to [EINVAL], calls nothing but the trace
    output, and leaves the caller's endpoint (NULL) and the library's
    objects as they are. *)
Theorem cpc_close_endpoint_twice
    (endpoint : option cpc_endpoint_t) (p : proc)
    (r : Z) (endpoint' : option cpc_endpoint_t) (p' : proc) :
  cpc_close_endpoint endpoint p = Done (r, endpoint') p' ->
  exists p'',
    cpc_close_endpoint endpoint' p' = Done (-1, endpoint') p'' /\
    errno p'' = EINVAL /\
    only_traces (since p' p'') /\
    handles p'' = handles p' /\ endpoints p'' = endpoints p'.
Proof.
  intros E. apply cpc_close_endpoint_leaves_null in E.
  destruct (cpc_close_endpoint_null endpoint' p' E) as (r2 & p'' & E2 & -> & He);
    eauto.
Qed.

Lemma cpc_open_endpoint_window_rejected handle endpoint id tx_window_size p inst :
  saved_instance_name p = Some inst ->
  strlen (ep_socket_path inst id) < sizeof_sun_path - 1 ->
  tx_window_size <> 1 ->
  exists r p',
    cpc_open_endpoint handle endpoint id tx_window_size p = Done r p' /\
    r = (-1, endpoint) /\ errno p' = EINVAL /\
    only_traces (since p p') /\
    handles p' = handles p /\ endpoints p' = endpoints p.
Proof.
  destruct p as [e0 tr nm cb sh hs es l0]. cbn [saved_instance_name].
  intros -> Hfit Htx.
  assert (Efit : (strlen (ep_socket_path inst id) <? 0)
                 || (sizeof_sun_path - 1 <=? strlen (ep_socket_path inst id)) = false).
  { apply orb_false_intro; [apply Z.ltb_ge; unfold strlen; lia | by apply Z.leb_gt]. }
  apply Z.eqb_neq in Htx.
  unfold cpc_open_endpoint. wp_start.
  wp_run; since_norm; (repeat split); only_traces_solve.
Qed.

Lemma cpc_open_endpoint_window_1 handle endpoint id p inst r p' :
  saved_instance_name p = Some inst ->
  strlen (ep_socket_path inst id) < sizeof_sun_path - 1 ->
  cpc_open_endpoint handle endpoint id 1 p = Done r p' ->
  only_traces (since p p') ->
  id = 0 \/ endpoint = None \/ ptr handle = 0.
Proof.
  destruct p as [e0 tr nm cb sh hs es l0]. cbn [saved_instance_name].
  intros -> Hfit.
  assert (Efit : (strlen (ep_socket_path inst id) <? 0)
                 || (sizeof_sun_path - 1 <=? strlen (ep_socket_path inst id)) = false).
  { apply orb_false_intro; [apply Z.ltb_ge; unfold strlen; lia | by apply Z.leb_gt]. }
  revert r p'. unfold cpc_open_endpoint. wp_start.
  wp_run; try exact I; since_norm; intros Ht; traces_inv Ht.
  all: match goal with
       | Hc : (_ =? 0) || is_null _ || (_ =? 0) = true |- _ =>
           apply orb_prop in Hc as [Hc | Hc];
           [ apply orb_prop in Hc as [Hc | Hc] | ]
       end.
  all: try (left; by apply Z.eqb_eq).
  all: try (right; right; by apply Z.eqb_eq).
  all: right; left; by destruct endpoint.
Qed.

(** C3, as amended.  [cpc_open_endpoint] admits a TX window of 1 only.
    Whenever the socket path fits, a request with any other
    [tx_window_size] (2 to 7 included) fails with [EINVAL] before
    anything is asked of the daemon; with [tx_window_size = 1] the
    request is never turned down at that point: if it is rejected
    without a call to the C library, then the id is 0 or the endpoint
    or the handle is NULL. *)
Theorem cpc_open_endpoint_tx_window_size
    (handle : cpc_handle_t) (endpoint : option cpc_endpoint_t)
    (id tx_window_size : Z) (p : proc) (inst : string) :
  saved_instance_name p = Some inst ->
  strlen (ep_socket_path inst id) < sizeof_sun_path - 1 ->
  tx_window_size <> 1 ->
  (exists p',
     cpc_open_endpoint handle endpoint id tx_window_size p = Done (-1, endpoint) p' /\
     errno p' = EINVAL /\
     only_traces (since p p') /\
     handles p' = handles p /\ endpoints p' = endpoints p) /\
  (forall r p',
     cpc_open_endpoint handle endpoint id 1 p = Done r p' ->
     only_traces (since p p') ->
     id = 0 \/ endpoint = None \/ ptr handle = 0).
Proof.
  intros Hi Hfit Htx. split.
  - destruct (cpc_open_endpoint_window_rejected handle endpoint id tx_window_size p inst
                Hi Hfit Htx) as (r & p' & E & -> & He).
    eauto.
  - intros r p'. by apply cpc_open_endpoint_window_1 with inst.
Qed.

End Properties.

Section Properties2.
Context `{Headers} `{Libc}.

Lemma recv_count_full a len :
  0 <= rv a -> 0 <= len -> (Z.to_nat len <= length (rdata a))%nat ->
  recv_count a len = len.
Proof.
  intros Hrv Hlen Hd. unfold recv_count.
  destruct (rv a <? 0) eqn:E; [apply Z.ltb_lt in E; lia |].
  rewrite length_take. lia.
Qed.

Lemma version_mismatch_count a :
  version_mismatch a ->
  recv_count a (sizeof_cpcd_exchange_buffer_t + sizeof_uint8_t)
  = sizeof_cpcd_exchange_buffer_t + sizeof_uint8_t.
Proof.
  intros (Hrv & Hlen & _). apply recv_count_full; [done | done |].
  change (Z.to_nat (sizeof_cpcd_exchange_buffer_t + sizeof_uint8_t)) with 3%nat. lia.
Qed.

Lemma version_mismatch_byte a q :
  version_mismatch a ->
  nth 0 (payload (recv_buffer a (sizeof_cpcd_exchange_buffer_t + sizeof_uint8_t) q)) 0
  = nth 2 (rdata a) 0.
Proof.
  intros (Hrv & Hlen & _). unfold recv_buffer, payload.
  destruct (rv a <? 0) eqn:E; [apply Z.ltb_lt in E; lia |].
  destruct (rdata a) as [| b0 [| b1 [| b2 t]]]; simpl in Hlen; try lia.
  reflexivity.
Qed.

(** The version exchange inside a piece of log. *)
Ltac reply_cases Hr :=
  cbn [reply_to fst] in Hr;
  repeat lazymatch type of Hr with
    | _ \/ _ =>
        let Hq := fresh "Hq" in
        let Ha := fresh "Ha" in
        destruct Hr as [[Hq Ha] | Hr];
        [ cbv [exchange_buffer version_query max_write_size_query repeat] in Hq;
          try discriminate Hq; try (injection Hq as _ _ Hq; discriminate Hq) | ]
    | False => destruct Hr
    end.

Ltac mismatch_tests Hm :=
  repeat match goal with
    | E : context [recv_count ?r (sizeof_cpcd_exchange_buffer_t + sizeof_uint8_t)] |- _ =>
        rewrite (version_mismatch_count r Hm) in E
    | E : context [nth 0 (payload (recv_buffer ?r _ ?q)) 0] |- _ =>
        rewrite (version_mismatch_byte r q Hm) in E
    | E : negb (?x =? ?x) = true |- _ => rewrite Z.eqb_refl in E; discriminate E
    | E : negb (nth 2 _ 0 =? LIBRARY_API_VERSION) = false |- _ =>
        apply negb_false_iff, Z.eqb_eq in E; destruct Hm as (_ & _ & Hm); contradiction
    end.

Lemma check_version_mismatch lib_handle p ok p' :
  check_version lib_handle p = Done ok p' ->
  forall a, reply_to version_query a (since p p') -> version_mismatch a ->
  ok = false /\ errno p' = ELIBBAD.
Proof.
  destruct p as [e0 tr nm cb sh hs es l0].
  revert ok p'. unfold check_version. wp_start.
  wp_run; try exact I; since_norm; intros r Hr Hm; reply_cases Hr.
  all: subst; mismatch_tests Hm; done.
Qed.

Lemma cpc_init_version_mismatch handle instance_name enable_tracing reset_callback p rh p' :
  cpc_init handle instance_name enable_tracing reset_callback p = Done rh p' ->
  forall a, reply_to version_query a (since p p') -> version_mismatch a ->
  rh = (-1, handle) /\ errno p' = ELIBBAD /\
  (forall k h, handles p' !! k = Some h -> handles p !! k = Some h).
Proof.
  destruct p as [e0 tr nm cb sh hs es l0].
  revert rh p'. unfold cpc_init. wp_start.
  wp_run; try exact I; since_norm; intros r Hr Hm; reply_cases Hr.
  all: subst; mismatch_tests Hm.
  all: (repeat split); try done.
  all: cbn [handles]; intros k h; rewrite lookup_delete; case_decide; [done |];
    by rewrite !lookup_insert_ne.
Qed.

(** C4. On a version mismatch the library aborts its initialisation.
    Whenever the daemon answers the version query with a reply whose
    version byte differs from [LIBRARY_API_VERSION], [check_version]
    returns false with [errno] set to [ELIBBAD], and [cpc_init] returns
    -1, leaves [ELIBBAD] in [errno], does not touch the caller's handle
    and leaves no handle object behind. *)
Theorem version_mismatch_aborts_init :
  (forall lib_handle p ok p' a,
     check_version lib_handle p = Done ok p' ->
     reply_to version_query a (since p p') -> version_mismatch a ->
     ok = false /\ errno p' = ELIBBAD) /\
  (forall handle instance_name enable_tracing reset_callback p r handle' p' a,
     cpc_init handle instance_name enable_tracing reset_callback p = Done (r, handle') p' ->
     reply_to version_query a (since p p') -> version_mismatch a ->
     r = -1 /\ handle' = handle /\ errno p' = ELIBBAD /\
     (forall k h, handles p' !! k = Some h -> handles p !! k = Some h)).
Proof.
  split.
  - intros lib_handle p ok p' a E Hr Hm. by eapply check_version_mismatch.
  - intros handle instance_name enable_tracing reset_callback p r handle' p' a E Hr Hm.
    destruct (cpc_init_version_mismatch _ _ _ _ _ _ _ E a Hr Hm) as (Er & He & Hh).
    injection Er as -> ->. done.
Qed.

Lemma recv_count_head a len q :
  recv_count a len = sizeof_cpcd_exchange_buffer_t ->
  nth 0 (recv_buffer a len q) 0 = nth 0 (rdata a) 0.
Proof.
  unfold recv_count, recv_buffer, sizeof_cpcd_exchange_buffer_t.
  destruct (rv a <? 0) eqn:E; [apply Z.ltb_lt in E; lia |].
  intros Hl. destruct (Z.to_nat len) as [| n]; [simpl in Hl; lia |].
  destruct (rdata a) as [| b t]; [simpl in Hl; lia |]. reflexivity.
Qed.

Lemma ack_size a :
  recv_count a ack_recv_length = sizeof_cpcd_exchange_buffer_t ->
  0 <= rv a /\ Z.of_nat (length (rdata a)) = sizeof_cpcd_exchange_buffer_t.
Proof.
  unfold recv_count, ack_recv_length, sizeof_cpcd_exchange_buffer_t, sizeof_bool.
  destruct (rv a <? 0) eqn:E; [apply Z.ltb_lt in E; lia |].
  apply Z.ltb_ge in E. rewrite length_take. lia.
Qed.

Lemma ack_test a q :
  negb (recv_count a ack_recv_length =? sizeof_cpcd_exchange_buffer_t)
  || negb (nth 0 (recv_buffer a ack_recv_length q) 0 =? EXCHANGE_OPEN_ENDPOINT_QUERY)
  = false ->
  is_ack a.
Proof.
  intros [E1 E2]%orb_false_elim.
  apply negb_false_iff, Z.eqb_eq in E1. apply negb_false_iff, Z.eqb_eq in E2.
  destruct (ack_size a E1) as [Hrv Hlen].
  split; [done |]. split; [done |]. by rewrite <- (recv_count_head a ack_recv_length q).
Qed.

Lemma cpc_open_endpoint_ack handle endpoint id tx_window_size p re p' :
  cpc_open_endpoint handle endpoint id tx_window_size p = Done re p' ->
  (forall fd len a,
     first_message (since p p') = Some (fd, len, a) ->
     len = ack_recv_length /\
     (~ is_ack a ->
      re = (-1, endpoint) /\
      exists c, (Close fd, c) ∈ after_Connect (since p p'))) /\
  (0 <= re.1 ->
   exists a, first_message (since p p') = Some (re.1, ack_recv_length, a) /\ is_ack a).
Proof.
  destruct p as [e0 tr nm cb sh hs es l0].
  revert re p'. unfold cpc_open_endpoint. wp_start.
  wp_run; try exact I; since_norm; cbn [fst snd first_message after_Connect first_Recv].
  all: (split; [ intros fd len r Hfm | intros Hr ]); try discriminate Hfm; try lia.
  all: try (injection Hfm as <- <- <-; split; [reflexivity | intros Hna]).
  all: try (split; [ done | eexists; elem_solve ]; fail).
  all: match goal with E : _ || _ = false |- _ => apply ack_test in E end.
  all: try contradiction.
  all: eauto.
Qed.

(** C5. After connecting to the endpoint socket, [cpc_open_endpoint]
    awaits one message, asking [recv] for one byte more than an
    acknowledgement has, and succeeds (returns a descriptor) only if
    that first message of the server is the acknowledgement: a message
    of exactly [sizeof(cpcd_exchange_buffer_t)] bytes, hence with no
    payload, of type [EXCHANGE_OPEN_ENDPOINT_QUERY].  For every other
    first message (a longer or a shorter one, another type, a closed
    connection, an error) it closes the socket, returns -1 and leaves
    the caller's endpoint as it was. *)
Theorem cpc_open_endpoint_awaits_server_ack
    (handle : cpc_handle_t) (endpoint : option cpc_endpoint_t) (id tx_window_size : Z)
    (p : proc) (r : Z) (endpoint' : option cpc_endpoint_t) (p' : proc) :
  cpc_open_endpoint handle endpoint id tx_window_size p = Done (r, endpoint') p' ->
  (forall fd len a,
     first_message (since p p') = Some (fd, len, a) ->
     len = sizeof_cpcd_exchange_buffer_t + sizeof_bool /\
     (~ is_ack a ->
      r = -1 /\ endpoint' = endpoint /\
      exists c, (Close fd, c) ∈ after_Connect (since p p'))) /\
  (0 <= r ->
   exists a,
     first_message (since p p')
     = Some (r, sizeof_cpcd_exchange_buffer_t + sizeof_bool, a) /\
     is_ack a).
Proof.
  intros E. destruct (cpc_open_endpoint_ack _ _ _ _ _ _ _ E) as [Hbad Hok].
  split; [| exact Hok].
  intros fd len a Hfm. destruct (Hbad fd len a Hfm) as [Hlen Hrej].
  split; [exact Hlen |]. intros Hna.
  destruct (Hrej Hna) as [[= -> ->] Hc]. done.
Qed.


Lemma le_value_bound bs : 0 <= le_value bs < 256 ^ Z.of_nat (length bs).
Proof.
  induction bs as [| b bs IH]; simpl le_value; [simpl; lia |].
  rewrite length_cons, Nat2Z.inj_succ, Z.pow_succ_r by lia.
  pose proof (Z.mod_pos_bound b 256). lia.
Qed.

Lemma stored_max_write_size g src :
  (to_ssize_t (memcpy_uint32_into_size_t g src) <? 0) = false ->
  to_size_t (to_ssize_t (memcpy_uint32_into_size_t g src)) mod 2 ^ 32
  = le_value (take 4 src).
Proof.
  unfold to_size_t, to_ssize_t, memcpy_uint32_into_size_t.
  pose proof (le_value_bound (take 4 src)) as HL.
  assert (Hlen : (length (take 4 src) <= 4)%nat) by (rewrite length_take; lia).
  assert (HL' : 0 <= le_value (take 4 src) < 2 ^ 32).
  { split; [lia |]. eapply Z.lt_le_trans; [apply HL |].
    change (2 ^ 32) with (256 ^ 4). apply Z.pow_le_mono_r; lia. }
  set (L := le_value (take 4 src)) in *.
  pose proof (Z.mod_pos_bound g (2 ^ 64)) as Hg.
  set (u := g mod 2 ^ 64) in *.
  assert (Hq : 0 <= u / 2 ^ 32 < 2 ^ 32).
  { split; [apply Z.div_pos; lia |]. apply Z.div_lt_upper_bound; lia. }
  set (q := u / 2 ^ 32) in *.
  assert (Hm : (q * 2 ^ 32 + L) mod 2 ^ 64 = q * 2 ^ 32 + L).
  { apply Z.mod_small. nia. }
  rewrite Hm. intros Hs.
  destruct (q * 2 ^ 32 + L <? 2 ^ 63) eqn:E.
  - rewrite Hm. rewrite Z.add_comm, Z.mod_add by lia. apply Z.mod_small. lia.
  - apply Z.ltb_ge in E, Hs. nia.
Qed.

Lemma max_write_payload a q :
  recv_count a (sizeof_cpcd_exchange_buffer_t + sizeof_uint32_t)
  = sizeof_cpcd_exchange_buffer_t + sizeof_uint32_t ->
  take 4 (payload (recv_buffer a (sizeof_cpcd_exchange_buffer_t + sizeof_uint32_t) q))
  = take 4 (payload (rdata a)).
Proof.
  unfold recv_count, recv_buffer, payload.
  change (sizeof_cpcd_exchange_buffer_t + sizeof_uint32_t) with 6.
  change (Z.to_nat sizeof_cpcd_exchange_buffer_t) with 2%nat.
  change (Z.to_nat 6) with 6%nat.
  destruct (rv a <? 0) eqn:E; [apply Z.ltb_lt in E; lia |].
  intros Hl.
  destruct (rdata a) as [| b0 [| b1 [| b2 [| b3 [| b4 [| b5 t]]]]]];
    simpl in Hl; try lia.
  reflexivity.
Qed.

Lemma cpc_open_endpoint_send_buffer handle endpoint id tx_window_size p re p' :
  cpc_open_endpoint handle endpoint id tx_window_size p = Done re p' ->
  0 <= re.1 ->
  exists a,
    (Setsockopt re.1 SO_SNDBUF (opt_int 4087), a) ∈ since p p' /\ rv a = 0.
Proof.
  destruct p as [e0 tr nm cb sh hs es l0].
  revert re p'. unfold cpc_open_endpoint. wp_start.
  wp_run; try exact I; since_norm; cbn [fst]; intros Hr; try lia.
  all: match goal with
       | E : negb (rv ?a =? 0) = false |- _ =>
           apply negb_false_iff, Z.eqb_eq in E; exists a; split; [elem_solve | exact E]
       end.
Qed.

Lemma cpc_write_endpoint_too_large endpoint data data_length flags p ep lh :
  endpoints p !! ptr endpoint = Some ep ->
  handles p !! lib_handle ep = Some lh ->
  max_write_size lh < data_length ->
  exists r p',
    cpc_write_endpoint endpoint data data_length flags p = Done r p' /\
    r = -1 /\ errno p' = EINVAL /\
    only_traces (since p p') /\
    (forall fd msg fl a, (Send fd msg fl, a) ∉ since p p').
Proof.
  destruct p as [e0 tr nm cb sh hs es l0]. cbn [endpoints handles].
  intros Hep Hlh Hbig. apply Z.ltb_lt in Hbig.
  unfold cpc_write_endpoint. wp_start.
  wp_run; since_norm; (repeat split); try only_traces_solve;
    intros fd msg fl r Hin; elem_cases Hin.
Qed.

Lemma cpc_init_max_write_size handle instance_name enable_tracing reset_callback p rh p' :
  cpc_init handle instance_name enable_tracing reset_callback p = Done rh p' ->
  rh.1 = 0 ->
  exists h lh a,
    rh.2 = Some h /\ handles p' !! ptr h = Some lh /\
    reply_to max_write_size_query a (since p p') /\
    max_write_size lh mod 2 ^ 32 = le_value (take 4 (payload (rdata a))).
Proof.
  destruct p as [e0 tr nm cb sh hs es l0].
  revert rh p'. unfold cpc_init. wp_start.
  wp_run; try exact I; since_norm; cbn [fst snd]; intros Hr; try discriminate Hr.
  all: eexists _, _, _; split; [reflexivity |]; cbn [handles ptr].
  all: rewrite lookup_insert_eq; split; [reflexivity |].
  all: split; [cbn [reply_to fst]; auto 10 |].
  all: cbn [max_write_size].
  all: match goal with
       | E : (to_ssize_t _ <? 0) = false |- _ => rewrite (stored_max_write_size _ _ E)
       end.
  all: f_equal; apply max_write_payload.
  all: match goal with
       | E : negb (_ =? _) = false |- _ => by apply negb_false_iff, Z.eqb_eq in E
       end.
Qed.

(** The send buffer of an endpoint socket and the bound on the writes.
    A successful [cpc_open_endpoint] has set [SO_SNDBUF] of the socket
    it returns to 4087.  [cpc_write_endpoint] with a [data_length]
    greater than the [max_write_size] of the endpoint's library handle
    returns -1 with [errno] set to [EINVAL] and sends nothing.  Of that
    [max_write_size], stored by [cpc_init], the 32 low bits are the
    payload of the daemon's reply to the maximal-write-size query; the
    32 high bits are those of a variable that [get_max_write] does not
    initialise. *)
Theorem send_buffer_and_write_bound :
  (forall handle endpoint id tx_window_size p r endpoint' p',
     cpc_open_endpoint handle endpoint id tx_window_size p = Done (r, endpoint') p' ->
     0 <= r ->
     exists a,
       (Setsockopt r SO_SNDBUF (opt_int 4087), a) ∈ since p p' /\ rv a = 0) /\
  (forall endpoint data data_length flags p ep lh,
     endpoints p !! ptr endpoint = Some ep ->
     handles p !! lib_handle ep = Some lh ->
     max_write_size lh < data_length ->
     exists p',
       cpc_write_endpoint endpoint data data_length flags p = Done (-1) p' /\
       errno p' = EINVAL /\
       only_traces (since p p') /\
       (forall fd msg fl a, (Send fd msg fl, a) ∉ since p p')) /\
  (forall handle instance_name enable_tracing reset_callback p handle' p',
     cpc_init handle instance_name enable_tracing reset_callback p = Done (0, handle') p' ->
     exists h lh a,
       handle' = Some h /\ handles p' !! ptr h = Some lh /\
       reply_to max_write_size_query a (since p p') /\
       max_write_size lh mod 2 ^ 32 = le_value (take 4 (payload (rdata a)))).
Proof.
  split; [| split].
  - intros handle endpoint id tx_window_size p r endpoint' p' E Hr.
    exact (cpc_open_endpoint_send_buffer _ _ _ _ _ _ _ E Hr).
  - intros endpoint data data_length flags p ep lh Hep Hlh Hbig.
    destruct (cpc_write_endpoint_too_large endpoint data data_length flags p ep lh
                Hep Hlh Hbig) as (r & p' & E & -> & He).
    eauto.
  - intros handle instance_name enable_tracing reset_callback p handle' p' E.
    exact (cpc_init_max_write_size _ _ _ _ _ _ _ E eq_refl).
Qed.

End Properties2.

Section Properties3.
Context `{Headers} `{Libc}.

Lemma cpc_init_socket_path handle instance_name enable_tracing reset_callback p rh p' inst :
  cpc_init handle instance_name enable_tracing reset_callback p = Done rh p' ->
  saved_instance_name p' = Some inst ->
  inst = match saved_instance_name p with
         | Some n => n
         | None => default DEFAULT_INSTANCE_NAME instance_name
         end /\
  (forall fd path a, (Connect fd path, a) ∈ since p p' -> path = ctrl_socket_path inst) /\
  (rh.1 = 0 ->
   exists fd a, (Connect fd (ctrl_socket_path inst), a) ∈ since p p' /\ 0 <= rv a) /\
  (sizeof_sun_path - 1 <= strlen (ctrl_socket_path inst) ->
   rh.1 = -1 /\ errno p' = ERANGE /\
   forall fd path a, (Connect fd path, a) ∉ since p p').
Proof.
  destruct p as [e0 tr [n |] cb sh hs es l0];
    revert rh p'; unfold cpc_init; wp_start.
  all: wp_run; try exact I; since_norm; cbn [fst snd saved_instance_name];
    intros Hi; try discriminate Hi; injection Hi as <-.
  all: split; [reflexivity |].
  all: split; [intros fd path r Hin; elem_cases Hin; by injection Hin as _ -> |].
  all: split; [intros Hr; try discriminate Hr |
               intros Hl; try (exfalso; eapply too_long_test; eassumption)].
  all: try (repeat split; try done; intros fd path r Hin; elem_cases Hin; fail).
  all: match goal with
       | E : (rv ?a <? 0) = false |- context [(Connect ?fd _, ?a)] =>
           exists fd, a; split; [elem_solve | by apply Z.ltb_ge in E]
       end.
Qed.

Lemma cpc_open_endpoint_socket_path handle endpoint id tx_window_size p re p' inst :
  cpc_open_endpoint handle endpoint id tx_window_size p = Done re p' ->
  saved_instance_name p = Some inst ->
  (forall fd path a, (Connect fd path, a) ∈ since p p' -> path = ep_socket_path inst id) /\
  (0 <= re.1 ->
   exists a, (Connect re.1 (ep_socket_path inst id), a) ∈ since p p' /\ 0 <= rv a) /\
  (sizeof_sun_path - 1 <= strlen (ep_socket_path inst id) ->
   re.1 = -1 /\ errno p' = ERANGE /\
   forall fd path a, (Connect fd path, a) ∉ since p p').
Proof.
  destruct p as [e0 tr nm cb sh hs es l0]. cbn [saved_instance_name].
  intros E ->. revert re p' E. unfold cpc_open_endpoint. wp_start.
  wp_run; try exact I; since_norm; cbn [fst snd].
  all: split; [intros fd path r Hin; elem_cases Hin; by injection Hin as _ -> |].
  all: split; [intros Hr; try lia |
               intros Hl; try (exfalso; eapply too_long_test; eassumption)].
  all: try (repeat split; try done; intros fd path r Hin; elem_cases Hin; fail).
  all: match goal with
       | E : (rv ?a <? 0) = false |- context [(Connect ?fd _, ?a)] =>
           exists a; split; [elem_solve | by apply Z.ltb_ge in E]
       end.
Qed.

(** C8. The library connects to the daemon's well-known socket paths.
    With [inst] the instance name the library has saved (the one saved
    by an earlier call, else the one given to [cpc_init], else
    ["cpcd_0"]), every [connect] of [cpc_init] is to
    [<socket folder>/cpcd/<inst>/ctrl.cpcd.sock] and a successful
    [cpc_init] made one that succeeded; every [connect] of
    [cpc_open_endpoint] for endpoint [id] is to
    [<socket folder>/cpcd/<inst>/ep<id>.cpcd.sock] and a successful
    [cpc_open_endpoint] made one that succeeded, on the descriptor it
    returns.  When the path does not fit the [sun_path] buffer (here:
    as soon as it has [sizeof(sun_path) - 1] characters), the call fails
    with [ERANGE] and connects to nothing. *)
Theorem library_connects_to_well_known_paths :
  (forall handle instance_name enable_tracing reset_callback p r handle' p' inst,
     cpc_init handle instance_name enable_tracing reset_callback p = Done (r, handle') p' ->
     saved_instance_name p' = Some inst ->
     let path := DEFAULT_SOCKET_FOLDER +:+ "/cpcd/" +:+ inst +:+ "/ctrl.cpcd.sock" in
     inst = match saved_instance_name p with
            | Some n => n
            | None => default DEFAULT_INSTANCE_NAME instance_name
            end /\
     (forall fd path' a, (Connect fd path', a) ∈ since p p' -> path' = path) /\
     (r = 0 -> exists fd a, (Connect fd path, a) ∈ since p p' /\ 0 <= rv a) /\
     (sizeof_sun_path - 1 <= strlen path ->
      r = -1 /\ errno p' = ERANGE /\
      forall fd path' a, (Connect fd path', a) ∉ since p p')) /\
  (forall handle endpoint id tx_window_size p r endpoint' p' inst,
     cpc_open_endpoint handle endpoint id tx_window_size p = Done (r, endpoint') p' ->
     saved_instance_name p = Some inst ->
     let path :=
       DEFAULT_SOCKET_FOLDER +:+ "/cpcd/" +:+ inst +:+ "/ep" +:+ decimal id +:+ ".cpcd.sock" in
     (forall fd path' a, (Connect fd path', a) ∈ since p p' -> path' = path) /\
     (0 <= r -> exists a, (Connect r path, a) ∈ since p p' /\ 0 <= rv a) /\
     (sizeof_sun_path - 1 <= strlen path ->
      r = -1 /\ errno p' = ERANGE /\
      forall fd path' a, (Connect fd path', a) ∉ since p p')).
Proof.
  split.
  - intros handle instance_name enable_tracing reset_callback p r handle' p' inst E Hi.
    exact (cpc_init_socket_path _ _ _ _ _ _ _ _ E Hi).
  - intros handle endpoint id tx_window_size p r endpoint' p' inst E Hi.
    exact (cpc_open_endpoint_socket_path _ _ _ _ _ _ _ _ E Hi).
Qed.

End Properties3.

Section Properties4.
Context `{Headers} `{Libc}.

Lemma land_clear_bit f m : Z.land (Z.land f (Z.lnot m)) m = 0.
Proof.
  apply Z.bits_inj'. intros n Hn.
  rewrite !Z.land_spec, Z.lnot_spec, Z.bits_0 by lia.
  by destruct (Z.testbit f n), (Z.testbit m n).
Qed.

Lemma land_set_bit f m : Z.land (Z.lor f m) m = m.
Proof.
  apply Z.bits_inj'. intros n Hn.
  rewrite Z.land_spec, Z.lor_spec.
  by destruct (Z.testbit f n), (Z.testbit m n).
Qed.

Lemma set_blocking_flags (f : Z) (b : bool) :
  Z.land (if b then Z.land f (Z.lnot O_NONBLOCK) else Z.lor f O_NONBLOCK) O_NONBLOCK
  = if b then 0 else O_NONBLOCK.
Proof. destruct b; [apply land_clear_bit | apply land_set_bit]. Qed.

Lemma blocking_round_trip endpoint b p r1 p1 :
  cpc_set_endpoint_option endpoint CPC_OPTION_BLOCKING (Some (opt_bool b)) sizeof_bool p
  = Done r1 p1 ->
  r1 = 0 ->
  (exists fd fl a,
     (FcntlSetfl fd fl, a) ∈ since p p1 /\
     Z.land fl O_NONBLOCK = if b then 0 else O_NONBLOCK) /\
  forall optval optlen rvl p2,
    cpc_get_endpoint_option endpoint CPC_OPTION_BLOCKING optval optlen p1 = Done rvl p2 ->
    rvl.1.1 = 0 ->
    (exists fd a,
       (FcntlGetfl fd, a) ∈ since p1 p2 /\
       rvl.1.2 = Some (opt_bool (Z.land (rv a) O_NONBLOCK =? 0))) /\
    rvl.2 = Some sizeof_bool /\
    (fcntl_keeps_O_NONBLOCK -> rvl.1.2 = Some (opt_bool b)).
Proof.
  destruct p as [e0 tr nm cb sh hs es l0].
  revert r1 p1. unfold cpc_set_endpoint_option. wp_start.
  wp_run; try exact I; intros Hr1; try discriminate Hr1.
  all: split; [since_norm; eexists _, _, _; split; [elem_solve | apply set_blocking_flags] |].
  all: intros optval optlen; unfold cpc_get_endpoint_option; wp_start.
  all: wp_run_eq; try exact I; cbn [fst snd]; intros Hr2; try discriminate Hr2.
  all: since_norm.
  all: assert (Hbit : fcntl_keeps_O_NONBLOCK ->
                      Z.land (rv a3) O_NONBLOCK = if b then 0 else O_NONBLOCK).
  1, 3: intros Hlaw;
    match type of Ea with
    | _ = libc ?log (FcntlGetfl ?fd) =>
        pose proof (Hlaw log fd) as Hl; cbn [last_setfl] in Hl
    end;
    rewrite Z.eqb_refl in Hl;
    apply Z.ltb_ge in E4; apply Z.leb_le in E4; rewrite E4 in Hl; cbn [andb] in Hl;
    specialize (Hl _ eq_refl); rewrite <- Ea in Hl;
    apply Z.ltb_ge in E7; specialize (Hl E7);
    by rewrite set_blocking_flags in Hl.
  - apply negb_true_iff in E8.
    split; [exists (sock_fd s), a3; split; [elem_solve | by rewrite E8] |].
    split; [done |]. intros Hlaw. specialize (Hbit Hlaw).
    destruct b; [| done]. apply Z.eqb_neq in E8. contradiction.
  - apply negb_false_iff in E8.
    split; [exists (sock_fd s), a3; split; [elem_solve | by rewrite E8] |].
    split; [done |]. intros Hlaw. specialize (Hbit Hlaw).
    destruct b; [done |]. apply Z.eqb_eq in E8. rewrite E8 in Hbit. discriminate Hbit.
Qed.

(** C9. The blocking-mode option makes a round trip.  A successful
    [cpc_set_endpoint_option(CPC_OPTION_BLOCKING, b)] passes to
    [F_SETFL] flags in which [O_NONBLOCK] is clear if and only if [b] is
    true; a successful [cpc_get_endpoint_option(CPC_OPTION_BLOCKING)]
    then reports true if and only if [O_NONBLOCK] is clear in the flags
    that [F_GETFL] answers, and stores [sizeof(bool)] in [*optlen]; as
    the kernel keeps the flag of an open descriptor, the value reported
    is [b]. *)
Theorem blocking_option_round_trip
    (endpoint : cpc_endpoint_t) (b : bool) (p p1 : proc)
    (optval : option optval_t) (optlen : option Z)
    (optval' : option optval_t) (optlen' : option Z) (p2 : proc) :
  fcntl_keeps_O_NONBLOCK ->
  cpc_set_endpoint_option endpoint CPC_OPTION_BLOCKING (Some (opt_bool b)) sizeof_bool p
  = Done 0 p1 ->
  cpc_get_endpoint_option endpoint CPC_OPTION_BLOCKING optval optlen p1
  = Done (0, optval', optlen') p2 ->
  optval' = Some (opt_bool b) /\ optlen' = Some sizeof_bool /\
  (exists fd fl a,
     (FcntlSetfl fd fl, a) ∈ since p p1 /\
     Z.land fl O_NONBLOCK = if b then 0 else O_NONBLOCK) /\
  (exists fd a,
     (FcntlGetfl fd, a) ∈ since p1 p2 /\
     optval' = Some (opt_bool (Z.land (rv a) O_NONBLOCK =? 0))).
Proof.
  intros Hlaw Eset Eget.
  destruct (blocking_round_trip _ _ _ _ _ Eset eq_refl) as [Hset Hget].
  destruct (Hget _ _ _ _ Eget eq_refl) as (Hfl & Hlen & Hval).
  cbn [fst snd] in *. auto.
Qed.

End Properties4.

Section Properties5.
Context `{Headers} `{Libc}.

Lemma cpc_init_total handle instance_name enable_tracing reset_callback p :
  exists rh p',
    cpc_init handle instance_name enable_tracing reset_callback p = Done rh p' /\ True.
Proof.
  destruct p as [e0 tr [n |] cb sh hs es l0]; unfold cpc_init; wp_start.
  all: wp_run; exact I.
Qed.

Lemma cpc_init_saved handle instance_name enable_tracing reset_callback p rh p' :
  cpc_init handle instance_name enable_tracing reset_callback p = Done rh p' ->
  saved_enable_tracing p' = enable_tracing /\
  saved_reset_callback p' = reset_callback /\
  (forall n, saved_instance_name p = Some n -> saved_instance_name p' = Some n) /\
  (forall inst,
     reset_callback <> 0 -> saved_instance_name p' = Some inst ->
     strlen (ctrl_socket_path inst) < sizeof_sun_path - 1 ->
     sigusr1_handler p' = true) /\
  (rh.1 = 0 ->
   exists inst, saved_instance_name p' = Some inst /\
                strlen (ctrl_socket_path inst) < sizeof_sun_path - 1).
Proof.
  destruct p as [e0 tr [n |] cb sh hs es l0]; revert rh p'; unfold cpc_init; wp_start.
  all: wp_run; try exact I;
    cbn [fst snd saved_enable_tracing saved_reset_callback saved_instance_name
         sigusr1_handler].
  all: split; [reflexivity |]; split; [reflexivity |]; split; [by intros ? [= <-] |].
  all: split;
    [ intros inst Hcb Hi Hfit; try discriminate Hi; try reflexivity
    | intros Hr; try discriminate Hr; try (eexists; split; [reflexivity |]; by apply fits_test) ].
  all: injection Hi as <-.
  all: try (exfalso; eapply fits_not_rejected; eassumption).
  all: match goal with
       | E : negb (_ =? 0) = false |- _ =>
           apply negb_false_iff, Z.eqb_eq in E; contradiction
       end.
Qed.

Lemma sleep_spec seconds q :
  exists q1,
    sleep seconds q = Done tt q1 /\
    saved_instance_name q1 = saved_instance_name q /\
    saved_enable_tracing q1 = saved_enable_tracing q /\
    saved_reset_callback q1 = saved_reset_callback q.
Proof. by eexists. Qed.

Lemma restart_loop_unfold {R} n r0 h q :
  restart_loop (R := R) (S n) r0 h q =
  match sleep 1 q with
  | Done _ q1 =>
      match cpc_init h (saved_instance_name q1) (saved_enable_tracing q1)
              (saved_reset_callback q1) q1 with
      | Done rh p1 =>
          if rh.1 =? 0 then Next rh p1 else restart_loop n rh.1 rh.2 p1
      | Fault f p1 => Stop f p1
      end
  | Fault f q1 => Stop f q1
  end.
Proof.
  cbn [restart_loop]. unfold bind at 1, invoke at 1.
  destruct (sleep 1 q) as [[] q1 | f q1]; [| reflexivity].
  unfold bind, get, invoke.
  destruct (cpc_init _ _ _ _ q1) as [[r1 h1] p1 | f p1]; [| reflexivity].
  cbn [fst snd]. by destruct (r1 =? 0).
Qed.

Lemma restart_loop_spec {R} n : forall r0 h q name,
  saved_instance_name q = Some name ->
  exists rs rh p',
    restart_loop (R := R) (S n) r0 h q = Next rh p' /\
    retried (Some name) (saved_enable_tracing q) (saved_reset_callback q) h q rs rh p' /\
    (1 <= length rs <= S n)%nat /\
    (rh.1 = 0 <-> 0 ∈ rs) /\
    (rh.1 <> 0 -> length rs = S n).
Proof.
  induction n as [| n IH]; intros r0 h q name Hname.
  all: rewrite restart_loop_unfold.
  all: destruct (sleep_spec 1 q) as (q1 & Es & Hn1 & Ht1 & Hc1).
  all: rewrite Es, Hn1, Ht1, Hc1, Hname.
  all: destruct (cpc_init_total h (Some name) (saved_enable_tracing q)
                   (saved_reset_callback q) q1) as (rh & p1 & Ei & _).
  all: rewrite Ei.
  all: destruct rh as [r1 h1]; cbn [fst snd] in *.
  all: destruct (r1 =? 0) eqn:E0.
  1, 3: apply Z.eqb_eq in E0; exists [r1], (r1, h1), p1; split; [done |];
    split; [by eapply (retried_last _ _ _ _ _ _ (r1, h1)) |]; cbn [length fst];
    split; [lia |]; split; [| done];
    split; [intros _; rewrite E0; apply list_elem_of_here | done].
  - apply Z.eqb_neq in E0. exists [r1], (r1, h1), p1. split; [done |].
    split; [by eapply (retried_last _ _ _ _ _ _ (r1, h1)) |]. cbn [length fst].
    split; [lia |]. split; [| done].
    split; [done |]. intros Hin. apply elem_of_cons in Hin as [Hin | Hin]; [congruence | by apply elem_of_nil in Hin].
  - apply Z.eqb_neq in E0.
    destruct (cpc_init_saved _ _ _ _ _ _ _ Ei) as (Ht & Hc & Hn & _).
    rewrite Hn1 in Hn. specialize (Hn _ Hname).
    destruct (IH r1 h1 p1 name Hn) as (rs & rh' & p' & El & Hr & Hlen & Hz & Hfull).
    rewrite Ht, Hc in Hr.
    exists (r1 :: rs), rh', p'. split; [done |].
    split.
    { eapply retried_again; [exact Es | exact Ei | exact E0 | exact Hr]. }
    cbn [length]. split; [lia |]. split.
    + rewrite Hz. rewrite elem_of_cons. split; [auto |]. intros [Hc0 | Hin]; [congruence | done].
    + intros Hne. rewrite (Hfull Hne). done.
Qed.

Lemma deliver_SIGUSR1_calls p cb :
  sigusr1_handler p = true -> saved_reset_callback p = cb -> cb <> 0 ->
  exists p'' a, deliver_SIGUSR1 p = Done tt p'' /\ since p p'' = [(Callback cb, a)].
Proof.
  destruct p as [e0 tr nm cb0 sh hs es l0]. cbn [sigusr1_handler saved_reset_callback].
  intros -> -> Hcb. unfold deliver_SIGUSR1. cbn [sigusr1_handler].
  apply Z.eqb_neq in Hcb.
  cut (exists r p'', SIGUSR1_handler SIGUSR1 (Proc e0 tr nm cb true hs es l0) = Done r p'' /\
         exists a, since (Proc e0 tr nm cb true hs es l0) p'' = [(Callback cb, a)]).
  { intros ([] & p'' & E & a & Hs). eauto. }
  unfold SIGUSR1_handler. wp_start. wp_run. since_norm. eauto.
Qed.

Ltac wp_run_eq_to_loop :=
  repeat lazymatch goal with
    | |- wp (restart_loop _ _ _) _ _ => fail
    | |- _ => wp_step_gen true
    end.

Lemma cpc_restart_null (h : cpc_handle_t) p :
  ptr h = 0 ->
  exists rh p',
    cpc_restart (Some h) p = Done rh p' /\
    (rh = (-1, Some h) /\ errno p' = EINVAL /\ since p p' = [] /\
     handles p' = handles p).
Proof.
  destruct p as [e0 tr nm cb sh hs es l0]. intros Hp. apply Z.eqb_eq in Hp.
  unfold cpc_restart. wp_start. wp_run.
  rewrite (since_app _ _ []) by reflexivity. done.
Qed.

Lemma cpc_restart_cases (h : cpc_handle_t) p lh name :
  ptr h <> 0 ->
  handles p !! ptr h = Some lh ->
  saved_instance_name p = Some name ->
  exists rh p',
    cpc_restart (Some h) p = Done rh p' /\
    ((rv (close_answer lh p) <> 0 ->
      rh = (-1, Some h) /\ errno p' = EINVAL /\ handles p' = handles p /\
      since p p' = [(Close (ctrl_sock_fd lh), close_answer lh p)]) /\
     (rv (close_answer lh p) = 0 -> rv (destroy_answer (ptr h) lh p) <> 0 ->
      rh = (-1, Some h) /\ errno p' = EINVAL /\ handles p' = handles p /\
      since p p' = [(Close (ctrl_sock_fd lh), close_answer lh p);
                    (Mutex pthread_mutex_destroy (ctrl_sock_fd_lock (ptr h)),
                     destroy_answer (ptr h) lh p)]) /\
     (rv (close_answer lh p) = 0 -> rv (destroy_answer (ptr h) lh p) = 0 ->
      restarted h p rh.1 rh.2 p')).
Proof.
  destruct p as [e0 tr nm cb sh hs es l0].
  unfold close_answer, destroy_answer, restarted.
  cbn [handles saved_instance_name saved_enable_tracing saved_reset_callback calls].
  intros Hp Hlh ->. apply Z.eqb_neq in Hp.
  unfold cpc_restart. wp_start.
  wp_run_eq_to_loop.
  all: subst.
  all: repeat match goal with
       | E : negb (_ =? 0) = true |- _ => apply negb_true_iff, Z.eqb_neq in E
       | E : negb (_ =? 0) = false |- _ => apply negb_false_iff, Z.eqb_eq in E
       end.
  - split; [intros _; since_norm; done |].
    split; [intros Hc; contradiction | intros Hc; contradiction].
  - split; [intros Hc; contradiction |].
    split; [intros _ _; since_norm; done | intros _ Hd; contradiction].
  - match goal with
    | |- @wp ?R _ (restart_loop ?n ?r0 ?h0) ?q _ =>
        destruct (restart_loop_spec (R := R) 4 r0 h0 q name eq_refl)
          as (rs & rh & p' & El & Hr & Hlen & Hz & Hfull);
        unfold wp; rewrite El; cbn [terminated]
    end.
    split; [intros Hc; contradiction |].
    split; [intros _ Hd; contradiction |]. intros _ _.
    destruct rh as [r handle']. cbn [fst snd] in *.
    eexists _, rs. split; [| done].
    unfold torn_down. since_norm. eexists _, _, _, _.
    cbn [handles saved_instance_name saved_enable_tracing saved_reset_callback].
    split; [eassumption |]. split; [reflexivity |]. done.
Qed.


Lemma cpc_init_calls handle instance_name enable_tracing reset_callback p rh p' :
  cpc_init handle instance_name enable_tracing reset_callback p = Done rh p' ->
  (length (calls p) <= length (calls p'))%nat.
Proof.
  destruct p as [e0 tr [n |] cb sh hs es l0]; revert rh p'; unfold cpc_init; wp_start.
  all: wp_run; try exact I; cbn [calls length]; lia.
Qed.

Lemma retried_calls name tracing cb h q rs rh p' :
  retried name tracing cb h q rs rh p' ->
  (length (calls q) < length (calls p'))%nat.
Proof.
  induction 1 as [h q q1 rh p' Es Ei | h q q1 r1 h1 p1 rs rh p' Es Ei Hne Hr IH].
  all: apply cpc_init_calls in Ei.
  all: assert (length (calls q1) = S (length (calls q)))
         by (destruct q; injection Es as <-; reflexivity).
  all: lia.
Qed.

(** A restart leaves at least four calls in the log: [close],
    [pthread_mutex_destroy], [free] and a [sleep]. *)
Lemma restarted_calls h p r h' p' :
  restarted h p r h' p' -> (4 <= length (since p p'))%nat.
Proof.
  intros (q & rs & (lh & a1 & a2 & a3 & _ & Hs & _) & Hr & _).
  apply retried_calls in Hr.
  apply (f_equal length) in Hs. unfold since in *.
  rewrite length_rev, length_take in *. cbn [length] in Hs. lia.
Qed.

(** C7. On a link reset the client re-initialises with the saved
    parameters.  After a [cpc_init] that was given a non-NULL
    [reset_callback] and got as far as building the socket path (every
    successful one does), the delivery of SIGUSR1 invokes that callback.
    [cpc_restart] re-initialises only after it has torn the old handle
    down.  Given a handle that holds no handle object ([ptr] NULL) it
    returns -1 with [EINVAL] and calls nothing.  Given one that holds a
    handle object, it calls [close] on its control socket and, when
    that returns 0, [pthread_mutex_destroy] on its mutex; when either
    returns another value it returns -1 with [EINVAL] at once, leaving
    the handle object in place and calling nothing more.  When both
    return 0 it frees the old handle and then runs [cpc_init] with the
    saved instance name, tracing flag and reset callback, each attempt
    after a sleep of one second, at least once and at most 5 times,
    stopping at the first attempt that returns 0; it returns what the
    last attempt returned, which is 0 if and only if one attempt
    returned 0. *)
Theorem link_reset_reinitialises :
  (forall handle instance_name enable_tracing reset_callback p r handle' p' inst,
     cpc_init handle instance_name enable_tracing reset_callback p = Done (r, handle') p' ->
     reset_callback <> 0 ->
     saved_instance_name p' = Some inst ->
     strlen (ctrl_socket_path inst) < sizeof_sun_path - 1 ->
     exists p'' a,
       deliver_SIGUSR1 p' = Done tt p'' /\
       since p' p'' = [(Callback reset_callback, a)]) /\
  (forall handle instance_name enable_tracing reset_callback p handle' p',
     cpc_init handle instance_name enable_tracing reset_callback p = Done (0, handle') p' ->
     reset_callback <> 0 ->
     exists p'' a,
       deliver_SIGUSR1 p' = Done tt p'' /\
       since p' p'' = [(Callback reset_callback, a)]) /\
  (forall (h : cpc_handle_t) (p : proc),
     ptr h = 0 ->
     exists p',
       cpc_restart (Some h) p = Done (-1, Some h) p' /\
       errno p' = EINVAL /\ since p p' = [] /\ handles p' = handles p) /\
  (forall (h : cpc_handle_t) (p : proc) (lh : sli_cpc_handle_t) (name : string),
     ptr h <> 0 ->
     handles p !! ptr h = Some lh ->
     saved_instance_name p = Some name ->
     exists r handle' p',
       cpc_restart (Some h) p = Done (r, handle') p' /\
       (rv (close_answer lh p) <> 0 ->
        r = -1 /\ handle' = Some h /\ errno p' = EINVAL /\ handles p' = handles p /\
        since p p' = [(Close (ctrl_sock_fd lh), close_answer lh p)]) /\
       (rv (close_answer lh p) = 0 -> rv (destroy_answer (ptr h) lh p) <> 0 ->
        r = -1 /\ handle' = Some h /\ errno p' = EINVAL /\ handles p' = handles p /\
        since p p' = [(Close (ctrl_sock_fd lh), close_answer lh p);
                      (Mutex pthread_mutex_destroy (ctrl_sock_fd_lock (ptr h)),
                       destroy_answer (ptr h) lh p)]) /\
       (rv (close_answer lh p) = 0 -> rv (destroy_answer (ptr h) lh p) = 0 ->
        restarted h p r handle' p')).
Proof.
  split; [| split; [| split]].
  - intros handle instance_name enable_tracing reset_callback p r handle' p' inst
      E Hcb Hi Hfit.
    destruct (cpc_init_saved _ _ _ _ _ _ _ E) as (_ & Hc & _ & Hs & _).
    apply deliver_SIGUSR1_calls; [by apply Hs with inst | done | done].
  - intros handle instance_name enable_tracing reset_callback p handle' p' E Hcb.
    destruct (cpc_init_saved _ _ _ _ _ _ _ E) as (_ & Hc & _ & Hs & Hok).
    destruct (Hok eq_refl) as (inst & Hi & Hfit).
    apply deliver_SIGUSR1_calls; [by apply Hs with inst | done | done].
  - intros h p Hp.
    destruct (cpc_restart_null h p Hp) as (rh & p' & E & -> & He & Hs & Hh).
    exists p'. done.
  - intros h p lh name Hp Hlh Hn.
    destruct (cpc_restart_cases h p lh name Hp Hlh Hn)
      as ([r handle'] & p' & E & Hclose & Hdestroy & Hok).
    exists r, handle', p'. split; [exact E |].
    split; [| split; [| exact Hok]].
    + intros Hc. destruct (Hclose Hc) as ([= -> ->] & ?). done.
    + intros Hc Hd. destruct (Hdestroy Hc Hd) as ([= -> ->] & ?). done.
Qed.

End Properties5.

(** * Further properties of the library *)

Section ReadWrite.
Context `{Headers} `{Libc}.

Lemma recv_count_bound a len : 0 < recv_count a len -> recv_count a len <= len.
Proof.
  unfold recv_count. destruct (rv a <? 0) eqn:E; [apply Z.ltb_lt in E; lia |].
  rewrite length_take. lia.
Qed.

Lemma recv_buffer_take a len buf :
  0 <= rv a ->
  take (Z.to_nat (recv_count a len)) (recv_buffer a len buf)
  = take (Z.to_nat (recv_count a len)) (rdata a) /\
  drop (Z.to_nat (recv_count a len)) (recv_buffer a len buf)
  = drop (Z.to_nat (recv_count a len)) buf.
Proof.
  intros Hr. unfold recv_count, recv_buffer.
  destruct (rv a <? 0) eqn:E; [apply Z.ltb_lt in E; lia |].
  rewrite Nat2Z.id. set (d := take (Z.to_nat len) (rdata a)).
  split.
  - rewrite take_app_length. unfold d. rewrite length_take.
    destruct (Nat.le_gt_cases (Z.to_nat len) (length (rdata a))) as [Hl | Hl].
    + by rewrite Nat.min_l.
    + rewrite Nat.min_r by lia. by rewrite !take_ge by lia.
  - by rewrite drop_app_length.
Qed.

Lemma recv_count_failed a len : rv a < 0 -> recv_count a len = rv a.
Proof. intros Hr. unfold recv_count. apply Z.ltb_lt in Hr. by rewrite Hr. Qed.

Lemma recv_buffer_failed a len buf : rv a < 0 -> recv_buffer a len buf = buf.
Proof. intros Hr. unfold recv_buffer. apply Z.ltb_lt in Hr. by rewrite Hr. Qed.

Lemma sock_flags_of_eq flags :
  (if Z.land flags SL_CPC_FLAG_NON_BLOCK =? 0 then 0 else Z.lor 0 MSG_DONTWAIT)
  = sock_flags_of flags.
Proof. unfold sock_flags_of. by destruct (_ =? 0). Qed.

(** [cpc_write_endpoint] with a NULL endpoint, NULL data or a length of
    0 returns -1 with [errno] set to [EINVAL]; it calls nothing but the
    trace output and leaves the library's objects as they are. *)
Theorem cpc_write_endpoint_rejects_invalid_arguments
    (endpoint : cpc_endpoint_t) (data : option (list Z)) (data_length flags : Z)
    (p : proc) :
  ptr endpoint = 0 \/ data = None \/ data_length = 0 ->
  exists p',
    cpc_write_endpoint endpoint data data_length flags p = Done (-1) p' /\
    errno p' = EINVAL /\
    only_traces (since p p') /\
    handles p' = handles p /\ endpoints p' = endpoints p.
Proof.
  intros Hbad.
  assert (E : (ptr endpoint =? 0) || is_null data || (data_length =? 0) = true).
  { destruct Hbad as [Hp | [-> | Hl]].
    - apply Z.eqb_eq in Hp. by rewrite Hp.
    - cbn [is_null]. by rewrite orb_true_r.
    - apply Z.eqb_eq in Hl. rewrite Hl. apply orb_true_r. }
  destruct p as [e0 tr nm cb sh hs es l0].
  enough (exists r p', cpc_write_endpoint endpoint data data_length flags
                         (Proc e0 tr nm cb sh hs es l0) = Done r p' /\
                       r = -1 /\ errno p' = EINVAL /\ only_traces (since (Proc e0 tr nm cb sh hs es l0) p') /\
                       handles p' = hs /\ endpoints p' = es)
    as (r & p' & E' & -> & Hrest) by eauto.
  unfold cpc_write_endpoint. wp_start. rewrite E.
  wp_run; since_norm; (repeat split); only_traces_solve.
Qed.

(** A write is all or nothing: when [cpc_write_endpoint] does not return
    -1, it has sent the first [data_length] bytes of the data in one
    message on the endpoint's socket, with [MSG_DONTWAIT] exactly when
    the flags have [SL_CPC_FLAG_NON_BLOCK], that message is the only one
    it sent, and it returns [data_length], which is not 0 and at most
    the [max_write_size] of the library handle. *)
Theorem cpc_write_endpoint_whole_message
    (endpoint : cpc_endpoint_t) (data : option (list Z)) (data_length flags : Z)
    (p : proc) (r : Z) (p' : proc) :
  cpc_write_endpoint endpoint data data_length flags p = Done r p' ->
  r <> -1 ->
  exists ep lh bytes a,
    endpoints p !! ptr endpoint = Some ep /\
    handles p !! lib_handle ep = Some lh /\
    data = Some bytes /\
    data_length <> 0 /\ data_length <= max_write_size lh /\
    (Send (sock_fd ep) (take (Z.to_nat data_length) bytes) (sock_flags_of flags), a)
      ∈ since p p' /\
    sent (since p p') = [(sock_fd ep, take (Z.to_nat data_length) bytes)] /\
    rv a = r /\ to_size_t r = data_length.
Proof.
  destruct p as [e0 tr nm cb sh hs es l0].
  revert r p'. destruct data as [bytes |]; unfold cpc_write_endpoint; wp_start.
  all: wp_run; try exact I; since_norm; intros Hr; try congruence.
  all: rewrite ?sock_flags_of_eq.
  all: repeat match goal with
       | E : _ || _ = false |- _ => apply orb_false_elim in E as [? ?]
       end.
  all: try discriminate.
  all: eexists _, _, _, _; cbn [endpoints handles default].
  all: split; [reflexivity |]; split; [eassumption |]; split; [reflexivity |].
  all: split; [by apply Z.eqb_neq |]; split; [by apply Z.ltb_ge |].
  all: split; [elem_solve |]; split; [reflexivity |]; split; [reflexivity |].
  all: match goal with
       | E : negb (_ =? _) = false |- _ => by apply negb_false_iff, Z.eqb_eq in E
       end.
Qed.

(** [cpc_read_endpoint] never returns 0: it returns -1, or the length
    of the message that one [recv] on the endpoint's socket delivered,
    which is positive and at most [count].  In that case [recv] was
    given [MSG_DONTWAIT] exactly when the flags have
    [SL_CPC_FLAG_NON_BLOCK], the first bytes of the buffer are those of
    the message and the rest of the buffer is what it was. *)
Theorem cpc_read_endpoint_result
    (endpoint : cpc_endpoint_t) (buffer : option (list Z)) (count flags : Z)
    (p : proc) (r : Z) (buffer' : option (list Z)) (p' : proc) :
  cpc_read_endpoint endpoint buffer count flags p = Done (r, buffer') p' ->
  r = -1 \/
  (0 < r <= count /\
   exists ep buf buf' a,
     endpoints p !! ptr endpoint = Some ep /\
     buffer = Some buf /\ buffer' = Some buf' /\
     (Recv (sock_fd ep) count (sock_flags_of flags), a) ∈ since p p' /\
     r = recv_count a count /\
     take (Z.to_nat r) buf' = take (Z.to_nat r) (rdata a) /\
     drop (Z.to_nat r) buf' = drop (Z.to_nat r) buf).
Proof.
  destruct p as [e0 tr nm cb sh hs es l0].
  enough (forall rb p',
            cpc_read_endpoint endpoint buffer count flags (Proc e0 tr nm cb sh hs es l0)
            = Done rb p' ->
            rb.1 = -1 \/
            (0 < rb.1 <= count /\
             exists ep buf buf' a,
               es !! ptr endpoint = Some ep /\
               buffer = Some buf /\ rb.2 = Some buf' /\
               (Recv (sock_fd ep) count (sock_flags_of flags), a)
                 ∈ since (Proc e0 tr nm cb sh hs es l0) p' /\
               rb.1 = recv_count a count /\
               take (Z.to_nat rb.1) buf' = take (Z.to_nat rb.1) (rdata a) /\
               drop (Z.to_nat rb.1) buf' = drop (Z.to_nat rb.1) buf))
    as Hgen by (intros E; exact (Hgen _ _ E)).
  destruct buffer as [buf |]; unfold cpc_read_endpoint; wp_start.
  all: wp_run; try exact I; since_norm; cbn [fst snd]; auto.
  all: rewrite ?sock_flags_of_eq.
  all: right.
  all: match goal with
       | E1 : (recv_count ?a ?c =? 0) = false, E2 : (recv_count ?a ?c <? 0) = false |- _ =>
           apply Z.eqb_neq in E1; apply Z.ltb_ge in E2;
           assert (Hpos : 0 < recv_count a c) by lia;
           assert (Hrv : 0 <= rv a)
             by (unfold recv_count in Hpos; destruct (rv a <? 0) eqn:Erv;
                 [lia | by apply Z.ltb_ge in Erv]);
           pose proof (recv_count_bound a c Hpos);
           destruct (recv_buffer_take a c buf Hrv) as [Ht Hd]
       end.
  all: split; [lia |].
  all: eexists _, _, _, _; cbn [default] in *.
  all: split; [reflexivity |]; split; [reflexivity |]; split; [reflexivity |].
  all: split; [elem_solve |]; split; [reflexivity |]; split; assumption.
Qed.

(** When its [recv] fails, [cpc_read_endpoint] returns -1, leaves the
    buffer as it was and lets the caller see the [errno] of [recv]
    (such as [EAGAIN] for a read that would block). *)
Theorem cpc_read_endpoint_recv_error
    (endpoint : cpc_endpoint_t) (buffer : option (list Z)) (count flags : Z)
    (p : proc) (r : Z) (buffer' : option (list Z)) (p' : proc)
    (fd len fl : Z) (a : response) :
  cpc_read_endpoint endpoint buffer count flags p = Done (r, buffer') p' ->
  (Recv fd len fl, a) ∈ since p p' ->
  rv a < 0 ->
  r = -1 /\ buffer' = buffer /\ errno p' = default (errno p) (rerrno a).
Proof.
  destruct p as [e0 tr nm cb sh hs es l0].
  enough (forall rb p',
            cpc_read_endpoint endpoint buffer count flags (Proc e0 tr nm cb sh hs es l0)
            = Done rb p' ->
            (Recv fd len fl, a) ∈ since (Proc e0 tr nm cb sh hs es l0) p' ->
            rv a < 0 ->
            rb.1 = -1 /\ rb.2 = buffer /\ errno p' = default e0 (rerrno a))
    as Hgen by (intros E; exact (Hgen _ _ E)).
  destruct buffer as [buf |]; unfold cpc_read_endpoint; wp_start.
  all: wp_run; try exact I; since_norm; cbn [fst snd errno default].
  all: intros Hin Hr; elem_cases Hin.
  all: injection Hin as -> -> -> ->.
  all: unfold Datatypes.id; rewrite (recv_buffer_failed _ _ _ Hr).
  all: pose proof (recv_count_failed _ count Hr) as Hc.
  all: repeat match goal with
       | E : (recv_count _ _ =? 0) = true |- _ => apply Z.eqb_eq in E
       | E : (recv_count _ _ <? 0) = false |- _ => apply Z.ltb_ge in E
       end.
  all: try lia.
  all: done.
Qed.

End ReadWrite.

Section Close.
Context `{Headers} `{Libc}.

Lemma lock_taken r : (r <? 0) = false -> (0 <=? r) = true.
Proof. intros E. apply Z.ltb_ge in E. by apply Z.leb_le. Qed.

Lemma lock_failed r : (r <? 0) = true -> (0 <=? r) = false.
Proof. intros E. apply Z.ltb_lt in E. by apply Z.leb_gt. Qed.

Ltac lock_tests :=
  repeat match goal with
  | E : (rv _ <? 0) = false |- _ => apply lock_taken in E
  | E : (rv _ <? 0) = true |- _ => apply lock_failed in E
  end;
  rewrite ?Z.eqb_refl;
  repeat match goal with
  | E : (0 <=? rv _) = _ |- _ => rewrite E
  end;
  cbn [negb orb andb].

Lemma cpc_close_endpoint_live e p re p' :
  ptr e <> 0 ->
  cpc_close_endpoint (Some e) p = Done re p' ->
  (re.1 = 0 \/ re.1 = -1) /\ re.2 = Some (Opaque 0) /\
  endpoints p' = delete (ptr e) (endpoints p) /\ handles p' = handles p /\
  freed (since p p') = [ptr e] /\
  exists ep c,
    endpoints p !! ptr e = Some ep /\
    (Close (sock_fd ep), c) ∈ since p p' /\
    (rv c < 0 ->
     re.1 = -1 /\ sent (since p p') = [] /\
     forall m fd, exclusive m fd false (since p p') = true) /\
    (0 <= rv c ->
     exists lh,
       handles p !! lib_handle ep = Some lh /\
       exclusive (ctrl_sock_fd_lock (lib_handle ep)) (ctrl_sock_fd lh) false (since p p')
       = true /\
       (re.1 = 0 ->
        sent (since p p') = [(ctrl_sock_fd lh, close_endpoint_query (id ep))] /\
        exists a d,
          received (since p p') = [(ctrl_sock_fd lh, sizeof_cpcd_exchange_buffer_t, a)] /\
          recv_count a sizeof_cpcd_exchange_buffer_t = sizeof_cpcd_exchange_buffer_t /\
          (Mutex pthread_mutex_destroy (sock_fd_lock (ptr e)), d) ∈ since p p' /\
          0 <= rv d)).
Proof.
  destruct p as [e0 tr nm cb sh hs es l0]. intros Hp. apply Z.eqb_neq in Hp.
  revert re p'. unfold cpc_close_endpoint. wp_start.
  wp_run; try exact I; since_norm; cbn [fst snd endpoints handles freed].
  all: split; [auto |]; split; [reflexivity |]; split; [reflexivity |].
  all: split; [reflexivity |]; split; [reflexivity |].
  all: eexists _, _; split; [reflexivity |]; split; [elem_solve |].
  all: split;
    [ intros Hc; first [ split; [reflexivity |]; split; reflexivity | exfalso ];
      match goal with
      | E : (rv _ <? 0) = false |- _ => apply Z.ltb_ge in E; lia
      end | ].
  all: intros Hc;
    try (exfalso; match goal with
                  | E : (rv _ <? 0) = true |- _ => apply Z.ltb_lt in E; lia
                  end).
  all: eexists; split; [eassumption |].
  all: cbn [exclusive mutex_eqb sent received]; lock_tests.
  all: split; [reflexivity |].
  all: intros Hr; try discriminate Hr.
  all: split; [reflexivity |].
  all: eexists _, _; split; [reflexivity |].
  all: split;
    [ match goal with
      | E : negb (_ =? _) = false |- _ => by apply negb_false_iff, Z.eqb_eq in E
      end | ].
  all: split; [elem_solve | by apply Z.leb_le].
Qed.

(** Whatever it returns, [cpc_close_endpoint] on an endpoint that is
    not NULL gives the endpoint up: it has called [close] on the
    endpoint's socket, freed the endpoint object and nothing else,
    removed it from the library's objects and set the caller's pointer
    to NULL.  It returns 0 or -1; when [close] fails it returns -1
    without telling the daemon. *)
Theorem cpc_close_endpoint_releases
    (e : cpc_endpoint_t) (p : proc) (r : Z) (e' : option cpc_endpoint_t) (p' : proc) :
  ptr e <> 0 ->
  cpc_close_endpoint (Some e) p = Done (r, e') p' ->
  (r = 0 \/ r = -1) /\ e' = Some (Opaque 0) /\
  endpoints p' = delete (ptr e) (endpoints p) /\ handles p' = handles p /\
  freed (since p p') = [ptr e] /\
  exists ep c,
    endpoints p !! ptr e = Some ep /\
    (Close (sock_fd ep), c) ∈ since p p' /\
    (rv c < 0 -> r = -1 /\ sent (since p p') = []).
Proof.
  intros Hp E.
  destruct (cpc_close_endpoint_live _ _ _ _ Hp E)
    as (Hr & He & Hes & Hhs & Hf & ep & c & Hep & Hc & Hfail & _).
  cbn [fst snd] in *. repeat (split; [done |]).
  exists ep, c. repeat (split; [done |]). intros Hneg.
  destruct (Hfail Hneg) as (? & ? & _). done.
Qed.

Lemma recv_count_whole a len :
  0 < len -> recv_count a len = len -> 0 <= rv a /\ len <= Z.of_nat (length (rdata a)).
Proof.
  unfold recv_count. intros Hlen.
  destruct (rv a <? 0) eqn:E; [apply Z.ltb_lt in E; lia |].
  apply Z.ltb_ge in E. rewrite length_take. lia.
Qed.

(** A [cpc_close_endpoint] that returns 0 has called [close] on the
    endpoint's socket and [pthread_mutex_destroy] on the endpoint's
    mutex, and neither returned a negative value, the only failure that
    the function tests for.  It has sent the close query for the
    endpoint's id on the control socket of its library handle, and that
    message only.  It has called [recv] there once, asking for
    [sizeof(cpcd_exchange_buffer_t)] bytes, and got that many: the
    reply was received without error and is at least that long, [recv]
    handing over no more than it is asked for. *)
Theorem cpc_close_endpoint_handshake
    (e : cpc_endpoint_t) (p : proc) (e' : option cpc_endpoint_t) (p' : proc) :
  ptr e <> 0 ->
  cpc_close_endpoint (Some e) p = Done (0, e') p' ->
  exists ep lh c a d,
    endpoints p !! ptr e = Some ep /\
    handles p !! lib_handle ep = Some lh /\
    (Close (sock_fd ep), c) ∈ since p p' /\ 0 <= rv c /\
    sent (since p p') = [(ctrl_sock_fd lh, close_endpoint_query (id ep))] /\
    received (since p p') = [(ctrl_sock_fd lh, sizeof_cpcd_exchange_buffer_t, a)] /\
    recv_count a sizeof_cpcd_exchange_buffer_t = sizeof_cpcd_exchange_buffer_t /\
    0 <= rv a /\ sizeof_cpcd_exchange_buffer_t <= Z.of_nat (length (rdata a)) /\
    (Mutex pthread_mutex_destroy (sock_fd_lock (ptr e)), d) ∈ since p p' /\
    0 <= rv d.
Proof.
  intros Hp E.
  destruct (cpc_close_endpoint_live _ _ _ _ Hp E)
    as (_ & _ & _ & _ & _ & ep & c & Hep & Hc & Hfail & Hok).
  cbn [fst snd] in *.
  destruct (Z_lt_le_dec (rv c) 0) as [Hneg | Hpos].
  { destruct (Hfail Hneg) as (? & _). discriminate. }
  destruct (Hok Hpos) as (lh & Hlh & _ & Hz).
  destruct (Hz eq_refl) as (Hs & a & d & Hrc & Hcount & Hd & Hdr).
  destruct (recv_count_whole a sizeof_cpcd_exchange_buffer_t) as [Hrv Hlen];
    [reflexivity | exact Hcount |].
  exists ep, lh, c, a, d. done.
Qed.

(** [cpc_close_endpoint] talks on the control socket only while it
    holds the mutex of the library handle, and it releases the mutex
    before it returns, whatever it returns. *)
Theorem cpc_close_endpoint_exclusive
    (e : cpc_endpoint_t) (p : proc) (r : Z) (e' : option cpc_endpoint_t) (p' : proc)
    (ep : sli_cpc_endpoint_t) (lh : sli_cpc_handle_t) :
  ptr e <> 0 ->
  endpoints p !! ptr e = Some ep ->
  handles p !! lib_handle ep = Some lh ->
  cpc_close_endpoint (Some e) p = Done (r, e') p' ->
  exclusive (ctrl_sock_fd_lock (lib_handle ep)) (ctrl_sock_fd lh) false (since p p') = true.
Proof.
  intros Hp Hep Hlh E.
  destruct (cpc_close_endpoint_live _ _ _ _ Hp E)
    as (_ & _ & _ & _ & _ & ep2 & c & Hep2 & Hc & Hfail & Hok).
  rewrite Hep in Hep2. injection Hep2 as <-.
  destruct (Z_lt_le_dec (rv c) 0) as [Hneg | Hpos].
  { destruct (Hfail Hneg) as (_ & _ & Hx). apply Hx. }
  destruct (Hok Hpos) as (lh2 & Hlh2 & Hx & _).
  rewrite Hlh in Hlh2. injection Hlh2 as <-. done.
Qed.

End Close.

Section Open.
Context `{Headers} `{Libc}.

Lemma cpc_open_endpoint_outcome handle endpoint id tx_window_size p re p' :
  cpc_open_endpoint handle endpoint id tx_window_size p = Done re p' ->
  handles p' = handles p /\
  ((re.1 = -1 /\ re.2 = endpoint /\
    (endpoints p' = endpoints p \/ exists a, endpoints p' = delete a (endpoints p)))
   \/
   (exists a q sa,
      re.2 = Some (Opaque a) /\ a <> 0 /\ re.1 <> 0 /\
      endpoints p' = <[a := Endpoint id re.1 (ptr handle)]> (endpoints p) /\
      (Socket, sa) ∈ since p p' /\ rv sa = re.1 /\
      allocated (since p p') = [a; q] /\ freed (since p p') = [q])).
Proof.
  destruct p as [e0 tr nm cb sh hs es l0].
  revert re p'. unfold cpc_open_endpoint. wp_start.
  wp_run; try exact I; since_norm; cbn [fst snd endpoints handles].
  all: split; [reflexivity |].
  all: rewrite ?delete_insert_eq, ?insert_insert_eq.
  all: try (left; split; [reflexivity |]; split; [reflexivity |]; eauto; fail).
  all: right; eexists _, _, _; split; [reflexivity |].
  all: cbn [allocated freed];
    repeat match goal with
    | E : (rv _ =? 0) = false |- _ => rewrite E; apply Z.eqb_neq in E
    end;
    repeat match goal with
    | E : (rv _ =? 0) = false |- _ => apply Z.eqb_neq in E
    end.
  all: split; [assumption |]; split; [assumption |]; split; [reflexivity |].
  all: split; [elem_solve |]; split; [reflexivity |]; split; reflexivity.
Qed.

Lemma open_reply_byte a q :
  recv_count a (sizeof_cpcd_exchange_buffer_t + sizeof_bool)
  = sizeof_cpcd_exchange_buffer_t + sizeof_bool ->
  nth 0 (payload (recv_buffer a (sizeof_cpcd_exchange_buffer_t + sizeof_bool) q)) 0
  = nth 2 (rdata a) 0.
Proof.
  unfold recv_count, recv_buffer, payload.
  change (sizeof_cpcd_exchange_buffer_t + sizeof_bool) with 3.
  change (Z.to_nat sizeof_cpcd_exchange_buffer_t) with 2%nat.
  change (Z.to_nat 3) with 3%nat.
  destruct (rv a <? 0) eqn:E; [apply Z.ltb_lt in E; lia |].
  intros Hl.
  destruct (rdata a) as [| b0 [| b1 [| b2 t]]]; simpl in Hl; try lia.
  reflexivity.
Qed.

Lemma cpc_open_endpoint_refusal handle endpoint id tx_window_size p re p' fd len a :
  cpc_open_endpoint handle endpoint id tx_window_size p = Done re p' ->
  received (since p p') = [(fd, len, a)] ->
  recv_count a len = len -> nth 2 (rdata a) 0 = 0 ->
  re.1 = -1 /\ re.2 = endpoint /\
  (forall sa, (Socket, sa) ∉ since p p') /\
  ((exists m u, (Mutex pthread_mutex_unlock m, u) ∈ since p p' /\ rv u < 0) \/
   errno p' = if id =? SL_CPC_ENDPOINT_SECURITY then EPERM else EAGAIN).
Proof.
  destruct p as [e0 tr nm cb sh hs es l0].
  revert re p'. unfold cpc_open_endpoint. wp_start.
  wp_run; try exact I; since_norm; cbn [fst snd errno received].
  all: intros Hrec Hcount Hbyte; try discriminate Hrec.
  all: injection Hrec as <- <- <-.
  all: try match goal with
           | E : negb (recv_count ?a ?l =? ?l) = true |- _ =>
               rewrite Hcount, Z.eqb_refl in E; discriminate E
           end.
  all: try match goal with
           | E : negb (negb (nth 0 (payload (recv_buffer ?a _ ?q)) 0 =? 0)) = false |- _ =>
               rewrite (open_reply_byte a q Hcount), Hbyte in E; discriminate E
           end.
  all: split; [reflexivity |]; split; [reflexivity |].
  all: split; [intros sa Hin; elem_cases Hin |].
  all: try (right; reflexivity).
  all: left; eexists _, _; split; [elem_solve |].
  all: match goal with
       | E : (rv ?u <? 0) = true |- rv ?u < 0 => by apply Z.ltb_lt in E
       end.
Qed.

(** [cpc_open_endpoint] is all or nothing.  Either it returns -1,
    leaves the caller's endpoint as it was and no endpoint object
    behind; or it returns the descriptor that [socket] gave, not 0,
    points the caller's endpoint to a new endpoint object that holds the
    id, that descriptor and the handle, and has freed the query buffer,
    the only other memory it allocated.  It never changes a handle
    object. *)
Theorem cpc_open_endpoint_all_or_nothing
    (handle : cpc_handle_t) (endpoint : option cpc_endpoint_t) (id tx_window_size : Z)
    (p : proc) (r : Z) (endpoint' : option cpc_endpoint_t) (p' : proc) :
  cpc_open_endpoint handle endpoint id tx_window_size p = Done (r, endpoint') p' ->
  handles p' = handles p /\
  ((r = -1 /\ endpoint' = endpoint /\
    (endpoints p' = endpoints p \/ exists a, endpoints p' = delete a (endpoints p)))
   \/
   (exists a q sa,
      endpoint' = Some (Opaque a) /\ a <> 0 /\ r <> 0 /\
      endpoints p' = <[a := Endpoint id r (ptr handle)]> (endpoints p) /\
      (Socket, sa) ∈ since p p' /\ rv sa = r /\
      allocated (since p p') = [a; q] /\ freed (since p p') = [q])).
Proof. intros E. exact (cpc_open_endpoint_outcome _ _ _ _ _ _ _ E). Qed.

(** When the daemon answers the open query with [can_open] false (its
    reply, the only message received, is complete and its payload byte
    is 0), [cpc_open_endpoint] returns -1 without creating a socket and
    leaves the caller's endpoint as it was; unless the unlocking of the
    control mutex failed, [errno] is [EPERM] for the security endpoint
    and [EAGAIN] for any other. *)
Theorem cpc_open_endpoint_refused
    (handle : cpc_handle_t) (endpoint : option cpc_endpoint_t) (id tx_window_size : Z)
    (p : proc) (r : Z) (endpoint' : option cpc_endpoint_t) (p' : proc)
    (fd len : Z) (a : response) :
  cpc_open_endpoint handle endpoint id tx_window_size p = Done (r, endpoint') p' ->
  received (since p p') = [(fd, len, a)] ->
  recv_count a len = len -> nth 2 (rdata a) 0 = 0 ->
  r = -1 /\ endpoint' = endpoint /\
  (forall sa, (Socket, sa) ∉ since p p') /\
  ((exists m u, (Mutex pthread_mutex_unlock m, u) ∈ since p p' /\ rv u < 0) \/
   errno p' = if id =? SL_CPC_ENDPOINT_SECURITY then EPERM else EAGAIN).
Proof. intros E. exact (cpc_open_endpoint_refusal _ _ _ _ _ _ _ _ _ _ E). Qed.

(** Closing undoes opening.  When [cpc_open_endpoint] has not returned
    -1 and its endpoint is at an address that held no endpoint object
    before, a
    [cpc_close_endpoint] on it, whatever it returns, calls [close] on
    the descriptor that the open returned and leaves the library's
    handle and endpoint objects exactly as they were before the
    open. *)
Theorem cpc_close_endpoint_undoes_open
    (handle : cpc_handle_t) (endpoint : option cpc_endpoint_t) (id tx_window_size : Z)
    (p : proc) (r : Z) (e : cpc_endpoint_t) (p1 : proc)
    (r2 : Z) (e2 : option cpc_endpoint_t) (p2 : proc) :
  cpc_open_endpoint handle endpoint id tx_window_size p = Done (r, Some e) p1 ->
  r <> -1 ->
  endpoints p !! ptr e = None ->
  cpc_close_endpoint (Some e) p1 = Done (r2, e2) p2 ->
  e2 = Some (Opaque 0) /\
  endpoints p2 = endpoints p /\ handles p2 = handles p /\
  exists c, (Close r, c) ∈ since p1 p2.
Proof.
  intros Eo Hnew Hfresh Ec.
  destruct (cpc_open_endpoint_outcome _ _ _ _ _ _ _ Eo) as (Hh & Hout).
  cbn [fst snd] in Hout.
  destruct Hout as [(Hr & _) | (a & q & sa & He & Ha & _ & Hes & _)];
    [contradiction |].
  injection He as ->. cbn [ptr] in *.
  assert (Hp : ptr (Opaque a) <> 0) by done.
  destruct (cpc_close_endpoint_live _ _ _ _ Hp Ec)
    as (_ & He2 & Hes2 & Hh2 & _ & ep & c & Hep & Hc & _).
  cbn [fst snd ptr] in *.
  rewrite Hes, lookup_insert_eq in Hep. injection Hep as <-. cbn [sock_fd] in Hc.
  split; [done |]. split.
  - rewrite Hes2, Hes. by apply delete_insert_id.
  - split; [congruence | eauto].
Qed.

End Open.

Section Init.
Context `{Headers} `{Libc}.

Lemma version_reply_byte a q :
  recv_count a (sizeof_cpcd_exchange_buffer_t + sizeof_uint8_t)
  = sizeof_cpcd_exchange_buffer_t + sizeof_uint8_t ->
  nth 0 (payload (recv_buffer a (sizeof_cpcd_exchange_buffer_t + sizeof_uint8_t) q)) 0
  = nth 2 (rdata a) 0.
Proof. exact (open_reply_byte a q). Qed.

Lemma cpc_init_outcome handle instance_name enable_tracing reset_callback p rh p' :
  cpc_init handle instance_name enable_tracing reset_callback p = Done rh p' ->
  (forall fd c, (Close fd, c) ∉ since p p') /\
  (forall sa,
     (Socket, sa) ∈ since p p' ->
     (rv sa = 0 -> rh.1 = -1 /\ forall fd path c, (Connect fd path, c) ∉ since p p') /\
     (rv sa <> 0 -> exists path c, (Connect (rv sa) path, c) ∈ since p p')) /\
  (sigusr1_handler p = true -> sigusr1_handler p' = true) /\
  endpoints p' = endpoints p /\
  ((rh.1 = -1 /\ rh.2 = handle /\
    (handles p' = handles p \/ exists a, handles p' = delete a (handles p)))
   \/
   (rh.1 = 0 /\
    exists a lh sa ap am av,
      rh.2 = Some (Opaque a) /\
      handles p' = <[a := lh]> (handles p) /\ ctrl_sock_fd lh = rv sa /\
      a <> 0 /\ rv sa <> 0 /\ handle <> None /\
      (Socket, sa) ∈ since p p' /\ (Getpid, ap) ∈ since p p' /\
      sent (since p p')
      = [(rv sa, set_pid_query (rv ap)); (rv sa, max_write_size_query);
         (rv sa, version_query)] /\
      received (since p p')
      = [(rv sa, sizeof_cpcd_exchange_buffer_t + sizeof_uint32_t, am);
         (rv sa, sizeof_cpcd_exchange_buffer_t + sizeof_uint8_t, av)] /\
      nth 2 (rdata av) 0 = LIBRARY_API_VERSION)).
Proof.
  destruct p as [e0 tr [n |] cb sh hs es l0]; revert rh p'; unfold cpc_init; wp_start.
  all: wp_run; try exact I; since_norm; cbn [fst snd endpoints handles sigusr1_handler].
  all: split; [intros ? ? Hin; elem_cases Hin |].
  all: split;
    [ intros sa Hin; elem_cases Hin; injection Hin as ->;
      (split;
       [ intros Hz;
         first
           [ solve [split; [reflexivity |]; intros ? ? ? Hin; elem_cases Hin]
           | exfalso;
             match goal with
             | E : (rv _ =? 0) = false |- _ => apply Z.eqb_neq in E; contradiction
             end ]
       | intros Hnz;
         first
           [ solve [eexists _, _; elem_solve]
           | exfalso;
             match goal with
             | E : (rv _ =? 0) = true |- _ => apply Z.eqb_eq in E; contradiction
             end ] ]) | ].
  all: split; [by auto |]; split; [reflexivity |].
  all: rewrite ?delete_insert_eq, ?insert_insert_eq.
  all: try (left; split; [reflexivity |]; split; [reflexivity |]; eauto; fail).
  all: right; split; [reflexivity |]; eexists _, _, _, _, _, _; split; [reflexivity |].
  all: repeat match goal with
       | E : (rv _ =? 0) = false |- _ => apply Z.eqb_neq in E
       end.
  all: split; [reflexivity |]; split; [reflexivity |].
  all: split; [assumption |]; split; [assumption |]; split; [discriminate |].
  all: split; [elem_solve |]; split; [elem_solve |].
  all: cbn [sent received]; split; [reflexivity |]; split; [reflexivity |].
  all: match goal with
       | E1 : negb (recv_count ?a ?l =? ?l) = false,
         E2 : negb (nth 0 (payload (recv_buffer ?a ?l ?q)) 0 =? LIBRARY_API_VERSION) = false
         |- _ =>
           apply negb_false_iff, Z.eqb_eq in E1; apply negb_false_iff, Z.eqb_eq in E2;
           by rewrite (version_reply_byte a q E1) in E2
       end.
Qed.

(** [cpc_init] is all or nothing.  It returns 0 or -1.  With -1 it
    leaves the caller's handle as it was and no handle object behind;
    with 0 it points the caller's handle to a new handle object, not
    NULL, whose control socket is the descriptor that [socket] gave.  It
    never changes an endpoint object. *)
Theorem cpc_init_all_or_nothing
    (handle : option cpc_handle_t) (instance_name : option string)
    (enable_tracing : bool) (reset_callback : Z) (p : proc)
    (r : Z) (handle' : option cpc_handle_t) (p' : proc) :
  cpc_init handle instance_name enable_tracing reset_callback p = Done (r, handle') p' ->
  endpoints p' = endpoints p /\
  ((r = -1 /\ handle' = handle /\
    (handles p' = handles p \/ exists a, handles p' = delete a (handles p)))
   \/
   (r = 0 /\
    exists a lh sa,
      handle' = Some (Opaque a) /\ a <> 0 /\ handle <> None /\
      handles p' = <[a := lh]> (handles p) /\
      (Socket, sa) ∈ since p p' /\ ctrl_sock_fd lh = rv sa /\ rv sa <> 0)).
Proof.
  intros E.
  destruct (cpc_init_outcome _ _ _ _ _ _ _ E) as (_ & _ & _ & He & Hout).
  cbn [fst snd] in Hout. split; [done |].
  destruct Hout as [Hf | (Hr & a & lh & sa & ap & am & av & Hh & Hhs & Hfd & Ha & Hsa & Hn & Hs & _)];
    [by left |].
  right. split; [done |]. exists a, lh, sa. done.
Qed.

(** The handshake of a successful [cpc_init]: on the socket it created
    it has sent, in this order and nothing else, the set-pid query with
    the process id that [getpid] returned, the maximal-write-size query
    and the version query; it has received two messages there, the
    reply to the maximal-write-size query and then the reply to the
    version query, whose version byte is [LIBRARY_API_VERSION]. *)
Theorem cpc_init_handshake
    (handle : option cpc_handle_t) (instance_name : option string)
    (enable_tracing : bool) (reset_callback : Z) (p : proc)
    (handle' : option cpc_handle_t) (p' : proc) :
  cpc_init handle instance_name enable_tracing reset_callback p = Done (0, handle') p' ->
  exists sa ap am av,
    (Socket, sa) ∈ since p p' /\ (Getpid, ap) ∈ since p p' /\
    sent (since p p')
    = [(rv sa, set_pid_query (rv ap)); (rv sa, max_write_size_query);
       (rv sa, version_query)] /\
    received (since p p')
    = [(rv sa, sizeof_cpcd_exchange_buffer_t + sizeof_uint32_t, am);
       (rv sa, sizeof_cpcd_exchange_buffer_t + sizeof_uint8_t, av)] /\
    nth 2 (rdata av) 0 = LIBRARY_API_VERSION.
Proof.
  intros E.
  destruct (cpc_init_outcome _ _ _ _ _ _ _ E) as (_ & _ & _ & _ & Hout).
  cbn [fst snd] in Hout.
  destruct Hout as [(Hr & _) | (_ & a & lh & sa & ap & am & av & _ & _ & _ & _ & _ & _ & Hs & Hg & Hsent & Hrecv & Hv)];
    [discriminate Hr |].
  exists sa, ap, am, av. done.
Qed.

(** [cpc_init] never calls [close]: when it fails after it has created
    the control socket, it frees the handle object (see above) and
    leaves the descriptor open. *)
Theorem cpc_init_never_closes
    (handle : option cpc_handle_t) (instance_name : option string)
    (enable_tracing : bool) (reset_callback : Z) (p : proc)
    (r : Z) (handle' : option cpc_handle_t) (p' : proc) :
  cpc_init handle instance_name enable_tracing reset_callback p = Done (r, handle') p' ->
  forall fd c, (Close fd, c) ∉ since p p'.
Proof.
  intros E.
  destruct (cpc_init_outcome _ _ _ _ _ _ _ E) as (Hnc & _). exact Hnc.
Qed.

(** How [cpc_init] reads the result of [socket]: it takes 0 for the
    failure, returning -1 without connecting, and every other value,
    negative ones included, for a descriptor on which it calls
    [connect]. *)
Theorem cpc_init_socket_test
    (handle : option cpc_handle_t) (instance_name : option string)
    (enable_tracing : bool) (reset_callback : Z) (p : proc)
    (r : Z) (handle' : option cpc_handle_t) (p' : proc) (sa : response) :
  cpc_init handle instance_name enable_tracing reset_callback p = Done (r, handle') p' ->
  (Socket, sa) ∈ since p p' ->
  (rv sa = 0 -> r = -1 /\ forall fd path c, (Connect fd path, c) ∉ since p p') /\
  (rv sa <> 0 -> exists path c, (Connect (rv sa) path, c) ∈ since p p').
Proof.
  intros E Hs.
  destruct (cpc_init_outcome _ _ _ _ _ _ _ E) as (_ & Hsock & _).
  exact (Hsock sa Hs).
Qed.

(** [cpc_init] with a NULL handle always returns -1 and asks nothing of
    the daemon: its only calls are [strdup] and [signal].  It has
    nevertheless replaced the saved tracing flag and reset callback; and
    when the socket path fits, [errno] is [EINVAL] and a non-NULL
    callback has had the handler of SIGUSR1 installed. *)
Theorem cpc_init_null_handle
    (instance_name : option string) (enable_tracing : bool) (reset_callback : Z)
    (p : proc) :
  exists p',
    cpc_init None instance_name enable_tracing reset_callback p = Done (-1, None) p' /\
    saved_enable_tracing p' = enable_tracing /\
    saved_reset_callback p' = reset_callback /\
    handles p' = handles p /\ endpoints p' = endpoints p /\
    (forall q a, (q, a) ∈ since p p' -> q = Signal_SIGUSR1 \/ exists s, q = Strdup s) /\
    (forall inst,
       saved_instance_name p' = Some inst ->
       strlen (ctrl_socket_path inst) < sizeof_sun_path - 1 ->
       errno p' = EINVAL /\ (reset_callback <> 0 -> sigusr1_handler p' = true)).
Proof.
  enough (exists rh p',
            cpc_init None instance_name enable_tracing reset_callback p = Done rh p' /\
            rh = (-1, None) /\
            saved_enable_tracing p' = enable_tracing /\
            saved_reset_callback p' = reset_callback /\
            handles p' = handles p /\ endpoints p' = endpoints p /\
            (forall q a, (q, a) ∈ since p p' -> q = Signal_SIGUSR1 \/ exists s, q = Strdup s) /\
            (forall inst,
               saved_instance_name p' = Some inst ->
               strlen (ctrl_socket_path inst) < sizeof_sun_path - 1 ->
               errno p' = EINVAL /\ (reset_callback <> 0 -> sigusr1_handler p' = true)))
    as (rh & p' & E & -> & Hrest) by eauto.
  destruct p as [e0 tr [n |] cb sh hs es l0]; unfold cpc_init; wp_start.
  all: wp_run; since_norm;
    cbn [saved_enable_tracing saved_reset_callback saved_instance_name handles
         endpoints errno sigusr1_handler].
  all: split; [reflexivity |]; split; [reflexivity |]; split; [reflexivity |].
  all: split; [reflexivity |]; split; [reflexivity |].
  all: split; [intros q r Hin; elem_cases Hin; injection Hin as -> _; eauto |].
  all: intros inst Hi Hfit; try discriminate Hi; injection Hi as <-.
  all: try (exfalso; eapply fits_not_rejected; eassumption).
  all: split; [reflexivity |]; intros Hcb; try reflexivity.
  all: match goal with
       | E : negb (_ =? 0) = false |- _ =>
           apply negb_false_iff, Z.eqb_eq in E; contradiction
       end.
Qed.

End Init.

Section RestartAgain.
Context `{Headers} `{Libc}.

Lemma sleep_inv seconds q q1 :
  sleep seconds q = Done tt q1 ->
  handles q1 = handles q /\ endpoints q1 = endpoints q /\
  sigusr1_handler q1 = sigusr1_handler q.
Proof. destruct q. intros [= <-]. done. Qed.

Lemma retried_objects name tracing cb h q rs rh p' :
  retried name tracing cb h q rs rh p' ->
  endpoints p' = endpoints q /\
  (rh.1 = 0 \/ rh.1 = -1) /\
  (rh.1 <> 0 ->
   rh.2 = h /\ forall k v, handles p' !! k = Some v -> handles q !! k = Some v) /\
  (rh.1 = 0 ->
   exists a lh,
     rh.2 = Some (Opaque a) /\ a <> 0 /\ handles p' !! a = Some lh /\
     forall k v, k <> a -> handles p' !! k = Some v -> handles q !! k = Some v).
Proof.
  induction 1 as [h q q1 rh p' Es Ei | h q q1 r1 h1 p1 rs rh p' Es Ei Hne Hr IH].
  - destruct (sleep_inv _ _ _ Es) as (Hh & He & _).
    destruct (cpc_init_outcome _ _ _ _ _ _ _ Ei) as (_ & _ & _ & Hep & Hout).
    rewrite Hep, He. split; [done |].
    destruct Hout as [(Hr & Hh' & Hd) | (Hr & a & lh & sa & ap & am & av & Hh' & Hd & _ & Ha & _)].
    + split; [auto |]. split; [| intros Hz; congruence].
      intros _. split; [done |]. intros k v Hk. rewrite <- Hh.
      destruct Hd as [Hd | [a Hd]]; rewrite Hd in Hk; [done |].
      apply lookup_delete_Some in Hk. tauto.
    + split; [auto |]. split; [intros Hz; congruence |].
      intros _. exists a, lh. split; [done |]. split; [done |].
      rewrite Hd. split; [apply lookup_insert_eq |].
      intros k v Hk Hl. rewrite lookup_insert_ne in Hl by done. by rewrite <- Hh.
  - destruct (sleep_inv _ _ _ Es) as (Hh & He & _).
    destruct (cpc_init_outcome _ _ _ _ _ _ _ Ei) as (_ & _ & _ & Hep & Hout).
    cbn [fst snd] in Hout.
    destruct Hout as [(_ & Hh' & Hd) | (Hr0 & _)]; [| contradiction].
    subst h1. destruct IH as (IHe & IHr & IHf & IHs).
    assert (Hsub : forall k v, handles p1 !! k = Some v -> handles q !! k = Some v).
    { intros k v Hk. rewrite <- Hh.
      destruct Hd as [Hd | [a Hd]]; rewrite Hd in Hk; [done |].
      apply lookup_delete_Some in Hk. tauto. }
    split; [congruence |]. split; [done |]. split.
    + intros Hz. destruct (IHf Hz) as [Hh2 Hs2]. split; [done |]. auto.
    + intros Hz. destruct (IHs Hz) as (a & lh & H2 & Ha & Hl & Hs2).
      exists a, lh. repeat split; try done. eauto.
Qed.

Ltac wp_run_until_loop :=
  repeat lazymatch goal with
    | |- wp (restart_loop _ _ _) _ _ => fail
    | |- _ => wp_step
    end.

Lemma cpc_restart_torn handle p rh p' name :
  cpc_restart handle p = Done rh p' ->
  saved_instance_name p = Some name ->
  (forall s a, (Sleep s, a) ∉ since p p') \/
  (exists h q rs,
     handle = Some h /\
     retried (Some name) (saved_enable_tracing p) (saved_reset_callback p)
       (Some (Opaque 0)) q rs rh p' /\
     handles q = delete (ptr h) (handles p) /\ endpoints q = endpoints p).
Proof.
  destruct p as [e0 tr nm cb sh hs es l0]. cbn [saved_instance_name].
  intros E ->. revert rh p' E. unfold cpc_restart. wp_start.
  wp_run_until_loop; try exact I.
  all: try (left; since_norm; intros sec r Hin; elem_cases Hin; fail).
  match goal with
  | |- @wp ?R _ (restart_loop ?n ?r0 ?h0) ?q _ =>
      destruct (restart_loop_spec (R := R) 4 r0 h0 q name eq_refl)
        as (rs & rh & p' & El & Hr & _);
      unfold wp; rewrite El; cbn [finished]
  end.
  right. eexists _, _, rs. split; [reflexivity |].
  split; [exact Hr |]. split; reflexivity.
Qed.

(** What [cpc_restart] leaves behind once it has torn the old handle
    down (that is, once it has slept).  It returns 0 or -1.  On failure
    the caller's handle is NULL, the old handle object is gone and no
    handle object has been added.  On success the caller's handle
    points to a handle object, not NULL, and no other handle object has
    been added.  In both cases the endpoint objects are exactly what
    they were: endpoints opened with the old handle keep referring to
    its address. *)
Theorem cpc_restart_handle
    (handle : option cpc_handle_t) (p : proc) (r : Z)
    (handle' : option cpc_handle_t) (p' : proc) (name : string)
    (seconds : Z) (a0 : response) :
  cpc_restart handle p = Done (r, handle') p' ->
  saved_instance_name p = Some name ->
  (Sleep seconds, a0) ∈ since p p' ->
  exists h,
    handle = Some h /\
    endpoints p' = endpoints p /\
    (r = 0 \/ r = -1) /\
    (r <> 0 ->
     handle' = Some (Opaque 0) /\ handles p' !! ptr h = None /\
     forall k v, handles p' !! k = Some v -> handles p !! k = Some v) /\
    (r = 0 ->
     exists a lh,
       handle' = Some (Opaque a) /\ a <> 0 /\ handles p' !! a = Some lh /\
       forall k v, k <> a -> handles p' !! k = Some v ->
                   k <> ptr h /\ handles p !! k = Some v).
Proof.
  intros E Hn Hs.
  destruct (cpc_restart_torn _ _ _ _ _ E Hn)
    as [Hno | (h & q & rs & -> & Hr & Hhq & Heq)].
  { exfalso. exact (Hno _ _ Hs). }
  exists h. split; [done |].
  destruct (retried_objects _ _ _ _ _ _ _ _ Hr) as (He & H01 & Hf & Hok).
  cbn [fst snd] in *. rewrite He, Heq. split; [done |]. split; [done |].
  split.
  - intros Hz. destruct (Hf Hz) as [-> Hsub]. split; [done |].
    split.
    + destruct (handles p' !! ptr h) as [v |] eqn:El; [| done].
      apply Hsub in El. rewrite Hhq, lookup_delete_eq in El. done.
    + intros k v Hk. apply Hsub in Hk. rewrite Hhq in Hk.
      apply lookup_delete_Some in Hk. tauto.
  - intros Hz. destruct (Hok Hz) as (a & lh & -> & Ha & Hl & Hsub).
    exists a, lh. repeat split; try done.
    + intros ->. apply (Hsub _ _ H1) in H2. rewrite Hhq, lookup_delete_eq in H2. done.
    + apply (Hsub _ _ H1) in H2. rewrite Hhq in H2.
      apply lookup_delete_Some in H2. tauto.
Qed.

Lemma deliver_SIGUSR1_silent p :
  sigusr1_handler p = true -> saved_reset_callback p = 0 ->
  deliver_SIGUSR1 p = Done tt p.
Proof.
  destruct p as [e0 tr nm cb sh hs es l0]. cbn [sigusr1_handler saved_reset_callback].
  intros -> ->. reflexivity.
Qed.

(** The handler of SIGUSR1, once installed, stays installed, and it
    serves the callback of the latest [cpc_init], whether that call
    succeeded or not: after a [cpc_init] given the callback [cb], the
    delivery of SIGUSR1 calls [cb] and nothing else, and calls nothing
    at all when [cb] is NULL. *)
Theorem sigusr1_serves_latest_callback
    (handle : option cpc_handle_t) (instance_name : option string)
    (enable_tracing : bool) (reset_callback : Z) (p : proc)
    (rh : Z * option cpc_handle_t) (p' : proc) :
  sigusr1_handler p = true ->
  cpc_init handle instance_name enable_tracing reset_callback p = Done rh p' ->
  exists p'',
    deliver_SIGUSR1 p' = Done tt p'' /\
    (reset_callback = 0 -> p'' = p') /\
    (reset_callback <> 0 -> exists a, since p' p'' = [(Callback reset_callback, a)]).
Proof.
  intros Hsh E.
  destruct (cpc_init_outcome _ _ _ _ _ _ _ E) as (_ & _ & Hkeep & _).
  destruct (cpc_init_saved _ _ _ _ _ _ _ E) as (_ & Hcb & _).
  specialize (Hkeep Hsh).
  destruct (Z.eq_dec reset_callback 0) as [Hz | Hnz].
  - exists p'. rewrite Hz in Hcb. split; [by apply deliver_SIGUSR1_silent |].
    split; [done |]. intros Hc. contradiction.
  - destruct (deliver_SIGUSR1_calls p' reset_callback Hkeep Hcb Hnz) as (p'' & a & Ed & Hs).
    exists p''. split; [done |]. split; [intros Hc; contradiction |]. eauto.
Qed.

End RestartAgain.

Section State.
Context `{Headers} `{Libc}.
Context (sizeof_cpc_endpoint_state_t : Z).


Ltac lock_tests :=
  repeat match goal with
  | E : (rv _ <? 0) = false |- _ => apply lock_taken in E
  | E : (rv _ <? 0) = true |- _ => apply lock_failed in E
  end;
  rewrite ?Z.eqb_refl;
  repeat match goal with
  | E : (0 <=? rv _) = _ |- _ => rewrite E
  end;
  cbn [negb orb andb].

(** [cpc_get_endpoint_state] with a NULL state pointer, a NULL handle or
    the endpoint id 0 returns -1 with [errno] set to [EINVAL] and calls
    nothing at all. *)
Theorem cpc_get_endpoint_state_rejects_invalid_arguments
    (handle : cpc_handle_t) (id : Z) (state : option Z) (p : proc) :
  state = None \/ ptr handle = 0 \/ id = 0 ->
  exists p',
    cpc_get_endpoint_state sizeof_cpc_endpoint_state_t handle id state p
    = Done (-1, state) p' /\
    errno p' = EINVAL /\ since p p' = [] /\
    handles p' = handles p /\ endpoints p' = endpoints p.
Proof.
  intros Hbad.
  assert (E : is_null state || (ptr handle =? 0) || (id =? 0) = true).
  { destruct Hbad as [-> | [Hp | Hi]]; [done | |].
    - apply Z.eqb_eq in Hp. rewrite Hp. by destruct (is_null state).
    - apply Z.eqb_eq in Hi. rewrite Hi. apply orb_true_r. }
  destruct p as [e0 tr nm cb sh hs es l0].
  exists (Proc EINVAL tr nm cb sh hs es l0).
  split; [| split; [reflexivity | split; [by apply (since_app _ _ []) | done]]].
  unfold cpc_get_endpoint_state, func, bind, when. rewrite E. reflexivity.
Qed.

Lemma cpc_get_endpoint_state_outcome handle id state p rs p' :
  cpc_get_endpoint_state sizeof_cpc_endpoint_state_t handle id state p = Done rs p' ->
  handles p' = handles p /\ endpoints p' = endpoints p /\
  allocated (since p p') = freed (since p p') /\
  (forall lh,
     handles p !! ptr handle = Some lh ->
     exclusive (ctrl_sock_fd_lock (ptr handle)) (ctrl_sock_fd lh) false (since p p') = true) /\
  ((rs.1 = -1 /\ rs.2 = state) \/
   (rs.1 = 0 /\
    exists lh a,
      handles p !! ptr handle = Some lh /\
      sent (since p p')
      = [(ctrl_sock_fd lh, endpoint_status_query id sizeof_cpc_endpoint_state_t)] /\
      received (since p p') = [(ctrl_sock_fd lh, (sizeof_cpcd_exchange_buffer_t + sizeof_cpc_endpoint_state_t), a)] /\
      0 < recv_count a (sizeof_cpcd_exchange_buffer_t + sizeof_cpc_endpoint_state_t) /\
      rs.2 = Some (le_value (take (Z.to_nat sizeof_cpc_endpoint_state_t)
                       (payload (recv_buffer a (sizeof_cpcd_exchange_buffer_t + sizeof_cpc_endpoint_state_t)
                          (endpoint_status_query id sizeof_cpc_endpoint_state_t))))))).
Proof.
  destruct p as [e0 tr nm cb sh hs es l0].
  revert rs p'. unfold cpc_get_endpoint_state. wp_start.
  wp_run; try exact I; since_norm; cbn [fst snd endpoints handles allocated freed].
  all: split; [reflexivity |]; split; [reflexivity |].
  all: repeat match goal with
       | E : (rv _ =? 0) = _ |- _ => rewrite E
       end.
  all: split; [reflexivity |].
  all: split;
    [ intros lh Hlh;
      try (injection Hlh as <-);
      cbn [exclusive mutex_eqb]; lock_tests; reflexivity | ].
  all: try (left; split; reflexivity).
  all: right; split; [reflexivity |]; eexists _, _; split; [reflexivity |].
  all: cbn [sent received]; split; [reflexivity |]; split; [reflexivity |].
  all: split; [| reflexivity].
  all: match goal with
       | E : (_ <=? 0) = false |- _ => by apply Z.leb_gt in E
       end.
Qed.

Lemma le_value_zeros n m : le_value (take m (repeat 0 n)) = 0.
Proof.
  revert m. induction n as [| n IH]; intros [| m]; simpl; try done.
  by rewrite IH.
Qed.

Lemma header_only_payload a len q :
  0 <= rv a -> recv_count a len <= sizeof_cpcd_exchange_buffer_t ->
  payload (recv_buffer a len q) = payload q.
Proof.
  unfold recv_count, recv_buffer, payload, sizeof_cpcd_exchange_buffer_t.
  intros Hrv. destruct (rv a <? 0) eqn:E; [apply Z.ltb_lt in E; lia |].
  change (Z.to_nat 2) with 2%nat.
  set (d := take (Z.to_nat len) (rdata a)). intros Hl.
  rewrite drop_app_ge by lia. rewrite drop_drop. f_equal. lia.
Qed.

Lemma full_payload a len q n :
  len = sizeof_cpcd_exchange_buffer_t + n -> 0 <= n ->
  recv_count a len = len ->
  take (Z.to_nat n) (payload (recv_buffer a len q))
  = take (Z.to_nat n) (payload (rdata a)).
Proof.
  unfold recv_count, recv_buffer, payload, sizeof_cpcd_exchange_buffer_t.
  intros -> Hn. destruct (rv a <? 0) eqn:E; [apply Z.ltb_lt in E; lia |].
  change (Z.to_nat 2) with 2%nat.
  replace (Z.to_nat (2 + n)) with (2 + Z.to_nat n)%nat by lia.
  set (d := take (2 + Z.to_nat n) (rdata a)). intros Hl.
  assert (Hd : length d = (2 + Z.to_nat n)%nat) by lia.
  rewrite drop_app_le by lia.
  rewrite take_app_le by (rewrite length_drop; lia).
  unfold d. rewrite <- take_drop_commute. rewrite take_take. f_equal. lia.
Qed.

(** What a successful [cpc_get_endpoint_state] stores in [*state].  It
    has sent one endpoint status query for [id], with a zeroed payload,
    on the control socket, and received one message of at least one
    byte in the same buffer.  When the reply is complete, the state is
    the payload of the reply; when the reply has no more than the two
    bytes of the header, the state is the zeroed payload of the query,
    that is 0. *)
Theorem cpc_get_endpoint_state_value
    (handle : cpc_handle_t) (id : Z) (state : option Z) (p : proc)
    (state' : option Z) (p' : proc) :
  0 <= sizeof_cpc_endpoint_state_t ->
  cpc_get_endpoint_state sizeof_cpc_endpoint_state_t handle id state p
  = Done (0, state') p' ->
  exists lh a,
    handles p !! ptr handle = Some lh /\
    sent (since p p')
    = [(ctrl_sock_fd lh, endpoint_status_query id sizeof_cpc_endpoint_state_t)] /\
    received (since p p')
    = [(ctrl_sock_fd lh, sizeof_cpcd_exchange_buffer_t + sizeof_cpc_endpoint_state_t, a)] /\
    0 < recv_count a (sizeof_cpcd_exchange_buffer_t + sizeof_cpc_endpoint_state_t) /\
    (recv_count a (sizeof_cpcd_exchange_buffer_t + sizeof_cpc_endpoint_state_t)
     = sizeof_cpcd_exchange_buffer_t + sizeof_cpc_endpoint_state_t ->
     state' = Some (le_value (take (Z.to_nat sizeof_cpc_endpoint_state_t)
                       (payload (rdata a))))) /\
    (recv_count a (sizeof_cpcd_exchange_buffer_t + sizeof_cpc_endpoint_state_t)
     <= sizeof_cpcd_exchange_buffer_t ->
     state' = Some 0).
Proof.
  intros Hsz E.
  destruct (cpc_get_endpoint_state_outcome _ _ _ _ _ _ E)
    as (_ & _ & _ & _ & [[Hr _] | (_ & lh & a & Hlh & Hsent & Hrecv & Hpos & Hst)]);
    [discriminate Hr |].
  cbn [snd] in Hst. exists lh, a.
  split; [done |]. split; [done |]. split; [done |]. split; [done |].
  assert (Hrv : 0 <= rv a).
  { unfold recv_count in Hpos. destruct (rv a <? 0) eqn:Erv; [lia |].
    by apply Z.ltb_ge in Erv. }
  split; intros Hc; rewrite Hst; f_equal.
  - f_equal. by apply full_payload.
  - rewrite (header_only_payload _ _ _ Hrv Hc).
    unfold endpoint_status_query, payload, exchange_buffer. cbn [drop Z.to_nat sizeof_cpcd_exchange_buffer_t Pos.to_nat Pos.iter_op Nat.add].
    apply le_value_zeros.
Qed.

(** Whatever its result, a [cpc_get_endpoint_state] that returns has
    left the library's objects as they were and has freed the request
    buffer it allocated.  It has sent and received on the control
    socket only between a [pthread_mutex_lock] of the handle's mutex
    that did not return a negative value, the only failure that the
    function tests for, and the [pthread_mutex_unlock] that follows it;
    and every such lock is followed by an unlock before the function
    returns.  It returns 0, or -1 with [*state] untouched. *)
Theorem cpc_get_endpoint_state_discipline
    (handle : cpc_handle_t) (id : Z) (state : option Z) (p : proc)
    (r : Z) (state' : option Z) (p' : proc) (lh : sli_cpc_handle_t) :
  cpc_get_endpoint_state sizeof_cpc_endpoint_state_t handle id state p
  = Done (r, state') p' ->
  handles p !! ptr handle = Some lh ->
  handles p' = handles p /\ endpoints p' = endpoints p /\
  allocated (since p p') = freed (since p p') /\
  exclusive (ctrl_sock_fd_lock (ptr handle)) (ctrl_sock_fd lh) false (since p p') = true /\
  (r = 0 \/ (r = -1 /\ state' = state)).
Proof.
  intros E Hlh.
  destruct (cpc_get_endpoint_state_outcome _ _ _ _ _ _ E)
    as (Hh & He & Hm & Hx & Hr).
  split; [done |]. split; [done |]. split; [done |]. split; [by apply Hx |].
  destruct Hr as [[Hr Hs] | [Hr _]]; auto.
Qed.

End State.

Section Options.
Context `{Headers} `{Libc}.

(** [cpc_set_endpoint_option] turns down, with -1 and [EINVAL] and
    without touching the socket, a NULL endpoint, a NULL [optval], an
    [optlen] that is not the size of the option's type, and every option
    other than the two timeouts, the blocking mode and the socket size
    (so [CPC_OPTION_MAX_WRITE_SIZE] cannot be set). *)
Theorem cpc_set_endpoint_option_rejects
    (endpoint : cpc_endpoint_t) (option_ : cpc_option_t) (optval : option optval_t)
    (optlen : Z) (p : proc) :
  ptr endpoint = 0 \/ optval = None \/ set_option_length option_ <> Some optlen ->
  exists p',
    cpc_set_endpoint_option endpoint option_ optval optlen p = Done (-1) p' /\
    errno p' = EINVAL /\
    only_traces (since p p') /\
    handles p' = handles p /\ endpoints p' = endpoints p.
Proof.
  intros Hbad.
  enough (exists r p',
            cpc_set_endpoint_option endpoint option_ optval optlen p = Done r p' /\
            r = -1 /\ errno p' = EINVAL /\ only_traces (since p p') /\
            handles p' = handles p /\ endpoints p' = endpoints p)
    as (r & p' & E & -> & Hrest) by eauto.
  destruct p as [e0 tr nm cb sh hs es l0].
  destruct (ptr endpoint =? 0) eqn:Ep.
  { unfold cpc_set_endpoint_option. wp_start. rewrite Ep.
    destruct option_, optval; cbn [is_CPC_OPTION_NONE is_null orb].
    all: wp_run; since_norm; (repeat split); only_traces_solve. }
  destruct optval as [v |].
  2: { unfold cpc_set_endpoint_option. wp_start. rewrite Ep.
       destruct option_; cbn [is_CPC_OPTION_NONE is_null orb].
       all: wp_run; since_norm; (repeat split); only_traces_solve. }
  destruct Hbad as [Hp | [Hv | Hl]];
    [apply Z.eqb_neq in Ep; contradiction | discriminate Hv |].
  unfold cpc_set_endpoint_option. wp_start. rewrite Ep.
  destruct option_; cbn [is_CPC_OPTION_NONE is_null orb set_option_length] in *.
  all: try (wp_run; since_norm; (repeat split); only_traces_solve; fail).
  all: match goal with
       | |- context [negb (?l =? ?n)] =>
           assert (En : (l =? n) = false)
             by (apply Z.eqb_neq; intros ->; by apply Hl);
           rewrite En; cbn [negb]
       end.
  all: wp_run; since_norm; (repeat split); only_traces_solve.
Qed.

(** Setting a timeout or the socket size: whenever
    [cpc_set_endpoint_option] returns 0 for [CPC_OPTION_RX_TIMEOUT],
    [CPC_OPTION_TX_TIMEOUT] or [CPC_OPTION_SOCKET_SIZE], its one and
    only call was a successful [setsockopt] of [SO_RCVTIMEO],
    [SO_SNDTIMEO] or [SO_SNDBUF] on the endpoint's socket, with the
    caller's value unchanged. *)
Theorem cpc_set_endpoint_option_setsockopt
    (endpoint : cpc_endpoint_t) (option_ : cpc_option_t) (optval : option optval_t)
    (optlen : Z) (p : proc) (p' : proc) (so : sockopt) :
  sockopt_of option_ = Some so ->
  cpc_set_endpoint_option endpoint option_ optval optlen p = Done 0 p' ->
  exists ep v a,
    endpoints p !! ptr endpoint = Some ep /\ optval = Some v /\
    since p p' = [(Setsockopt (sock_fd ep) so v, a)] /\ 0 <= rv a /\
    handles p' = handles p /\ endpoints p' = endpoints p.
Proof.
  intros Hso.
  enough (forall r p',
            cpc_set_endpoint_option endpoint option_ optval optlen p = Done r p' ->
            r = 0 ->
            exists ep v a,
              endpoints p !! ptr endpoint = Some ep /\ optval = Some v /\
              since p p' = [(Setsockopt (sock_fd ep) so v, a)] /\ 0 <= rv a /\
              handles p' = handles p /\ endpoints p' = endpoints p)
    as Hgen by (intros E; exact (Hgen _ _ E eq_refl)).
  destruct p as [e0 tr nm cb sh hs es l0].
  destruct option_; try discriminate Hso; injection Hso as <-.
  all: destruct optval as [[b | sec us | n | n] |].
  all: unfold cpc_set_endpoint_option; wp_start.
  all: wp_run; try exact I; since_norm; cbn [endpoints handles];
    intros Hr; try discriminate Hr.
  all: eexists _, _, _; split; [reflexivity |]; split; [reflexivity |].
  all: split; [reflexivity |]; split; [| done].
  all: match goal with
       | E : (rv _ <? 0) = false |- _ => by apply Z.ltb_ge in E
       | E : negb (rv _ =? 0) = false |- _ =>
           apply negb_false_iff, Z.eqb_eq in E; rewrite E; done
       end.
Qed.

(** On an endpoint that is not NULL, [cpc_get_endpoint_option] turns an
    option down before it calls anything but the trace output: with
    [EINVAL] a timeout whose
    [*optlen] is not the size of [cpc_timeval_t] and an option it does
    not know, with [ENOMEM] the blocking mode or the socket size whose
    [*optlen] is too small.  It returns -1 and leaves [*optval] and
    [*optlen] as they were. *)
Theorem cpc_get_endpoint_option_rejects
    (endpoint : cpc_endpoint_t) (option_ : cpc_option_t) (v : optval_t)
    (len : Z) (p : proc) (e : Z) :
  ptr endpoint <> 0 ->
  get_option_error option_ len = Some e ->
  exists p',
    cpc_get_endpoint_option endpoint option_ (Some v) (Some len) p
    = Done (-1, Some v, Some len) p' /\
    errno p' = e /\
    only_traces (since p p') /\
    handles p' = handles p /\ endpoints p' = endpoints p.
Proof.
  intros Hp He. apply Z.eqb_neq in Hp.
  enough (exists r p',
            cpc_get_endpoint_option endpoint option_ (Some v) (Some len) p = Done r p' /\
            r = (-1, Some v, Some len) /\ errno p' = e /\ only_traces (since p p') /\
            handles p' = handles p /\ endpoints p' = endpoints p)
    as (r & p' & E & -> & Hrest) by eauto.
  destruct p as [e0 tr nm cb sh hs es l0].
  destruct option_; cbn [get_option_error] in He; try discriminate He.
  all: try match type of He with
           | (if ?c then _ else _) = _ => destruct c eqn:Ec; try discriminate He
           end.
  all: injection He as <-.
  all: unfold cpc_get_endpoint_option; wp_start.
  all: cbn [is_CPC_OPTION_NONE is_null orb default]; unfold Datatypes.id;
    rewrite ?Ec, ?Hp; cbn [negb orb].
  all: wp_run; since_norm; (repeat split); only_traces_solve.
Qed.

Lemma to_int_small v : - 2 ^ 31 <= v <= INT_MAX -> to_int v = v.
Proof.
  unfold to_int, INT_MAX. intros Hv.
  destruct (Z_lt_le_dec v 0) as [Hneg | Hpos].
  - rewrite <- (Z_mod_plus_full v 1 (2 ^ 32)).
    rewrite Z.mod_small by lia.
    destruct (v + 1 * 2 ^ 32 <? 2 ^ 31) eqn:E; [apply Z.ltb_lt in E; lia | lia].
  - rewrite Z.mod_small by lia.
    destruct (v <? 2 ^ 31) eqn:E; [done | apply Z.ltb_ge in E; lia].
Qed.

(** Reading a timeout: when [getsockopt] succeeds,
    [cpc_get_endpoint_option] for [CPC_OPTION_RX_TIMEOUT] or
    [CPC_OPTION_TX_TIMEOUT] has asked the endpoint's socket for
    [SO_RCVTIMEO] or [SO_SNDTIMEO]; it reports the seconds and
    microseconds that the kernel answered when they fit an [int], and
    returns -1 with [EINVAL], [*optval] untouched, when one of them
    exceeds [INT_MAX]. *)
Theorem cpc_get_endpoint_option_timeout
    (endpoint : cpc_endpoint_t) (option_ : cpc_option_t) (optval : option optval_t)
    (optlen : option Z) (p : proc) (r : Z) (optval' : option optval_t)
    (optlen' : option Z) (p' : proc) (fd : Z) (so : sockopt) (a : response) :
  option_ = CPC_OPTION_RX_TIMEOUT \/ option_ = CPC_OPTION_TX_TIMEOUT ->
  cpc_get_endpoint_option endpoint option_ optval optlen p
  = Done (r, optval', optlen') p' ->
  (Getsockopt fd so, a) ∈ since p p' ->
  0 <= rv a ->
  sockopt_of option_ = Some so /\
  (exists ep, endpoints p !! ptr endpoint = Some ep /\ fd = sock_fd ep) /\
  optlen' = optlen /\
  (INT_MAX < nth 0 (rdata a) 0 \/ INT_MAX < nth 1 (rdata a) 0 ->
   r = -1 /\ errno p' = EINVAL /\ optval' = optval) /\
  (- 2 ^ 31 <= nth 0 (rdata a) 0 <= INT_MAX ->
   - 2 ^ 31 <= nth 1 (rdata a) 0 <= INT_MAX ->
   r = 0 /\ optval' = Some (opt_timeval (nth 0 (rdata a) 0) (nth 1 (rdata a) 0))).
Proof.
  intros Ho.
  enough (forall rvl p',
            cpc_get_endpoint_option endpoint option_ optval optlen p = Done rvl p' ->
            (Getsockopt fd so, a) ∈ since p p' ->
            0 <= rv a ->
            sockopt_of option_ = Some so /\
            (exists ep, endpoints p !! ptr endpoint = Some ep /\ fd = sock_fd ep) /\
            rvl.2 = optlen /\
            (INT_MAX < nth 0 (rdata a) 0 \/ INT_MAX < nth 1 (rdata a) 0 ->
             rvl.1.1 = -1 /\ errno p' = EINVAL /\ rvl.1.2 = optval) /\
            (- 2 ^ 31 <= nth 0 (rdata a) 0 <= INT_MAX ->
             - 2 ^ 31 <= nth 1 (rdata a) 0 <= INT_MAX ->
             rvl.1.1 = 0 /\
             rvl.1.2 = Some (opt_timeval (nth 0 (rdata a) 0) (nth 1 (rdata a) 0))))
    as Hgen by (intros E; exact (Hgen _ _ E)).
  destruct p as [e0 tr nm cb sh hs es l0].
  destruct Ho as [-> | ->].
  all: unfold cpc_get_endpoint_option; wp_start.
  all: wp_run; try exact I; since_norm; cbn [fst snd endpoints errno sockopt_of].
  all: intros Hin Hrv; elem_cases Hin; injection Hin as -> -> ->.
  all: try match goal with
           | E : (rv _ <? 0) = true |- _ => apply Z.ltb_lt in E; lia
           end.
  all: split; [reflexivity |]; split; [eauto |]; split; [reflexivity |].
  all: match goal with
       | E : (INT_MAX <? _) || (INT_MAX <? _) = true |- _ =>
           apply orb_prop in E as [Hbig | Hbig]; apply Z.ltb_lt in Hbig;
           (split; [intros _; done | intros Hs Hu; lia])
       | E : (INT_MAX <? _) || (INT_MAX <? _) = false |- _ =>
           apply orb_false_elim in E as [Hs0 Hu0];
           apply Z.ltb_ge in Hs0; apply Z.ltb_ge in Hu0;
           (split; [intros [Hs | Hu]; lia |
                    intros Hs Hu; rewrite !to_int_small by done; done])
       end.
Qed.

(** [CPC_OPTION_MAX_WRITE_SIZE] reports the bound that
    [cpc_write_endpoint] enforces.  On an endpoint that is not NULL,
    [cpc_get_endpoint_option] answers it with 0, without a call and without looking at [*optlen], which becomes
    [sizeof(size_t)]; the value is the [max_write_size] of the
    endpoint's library handle, and in the same state every write of more
    bytes returns -1 with [EINVAL] and sends nothing, while every write
    that does not return -1 had at most that many bytes. *)
Theorem max_write_size_option_is_write_bound
    (endpoint : cpc_endpoint_t) (v : optval_t) (len : Z) (p : proc)
    (r : Z) (optval' : option optval_t) (optlen' : option Z) (p' : proc) :
  ptr endpoint <> 0 ->
  cpc_get_endpoint_option endpoint CPC_OPTION_MAX_WRITE_SIZE (Some v) (Some len) p
  = Done (r, optval', optlen') p' ->
  r = 0 /\ p' = p /\ optlen' = Some sizeof_size_t /\
  exists m,
    optval' = Some (opt_size_t m) /\
    forall data data_length flags rw pw,
      cpc_write_endpoint endpoint data data_length flags p = Done rw pw ->
      (m < data_length ->
       rw = -1 /\ errno pw = EINVAL /\
       forall fd msg fl a, (Send fd msg fl, a) ∉ since p pw) /\
      (rw <> -1 -> data_length <= m).
Proof.
  intros Hp. apply Z.eqb_neq in Hp.
  enough (forall rvl p',
            cpc_get_endpoint_option endpoint CPC_OPTION_MAX_WRITE_SIZE (Some v) (Some len) p
            = Done rvl p' ->
            rvl.1.1 = 0 /\ p' = p /\ rvl.2 = Some sizeof_size_t /\
            exists ep lh,
              endpoints p !! ptr endpoint = Some ep /\
              handles p !! lib_handle ep = Some lh /\
              rvl.1.2 = Some (opt_size_t (max_write_size lh)))
    as Hgen.
  { intros E. destruct (Hgen _ _ E) as (Hr & Hpp & Hl & ep & lh & Hep & Hlh & Hv).
    cbn [fst snd] in *. split; [done |]. split; [done |]. split; [done |].
    exists (max_write_size lh). split; [done |].
    intros data data_length flags rw pw Ew. split.
    - intros Hbig.
      destruct (cpc_write_endpoint_too_large endpoint data data_length flags p ep lh
                  Hep Hlh Hbig) as (r2 & p2 & E2 & -> & He & _ & Hns).
      rewrite E2 in Ew. injection Ew as <- <-. done.
    - intros Hok.
      destruct (cpc_write_endpoint_whole_message _ _ _ _ _ _ _ Ew Hok)
        as (ep2 & lh2 & bytes & a & Hep2 & Hlh2 & _ & _ & Hle & _).
      rewrite Hep in Hep2. injection Hep2 as <-.
      rewrite Hlh in Hlh2. injection Hlh2 as <-. done. }
  destruct p as [e0 tr nm cb sh hs es l0].
  unfold cpc_get_endpoint_option; wp_start.
  cbn [is_CPC_OPTION_NONE is_null orb]; rewrite Hp; cbn [orb].
  wp_run; try exact I; cbn [fst snd endpoints handles].
  all: split; [reflexivity |]; split; [reflexivity |]; split; [reflexivity |].
  all: eexists _, _; split; [reflexivity |]; split; [eassumption |]; reflexivity.
Qed.

End Options.

Section OpenMemory.
Context `{Headers} `{Libc}.

(** The memory of [cpc_open_endpoint].  When [socket] returns 0 the
    function gives up, returning -1, having allocated the endpoint
    object and the query buffer and freed the endpoint object only: the
    query buffer is never freed.  When it has initialised the
    endpoint's mutex, its last step, it has allocated these two, freed
    the query buffer and handed the endpoint object to the caller.  On
    every other path it gives up, returning -1, has allocated at most
    two blocks and has freed, in reverse order, all that it obtained
    from [malloc]. *)
Theorem cpc_open_endpoint_memory
    (handle : cpc_handle_t) (endpoint : option cpc_endpoint_t) (id tx_window_size : Z)
    (p : proc) (r : Z) (endpoint' : option cpc_endpoint_t) (p' : proc) :
  cpc_open_endpoint handle endpoint id tx_window_size p = Done (r, endpoint') p' ->
  (socket_gave_zero (since p p') ->
   r = -1 /\ endpoint' = endpoint /\
   exists ma mq,
     (Malloc sizeof_sli_cpc_endpoint_t, ma) ∈ since p p' /\
     (Malloc (sizeof_cpcd_exchange_buffer_t + sizeof_bool), mq) ∈ since p p' /\
     allocated (since p p') = [rv ma; rv mq] /\ freed (since p p') = [rv ma]) /\
  (mutex_initialised (since p p') ->
   exists ma mq,
     (Malloc sizeof_sli_cpc_endpoint_t, ma) ∈ since p p' /\
     (Malloc (sizeof_cpcd_exchange_buffer_t + sizeof_bool), mq) ∈ since p p' /\
     endpoint' = Some (Opaque (rv ma)) /\
     endpoints p' !! rv ma = Some (Endpoint id r (ptr handle)) /\
     allocated (since p p') = [rv ma; rv mq] /\ freed (since p p') = [rv mq]) /\
  (~ socket_gave_zero (since p p') -> ~ mutex_initialised (since p p') ->
   r = -1 /\ endpoint' = endpoint /\
   (length (allocated (since p p')) <= 2)%nat /\
   freed (since p p') = rev (allocated (since p p'))).
Proof.
  destruct p as [e0 tr nm cb sh hs es l0].
  enough (forall re p',
            cpc_open_endpoint handle endpoint id tx_window_size
              (Proc e0 tr nm cb sh hs es l0) = Done re p' ->
            (socket_gave_zero (since (Proc e0 tr nm cb sh hs es l0) p') ->
             re.1 = -1 /\ re.2 = endpoint /\
             exists ma mq,
               (Malloc sizeof_sli_cpc_endpoint_t, ma)
                 ∈ since (Proc e0 tr nm cb sh hs es l0) p' /\
               (Malloc (sizeof_cpcd_exchange_buffer_t + sizeof_bool), mq)
                 ∈ since (Proc e0 tr nm cb sh hs es l0) p' /\
               allocated (since (Proc e0 tr nm cb sh hs es l0) p') = [rv ma; rv mq] /\
               freed (since (Proc e0 tr nm cb sh hs es l0) p') = [rv ma]) /\
            (mutex_initialised (since (Proc e0 tr nm cb sh hs es l0) p') ->
             exists ma mq,
               (Malloc sizeof_sli_cpc_endpoint_t, ma)
                 ∈ since (Proc e0 tr nm cb sh hs es l0) p' /\
               (Malloc (sizeof_cpcd_exchange_buffer_t + sizeof_bool), mq)
                 ∈ since (Proc e0 tr nm cb sh hs es l0) p' /\
               re.2 = Some (Opaque (rv ma)) /\
               endpoints p' !! rv ma = Some (Endpoint id re.1 (ptr handle)) /\
               allocated (since (Proc e0 tr nm cb sh hs es l0) p') = [rv ma; rv mq] /\
               freed (since (Proc e0 tr nm cb sh hs es l0) p') = [rv mq]) /\
            (~ socket_gave_zero (since (Proc e0 tr nm cb sh hs es l0) p') ->
             ~ mutex_initialised (since (Proc e0 tr nm cb sh hs es l0) p') ->
             re.1 = -1 /\ re.2 = endpoint /\
             (length (allocated (since (Proc e0 tr nm cb sh hs es l0) p')) <= 2)%nat /\
             freed (since (Proc e0 tr nm cb sh hs es l0) p')
             = rev (allocated (since (Proc e0 tr nm cb sh hs es l0) p'))))
    as Hgen by (intros E; exact (Hgen _ _ E)).
  unfold cpc_open_endpoint. wp_start.
  wp_run; try exact I; since_norm; cbn [fst snd endpoints allocated freed].
  all: repeat match goal with
       | E : (rv _ =? 0) = _ |- _ => rewrite E
       end.
  all: split;
    [ intros (sa & Hin & Hz); elem_cases Hin; injection Hin as ->;
      first
        [ exfalso;
          match goal with
          | E : (rv ?x =? 0) = false |- _ => apply Z.eqb_neq in E; contradiction
          end
        | split; [reflexivity |]; split; [reflexivity |];
          eexists _, _; split; [elem_solve |]; split; [elem_solve |];
          split; reflexivity ]
    | ].
  all: split;
    [ intros (m & i & Hin & Hpos); elem_cases Hin; injection Hin as -> ->;
      first
        [ exfalso;
          match goal with
          | E : (rv ?x <? 0) = true |- _ => apply Z.ltb_lt in E; lia
          end
        | eexists _, _; split; [elem_solve |]; split; [elem_solve |];
          split; [reflexivity |];
          split; [apply lookup_insert_eq |]; split; reflexivity ]
    | ].
  all: intros Hns Hnm.
  all: first
    [ split; [reflexivity |]; split; [reflexivity |];
      split; [cbn [length]; lia | reflexivity]
    | exfalso; apply Hns; eexists; split;
      [ elem_solve
      | match goal with
        | E : (rv ?x =? 0) = true |- rv ?x = 0 => by apply Z.eqb_eq in E
        end ]
    | exfalso; apply Hnm; eexists _, _; split;
      [ elem_solve
      | match goal with
        | E : (rv ?x <? 0) = false |- 0 <= rv ?x => by apply Z.ltb_ge in E
        end ] ].
Qed.

(** When its [send] fails with -1, [cpc_write_endpoint] returns -1 and
    lets the caller see the [errno] of [send]. *)
Theorem cpc_write_endpoint_send_error
    (endpoint : cpc_endpoint_t) (data : option (list Z)) (data_length flags : Z)
    (p : proc) (r : Z) (p' : proc) (fd : Z) (msg : list Z) (fl : Z) (a : response) :
  cpc_write_endpoint endpoint data data_length flags p = Done r p' ->
  (Send fd msg fl, a) ∈ since p p' ->
  rv a = -1 ->
  r = -1 /\ errno p' = default (errno p) (rerrno a) /\
  handles p' = handles p /\ endpoints p' = endpoints p.
Proof.
  destruct p as [e0 tr nm cb sh hs es l0].
  revert r p'. unfold cpc_write_endpoint. wp_start.
  wp_run; try exact I; since_norm; cbn [errno handles endpoints].
  all: intros Hin Hr; elem_cases Hin.
  all: injection Hin as -> -> -> ->.
  all: try done.
  all: match goal with
       | E : (rv _ =? -1) = false |- _ => apply Z.eqb_neq in E; contradiction
       end.
Qed.

End OpenMemory.

(** * The theorems at work on the demonstration platform *)

Import Demo.

Lemma scripted_keeps_O_NONBLOCK s : @fcntl_keeps_O_NONBLOCK (scripted s).
Proof. intros log fd fl Hl _. simpl. by rewrite Hl. Qed.

Lemma cpc_read_endpoint_rejects_invalid_arguments_witness :
  (@None (list Z) = None \/ 0 < SL_CPC_READ_MINIMUM_SIZE \/ ptr (Opaque 0) = 0) /\
  exists r p',
    cpc_read_endpoint (Opaque 0) None 0 0 boot = Done r p' /\
    r = (-1, None) /\ errno p' = EINVAL /\
    only_traces (since boot p') /\
    (forall fd len fl a, (Recv fd len fl, a) ∉ since boot p') /\
    handles p' = handles boot /\ endpoints p' = endpoints boot.
Proof.
  split; [left; reflexivity |].
  apply cpc_read_endpoint_rejects_invalid_arguments. left; reflexivity.
Defined.

(** C1 as stated fails: with the endpoint's connection lost the socket
    is at end of file (its [recv] answers 0 bytes), and
    [cpc_read_endpoint] returns -1, not 0. *)
Lemma cpc_read_endpoint_connection_lost_counterexample :
  recv_count (daemon lost (calls (opened lost)) (Recv 4 4087 0)) 4087 = 0 /\
  read lost = Done (-1, Some user_buffer) (final (read lost)) /\
  errno (final (read lost)) = ECONNRESET /\
  ~ (exists buffer p', read lost = Done (0, buffer) p').
Proof.
  assert (E : read lost = Done (-1, Some user_buffer) (final (read lost)))
    by (vm_compute; reflexivity).
  split; [vm_compute; reflexivity |]. split; [exact E |].
  split; [vm_compute; reflexivity |].
  intros (buffer & p' & E'). rewrite E in E'. discriminate E'.
Qed.

Lemma cpc_read_endpoint_connection_lost_witness :
  cpc_read_endpoint (H0 := scripted lost) endpoint (Some user_buffer) 4087 0 (opened lost)
  = Done (-1, Some user_buffer) (final (read lost)) /\
  (Recv 4 4087 0, datagram []) ∈ since (opened lost) (final (read lost)) /\
  recv_count (datagram []) 4087 = 0 /\
  (-1, Some user_buffer).1 = -1 /\ errno (final (read lost)) = ECONNRESET.
Proof.
  assert (E : cpc_read_endpoint (H0 := scripted lost) endpoint (Some user_buffer)
                4087 0 (opened lost)
              = Done (-1, Some user_buffer) (final (read lost)))
    by (vm_compute; reflexivity).
  assert (Hin : (Recv 4 4087 0, datagram []) ∈ since (opened lost) (final (read lost)))
    by (vm_compute; apply list_elem_of_here).
  assert (Hc : recv_count (datagram []) 4087 = 0) by reflexivity.
  split; [exact E |]. split; [exact Hin |]. split; [exact Hc |].
  exact (cpc_read_endpoint_connection_lost (H0 := scripted lost)
           endpoint (Some user_buffer) 4087 0 (opened lost) _ _ E
           4 4087 0 (datagram []) Hin Hc).
Defined.

(** C2 as stated fails: after a [cpc_close_endpoint] that returned 0, a
    second call on the same endpoint returns -1, not 0, and changes
    [errno] from 0 to [EINVAL]. *)
Lemma cpc_close_endpoint_twice_counterexample :
  close healthy = Done (0, Some (Opaque 0)) (closed healthy) /\
  errno (closed healthy) = 0 /\
  close_again healthy = Done (-1, Some (Opaque 0)) (final (close_again healthy)) /\
  errno (final (close_again healthy)) = EINVAL /\
  ~ (exists endpoint' p', close_again healthy = Done (0, endpoint') p').
Proof.
  assert (E : close_again healthy
              = Done (-1, Some (Opaque 0)) (final (close_again healthy)))
    by (vm_compute; reflexivity).
  split; [vm_compute; reflexivity |]. split; [vm_compute; reflexivity |].
  split; [exact E |]. split; [vm_compute; reflexivity |].
  intros (endpoint' & p' & E'). rewrite E in E'. discriminate E'.
Qed.

Lemma cpc_close_endpoint_twice_witness :
  cpc_close_endpoint (Some endpoint) (opened healthy)
  = Done (0, Some (Opaque 0)) (closed healthy) /\
  exists p'',
    cpc_close_endpoint (Some (Opaque 0)) (closed healthy)
    = Done (-1, Some (Opaque 0)) p'' /\
    errno p'' = EINVAL /\
    only_traces (since (closed healthy) p'') /\
    handles p'' = handles (closed healthy) /\
    endpoints p'' = endpoints (closed healthy).
Proof.
  assert (E : cpc_close_endpoint (Some endpoint) (opened healthy)
              = Done (0, Some (Opaque 0)) (closed healthy))
    by (vm_compute; reflexivity).
  split; [exact E |].
  exact (cpc_close_endpoint_twice (Some endpoint) (opened healthy) 0
           (Some (Opaque 0)) (closed healthy) E).
Defined.

(** C3 as stated fails: a request with a TX window of 2, which lies
    between 1 and 7, is rejected with [EINVAL], whereas the same
    request with a window of 1 succeeds. *)
Lemma cpc_open_endpoint_tx_window_size_counterexample :
  1 <= 2 <= 7 /\
  open healthy 2 = Done (-1, user_endpoint) (final (open healthy 2)) /\
  errno (final (open healthy 2)) = EINVAL /\
  since (initialised healthy) (final (open healthy 2)) = [] /\
  open healthy 1 = Done (4, Some endpoint) (opened healthy).
Proof.
  split; [lia |]. split; [vm_compute; reflexivity |].
  split; [vm_compute; reflexivity |]. split; vm_compute; reflexivity.
Qed.

Lemma cpc_open_endpoint_tx_window_size_witness :
  saved_instance_name (initialised healthy) = Some "cpcd_0"%string /\
  strlen (ep_socket_path "cpcd_0" 3) < sizeof_sun_path - 1 /\
  2 <> 1 /\
  (exists p',
     cpc_open_endpoint (H0 := scripted healthy) handle user_endpoint 3 2
       (initialised healthy)
     = Done (-1, user_endpoint) p' /\
     errno p' = EINVAL /\
     only_traces (since (initialised healthy) p') /\
     handles p' = handles (initialised healthy) /\
     endpoints p' = endpoints (initialised healthy)) /\
  (forall r p',
     cpc_open_endpoint (H0 := scripted healthy) handle user_endpoint 3 1
       (initialised healthy) = Done r p' ->
     only_traces (since (initialised healthy) p') ->
     3 = 0 \/ user_endpoint = None \/ ptr handle = 0).
Proof.
  assert (Hi : saved_instance_name (initialised healthy) = Some "cpcd_0"%string)
    by (vm_compute; reflexivity).
  assert (Hfit : strlen (ep_socket_path "cpcd_0" 3) < sizeof_sun_path - 1)
    by (vm_compute; reflexivity).
  assert (Htx : 2 <> 1) by lia.
  split; [exact Hi |]. split; [exact Hfit |]. split; [exact Htx |].
  exact (cpc_open_endpoint_tx_window_size (H0 := scripted healthy) handle user_endpoint 3 2
           (initialised healthy) "cpcd_0" Hi Hfit Htx).
Defined.

Lemma version_mismatch_aborts_init_witness :
  (check_version (H0 := scripted old) 4096 (initialised healthy)
   = Done false (final downgraded) /\
   reply_to version_query (datagram [3; 0; 1])
     (since (initialised healthy) (final downgraded)) /\
   version_mismatch (datagram [3; 0; 1]) /\
   false = false /\ errno (final downgraded) = ELIBBAD) /\
  (cpc_init (H0 := scripted old) user_handle None false on_reset boot
   = Done (-1, user_handle) (initialised old) /\
   reply_to version_query (datagram [3; 0; 1]) (since boot (initialised old)) /\
   -1 = -1 /\ user_handle = user_handle /\ errno (initialised old) = ELIBBAD /\
   forall k h, handles (initialised old) !! k = Some h -> handles boot !! k = Some h).
Proof.
  assert (E1 : check_version (H0 := scripted old) 4096 (initialised healthy)
               = Done false (final downgraded))
    by (vm_compute; reflexivity).
  assert (R1 : reply_to version_query (datagram [3; 0; 1])
                 (since (initialised healthy) (final downgraded)))
    by (vm_compute; left; split; reflexivity).
  assert (M : version_mismatch (datagram [3; 0; 1]))
    by (unfold version_mismatch; simpl; repeat split; lia).
  assert (E2 : cpc_init (H0 := scripted old) user_handle None false on_reset boot
               = Done (-1, user_handle) (initialised old))
    by (vm_compute; reflexivity).
  assert (R2 : reply_to version_query (datagram [3; 0; 1]) (since boot (initialised old)))
    by (vm_compute; right; left; split; reflexivity).
  split.
  - split; [exact E1 |]. split; [exact R1 |]. split; [exact M |].
    exact (proj1 (version_mismatch_aborts_init (H0 := scripted old))
             4096 (initialised healthy) false (final downgraded) (datagram [3; 0; 1])
             E1 R1 M).
  - split; [exact E2 |]. split; [exact R2 |].
    exact (proj2 (version_mismatch_aborts_init (H0 := scripted old))
             user_handle None false on_reset boot (-1) user_handle (initialised old)
             (datagram [3; 0; 1]) E2 R2 M).
Defined.

Lemma cpc_open_endpoint_awaits_server_ack_witness :
  cpc_open_endpoint (H0 := scripted chatty) handle user_endpoint 3 1 (initialised chatty)
  = Done (-1, user_endpoint) (final (open chatty 1)) /\
  first_message (since (initialised chatty) (final (open chatty 1)))
  = Some (4, 3, datagram [1; 0; 7]) /\
  ~ is_ack (datagram [1; 0; 7]) /\
  (forall fd len a,
     first_message (since (initialised chatty) (final (open chatty 1))) = Some (fd, len, a) ->
     len = sizeof_cpcd_exchange_buffer_t + sizeof_bool /\
     (~ is_ack a ->
      -1 = -1 /\ user_endpoint = user_endpoint /\
      exists c,
        (Close fd, c) ∈ after_Connect (since (initialised chatty) (final (open chatty 1))))) /\
  (0 <= -1 ->
   exists a,
     first_message (since (initialised chatty) (final (open chatty 1)))
     = Some (-1, sizeof_cpcd_exchange_buffer_t + sizeof_bool, a) /\
     is_ack a).
Proof.
  assert (E : cpc_open_endpoint (H0 := scripted chatty) handle user_endpoint 3 1
                (initialised chatty)
              = Done (-1, user_endpoint) (final (open chatty 1)))
    by (vm_compute; reflexivity).
  split; [exact E |]. split; [vm_compute; reflexivity |].
  split; [intros (_ & Hc & _); vm_compute in Hc; discriminate Hc |].
  exact (cpc_open_endpoint_awaits_server_ack (H0 := scripted chatty)
           handle user_endpoint 3 1 (initialised chatty) (-1) user_endpoint
           (final (open chatty 1)) E).
Defined.

Lemma send_buffer_and_write_bound_witness :
  (cpc_open_endpoint (H0 := scripted healthy) handle user_endpoint 3 1 (initialised healthy)
   = Done (4, Some endpoint) (opened healthy) /\
   0 <= 4 /\
   exists a,
     (Setsockopt 4 SO_SNDBUF (opt_int 4087), a)
       ∈ since (initialised healthy) (opened healthy) /\ rv a = 0) /\
  (endpoints (opened healthy) !! ptr endpoint = Some (Endpoint 3 4 4096) /\
   handles (opened healthy) !! lib_handle (Endpoint 3 4 4096) = Some (Handle 3 4087) /\
   max_write_size (Handle 3 4087) < 5000 /\
   exists p',
     cpc_write_endpoint (H0 := scripted healthy) endpoint (Some oversized) 5000 0
       (opened healthy) = Done (-1) p' /\
     errno p' = EINVAL /\
     only_traces (since (opened healthy) p') /\
     (forall fd msg fl a, (Send fd msg fl, a) ∉ since (opened healthy) p')) /\
  (cpc_init (H0 := scripted healthy) user_handle None false on_reset boot
   = Done (0, Some handle) (initialised healthy) /\
   exists h lh a,
     Some handle = Some h /\ handles (initialised healthy) !! ptr h = Some lh /\
     reply_to max_write_size_query a (since boot (initialised healthy)) /\
     max_write_size lh mod 2 ^ 32 = le_value (take 4 (payload (rdata a)))).
Proof.
  assert (E1 : cpc_open_endpoint (H0 := scripted healthy) handle user_endpoint 3 1
                 (initialised healthy)
               = Done (4, Some endpoint) (opened healthy))
    by (vm_compute; reflexivity).
  assert (P1 : 0 <= 4) by lia.
  assert (L1 : endpoints (opened healthy) !! ptr endpoint = Some (Endpoint 3 4 4096))
    by (vm_compute; reflexivity).
  assert (L2 : handles (opened healthy) !! lib_handle (Endpoint 3 4 4096)
               = Some (Handle 3 4087))
    by (vm_compute; reflexivity).
  assert (B : max_write_size (Handle 3 4087) < 5000) by (simpl; lia).
  assert (E3 : cpc_init (H0 := scripted healthy) user_handle None false on_reset boot
               = Done (0, Some handle) (initialised healthy))
    by (vm_compute; reflexivity).
  split; [| split].
  - split; [exact E1 |]. split; [exact P1 |].
    exact (proj1 (send_buffer_and_write_bound (H0 := scripted healthy))
             handle user_endpoint 3 1 (initialised healthy) 4 (Some endpoint)
             (opened healthy) E1 P1).
  - split; [exact L1 |]. split; [exact L2 |]. split; [exact B |].
    exact (proj1 (proj2 (send_buffer_and_write_bound (H0 := scripted healthy)))
             endpoint (Some oversized) 5000 0 (opened healthy)
             (Endpoint 3 4 4096) (Handle 3 4087) L1 L2 B).
  - split; [exact E3 |].
    exact (proj2 (proj2 (send_buffer_and_write_bound (H0 := scripted healthy)))
             user_handle None false on_reset boot (Some handle) (initialised healthy) E3).
Defined.

(** C6.  The bound on the writes is not always the maximal write size
    that the daemon reported during [cpc_init].  [get_max_write] copies
    the 4 bytes of the daemon's reply into a [size_t max_write_size] of
    8 bytes that it has not initialised, and returns all 8 bytes.  On a
    platform where the variable holds [0x0000000100000000] beforehand,
    the daemon reports 4087, [cpc_init] succeeds and stores 4294971383
    in the handle, and [cpc_write_endpoint] with a [data_length] of
    5000, greater than 4087, sends the 5000 bytes and returns 5000
    where -1 and [EINVAL] are due. *)
Theorem cpc_write_endpoint_exceeds_reported_max_write_size :
  cpc_init (H0 := scripted dirty) user_handle None false on_reset boot
  = Done (0, Some handle) (initialised dirty) /\
  reply_to max_write_size_query (datagram [2; 0; 247; 15; 0; 0])
    (since boot (initialised dirty)) /\
  le_value (take 4 (payload [2; 0; 247; 15; 0; 0])) = 4087 /\
  handles (opened dirty) !! ptr handle = Some (Handle 3 (2 ^ 32 + 4087)) /\
  endpoints (opened dirty) !! ptr endpoint = Some (Endpoint 3 4 (ptr handle)) /\
  4087 < 5000 /\
  cpc_write_endpoint (H0 := scripted dirty) endpoint (Some oversized) 5000 0 (opened dirty)
  = Done 5000 (final (write_too_much dirty)) /\
  errno (final (write_too_much dirty)) = 0 /\
  since (opened dirty) (final (write_too_much dirty)) = [(Send 4 oversized 0, ok 5000)].
Proof.
  split; [vm_compute; reflexivity |].
  split; [vm_compute; left; split; reflexivity |].
  split; [vm_compute; reflexivity |]. split; [vm_compute; reflexivity |].
  split; [vm_compute; reflexivity |]. split; [lia |].
  split; [vm_compute; reflexivity |]. split; vm_compute; reflexivity.
Qed.

Lemma link_reset_reinitialises_witness :
  (cpc_init (H0 := scripted healthy) user_handle None false on_reset boot
   = Done (0, Some handle) (initialised healthy) /\
   on_reset <> 0 /\
   saved_instance_name (initialised healthy) = Some "cpcd_0"%string /\
   strlen (ctrl_socket_path "cpcd_0") < sizeof_sun_path - 1 /\
   (exists p'' a,
      deliver_SIGUSR1 (H0 := scripted healthy) (initialised healthy) = Done tt p'' /\
      since (initialised healthy) p'' = [(Callback on_reset, a)]) /\
   (exists p'' a,
      deliver_SIGUSR1 (H0 := scripted healthy) (initialised healthy) = Done tt p'' /\
      since (initialised healthy) p'' = [(Callback on_reset, a)])) /\
  (ptr (Opaque 0) = 0 /\
   exists p',
     cpc_restart (H0 := scripted healthy) (Some (Opaque 0)) (initialised healthy)
     = Done (-1, Some (Opaque 0)) p' /\
     errno p' = EINVAL /\ since (initialised healthy) p' = [] /\
     handles p' = handles (initialised healthy)) /\
  (ptr handle <> 0 /\
   handles (initialised healthy) !! ptr handle = Some (Handle 3 4087) /\
   saved_instance_name (initialised healthy) = Some "cpcd_0"%string /\
   rv (close_answer (H0 := scripted healthy) (Handle 3 4087) (initialised healthy)) = 0 /\
   rv (destroy_answer (H0 := scripted healthy) (ptr handle) (Handle 3 4087)
         (initialised healthy)) = 0 /\
   cpc_restart (H0 := scripted healthy) (Some handle) (initialised healthy)
   = Done (0, Some endpoint) (final (restart healthy)) /\
   restarted (H0 := scripted healthy) handle (initialised healthy) 0 (Some endpoint)
     (final (restart healthy))).
Proof.
  assert (E1 : cpc_init (H0 := scripted healthy) user_handle None false on_reset boot
               = Done (0, Some handle) (initialised healthy))
    by (vm_compute; reflexivity).
  assert (Hcb : on_reset <> 0) by (unfold on_reset; lia).
  assert (Hi : saved_instance_name (initialised healthy) = Some "cpcd_0"%string)
    by (vm_compute; reflexivity).
  assert (Hfit : strlen (ctrl_socket_path "cpcd_0") < sizeof_sun_path - 1)
    by (vm_compute; reflexivity).
  assert (E2 : cpc_restart (H0 := scripted healthy) (Some handle) (initialised healthy)
               = Done (0, Some endpoint) (final (restart healthy)))
    by (vm_compute; reflexivity).
  assert (Hnull : ptr (Opaque 0) = 0) by reflexivity.
  assert (Hp : ptr handle <> 0) by (vm_compute; discriminate).
  assert (Hlh : handles (initialised healthy) !! ptr handle = Some (Handle 3 4087))
    by (vm_compute; reflexivity).
  assert (Hc : rv (close_answer (H0 := scripted healthy) (Handle 3 4087)
                     (initialised healthy)) = 0)
    by (vm_compute; reflexivity).
  assert (Hd : rv (destroy_answer (H0 := scripted healthy) (ptr handle) (Handle 3 4087)
                     (initialised healthy)) = 0)
    by (vm_compute; reflexivity).
  split; [| split].
  - split; [exact E1 |]. split; [exact Hcb |]. split; [exact Hi |]. split; [exact Hfit |].
    split.
    + exact (proj1 (link_reset_reinitialises (H0 := scripted healthy))
               user_handle None false on_reset boot 0 (Some handle) (initialised healthy)
               "cpcd_0"%string E1 Hcb Hi Hfit).
    + exact (proj1 (proj2 (link_reset_reinitialises (H0 := scripted healthy)))
               user_handle None false on_reset boot (Some handle) (initialised healthy)
               E1 Hcb).
  - split; [exact Hnull |].
    exact (proj1 (proj2 (proj2 (link_reset_reinitialises (H0 := scripted healthy))))
             (Opaque 0) (initialised healthy) Hnull).
  - split; [exact Hp |]. split; [exact Hlh |]. split; [exact Hi |].
    split; [exact Hc |]. split; [exact Hd |].
    destruct (proj2 (proj2 (proj2 (link_reset_reinitialises (H0 := scripted healthy))))
                handle (initialised healthy) (Handle 3 4087) "cpcd_0"%string Hp Hlh Hi)
      as (r & handle' & p' & E & _ & _ & Hok).
    specialize (Hok Hc Hd). revert E2.
    generalize (final (restart healthy)). intros pf E2.
    pose proof (eq_trans (eq_sym E2) E) as Heq. injection Heq as <- <- <-.
    split; [exact E2 | exact Hok].
Defined.

Lemma link_reset_reinitialises_counterexample :
  (* the daemon has been replaced by one of another API version: the
     restart tears the handle down, fails five times and leaves the
     caller's handle NULL *)
  cpc_restart (H0 := scripted old) (Some handle) (initialised healthy)
  = Done (-1, Some (Opaque 0))
      (final (cpc_restart (H0 := scripted old) (Some handle) (initialised healthy))) /\
  (* restarting again with that handle runs nothing *)
  cpc_restart (H0 := scripted old) (Some (Opaque 0))
    (final (cpc_restart (H0 := scripted old) (Some handle) (initialised healthy)))
  = Done (-1, Some (Opaque 0))
      (final (cpc_restart (H0 := scripted old) (Some (Opaque 0))
         (final (cpc_restart (H0 := scripted old) (Some handle) (initialised healthy))))) /\
  errno (final (cpc_restart (H0 := scripted old) (Some (Opaque 0))
           (final (cpc_restart (H0 := scripted old) (Some handle) (initialised healthy)))))
  = EINVAL /\
  since (final (cpc_restart (H0 := scripted old) (Some handle) (initialised healthy)))
    (final (cpc_restart (H0 := scripted old) (Some (Opaque 0))
       (final (cpc_restart (H0 := scripted old) (Some handle) (initialised healthy)))))
  = [] /\
  ~ restarted (H0 := scripted old) (Opaque 0)
      (final (cpc_restart (H0 := scripted old) (Some handle) (initialised healthy)))
      (-1) (Some (Opaque 0))
      (final (cpc_restart (H0 := scripted old) (Some (Opaque 0))
         (final (cpc_restart (H0 := scripted old) (Some handle) (initialised healthy))))) /\
  (* a control socket that cannot be closed: the handle is kept and
     nothing else is called *)
  cpc_restart (H0 := Scenarios.unclosable) (Some handle) (initialised healthy)
  = Done (-1, Some handle)
      (final (cpc_restart (H0 := Scenarios.unclosable) (Some handle)
         (initialised healthy))) /\
  errno (final (cpc_restart (H0 := Scenarios.unclosable) (Some handle)
           (initialised healthy))) = EINVAL /\
  since (initialised healthy)
    (final (cpc_restart (H0 := Scenarios.unclosable) (Some handle) (initialised healthy)))
  = [(Close 3, Response (-1) (Some Scenarios.EIO) [])] /\
  handles (final (cpc_restart (H0 := Scenarios.unclosable) (Some handle)
             (initialised healthy))) !! ptr handle = Some (Handle 3 4087) /\
  ~ restarted (H0 := Scenarios.unclosable) handle (initialised healthy)
      (-1) (Some handle)
      (final (cpc_restart (H0 := Scenarios.unclosable) (Some handle)
         (initialised healthy))).
Proof.
  split; [vm_compute; reflexivity |]. split; [vm_compute; reflexivity |].
  split; [vm_compute; reflexivity |]. split; [vm_compute; reflexivity |].
  split.
  { intros Hr. apply restarted_calls in Hr. vm_compute in Hr. lia. }
  split; [vm_compute; reflexivity |]. split; [vm_compute; reflexivity |].
  split; [vm_compute; reflexivity |]. split; [vm_compute; reflexivity |].
  intros Hr. apply restarted_calls in Hr. vm_compute in Hr. lia.
Qed.


Lemma library_connects_to_well_known_paths_witness :
  (cpc_init (H0 := scripted healthy) user_handle None false on_reset boot
   = Done (0, Some handle) (initialised healthy) /\
   saved_instance_name (initialised healthy) = Some "cpcd_0"%string /\
   (forall fd path' a,
      (Connect fd path', a) ∈ since boot (initialised healthy) ->
      path' = "/dev/shm/cpcd/cpcd_0/ctrl.cpcd.sock"%string) /\
   exists fd a,
     (Connect fd "/dev/shm/cpcd/cpcd_0/ctrl.cpcd.sock", a)
       ∈ since boot (initialised healthy) /\ 0 <= rv a) /\
  (cpc_open_endpoint (H0 := scripted healthy) handle user_endpoint 3 1 (initialised healthy)
   = Done (4, Some endpoint) (opened healthy) /\
   (forall fd path' a,
      (Connect fd path', a) ∈ since (initialised healthy) (opened healthy) ->
      path' = "/dev/shm/cpcd/cpcd_0/ep3.cpcd.sock"%string) /\
   exists a,
     (Connect 4 "/dev/shm/cpcd/cpcd_0/ep3.cpcd.sock", a)
       ∈ since (initialised healthy) (opened healthy) /\ 0 <= rv a).
Proof.
  assert (E1 : cpc_init (H0 := scripted healthy) user_handle None false on_reset boot
               = Done (0, Some handle) (initialised healthy))
    by (vm_compute; reflexivity).
  assert (Hi : saved_instance_name (initialised healthy) = Some "cpcd_0"%string)
    by (vm_compute; reflexivity).
  assert (E2 : cpc_open_endpoint (H0 := scripted healthy) handle user_endpoint 3 1
                 (initialised healthy)
               = Done (4, Some endpoint) (opened healthy))
    by (vm_compute; reflexivity).
  split.
  - split; [exact E1 |]. split; [exact Hi |].
    destruct (proj1 (library_connects_to_well_known_paths (H0 := scripted healthy))
                user_handle None false on_reset boot 0 (Some handle) (initialised healthy)
                "cpcd_0"%string E1 Hi) as (_ & Hall & Hone & _).
    split; [exact Hall | exact (Hone eq_refl)].
  - split; [exact E2 |].
    destruct (proj2 (library_connects_to_well_known_paths (H0 := scripted healthy))
                handle user_endpoint 3 1 (initialised healthy) 4 (Some endpoint)
                (opened healthy) "cpcd_0"%string E2 Hi) as (Hall & Hone & _).
    split; [exact Hall | apply Hone; lia].
Defined.

Lemma blocking_option_round_trip_witness :
  fcntl_keeps_O_NONBLOCK (H := scripted healthy) /\
  cpc_set_endpoint_option (H0 := scripted healthy) endpoint CPC_OPTION_BLOCKING
    (Some (opt_bool false)) sizeof_bool (opened healthy)
  = Done 0 (final (set_blocking healthy false)) /\
  cpc_get_endpoint_option (H0 := scripted healthy) endpoint CPC_OPTION_BLOCKING
    (Some (opt_bool true)) (Some 1) (final (set_blocking healthy false))
  = Done (0, Some (opt_bool false), Some 1) (final (get_blocking healthy false)) /\
  Some (opt_bool false) = Some (opt_bool false) /\ Some 1 = Some sizeof_bool /\
  (exists fd fl a,
     (FcntlSetfl fd fl, a) ∈ since (opened healthy) (final (set_blocking healthy false)) /\
     Z.land fl O_NONBLOCK = O_NONBLOCK) /\
  (exists fd a,
     (FcntlGetfl fd, a)
       ∈ since (final (set_blocking healthy false)) (final (get_blocking healthy false)) /\
     Some (opt_bool false) = Some (opt_bool (Z.land (rv a) O_NONBLOCK =? 0))).
Proof.
  assert (Es : cpc_set_endpoint_option (H0 := scripted healthy) endpoint CPC_OPTION_BLOCKING
                 (Some (opt_bool false)) sizeof_bool (opened healthy)
               = Done 0 (final (set_blocking healthy false)))
    by (vm_compute; reflexivity).
  assert (Eg : cpc_get_endpoint_option (H0 := scripted healthy) endpoint
                 CPC_OPTION_BLOCKING (Some (opt_bool true)) (Some 1)
                 (final (set_blocking healthy false))
               = Done (0, Some (opt_bool false), Some 1)
                   (final (get_blocking healthy false)))
    by (vm_compute; reflexivity).
  split; [exact (scripted_keeps_O_NONBLOCK healthy) |].
  split; [exact Es |]. split; [exact Eg |].
  exact (blocking_option_round_trip (H0 := scripted healthy) endpoint false
           (opened healthy) (final (set_blocking healthy false))
           (Some (opt_bool true)) (Some 1) (Some (opt_bool false)) (Some 1)
           (final (get_blocking healthy false))
           (scripted_keeps_O_NONBLOCK healthy) Es Eg).
Defined.

(** * The further properties at work on the demonstration platform *)

Import Scenarios.

Lemma cpc_write_endpoint_rejects_invalid_arguments_witness :
  (ptr (Opaque 0) = 0 \/ @None (list Z) = None \/ 0 = 0) /\
  exists p',
    cpc_write_endpoint (Opaque 0) None 0 0 boot = Done (-1) p' /\
    errno p' = EINVAL /\
    only_traces (since boot p') /\
    handles p' = handles boot /\ endpoints p' = endpoints boot.
Proof.
  split; [left; reflexivity |].
  apply cpc_write_endpoint_rejects_invalid_arguments. left; reflexivity.
Defined.

Lemma cpc_write_endpoint_whole_message_witness :
  cpc_write_endpoint (H0 := scripted healthy) endpoint (Some [112; 111; 110; 103]) 4 0
    (opened healthy)
  = Done 4 (final (cpc_write_endpoint (H0 := scripted healthy) endpoint
                     (Some [112; 111; 110; 103]) 4 0 (opened healthy))) /\
  4 <> -1 /\
  exists ep lh bytes a,
    endpoints (opened healthy) !! ptr endpoint = Some ep /\
    handles (opened healthy) !! lib_handle ep = Some lh /\
    Some [112; 111; 110; 103] = Some bytes /\
    4 <> 0 /\ 4 <= max_write_size lh /\
    (Send (sock_fd ep) (take (Z.to_nat 4) bytes) (sock_flags_of 0), a)
      ∈ since (opened healthy)
          (final (cpc_write_endpoint (H0 := scripted healthy) endpoint
                    (Some [112; 111; 110; 103]) 4 0 (opened healthy))) /\
    sent (since (opened healthy)
            (final (cpc_write_endpoint (H0 := scripted healthy) endpoint
                      (Some [112; 111; 110; 103]) 4 0 (opened healthy))))
    = [(sock_fd ep, take (Z.to_nat 4) bytes)] /\
    rv a = 4 /\ to_size_t 4 = 4.
Proof.
  assert (E : cpc_write_endpoint (H0 := scripted healthy) endpoint
                (Some [112; 111; 110; 103]) 4 0 (opened healthy)
              = Done 4 (final (cpc_write_endpoint (H0 := scripted healthy) endpoint
                                 (Some [112; 111; 110; 103]) 4 0 (opened healthy))))
    by (vm_compute; reflexivity).
  assert (Hr : 4 <> -1) by lia.
  split; [exact E |]. split; [exact Hr |].
  exact (cpc_write_endpoint_whole_message (H0 := scripted healthy) endpoint
           (Some [112; 111; 110; 103]) 4 0 (opened healthy) 4 _ E Hr).
Defined.

Lemma cpc_read_endpoint_result_witness :
  cpc_read_endpoint (H0 := scripted healthy) endpoint (Some user_buffer) 4087 0
    (opened healthy)
  = Done (4, Some ([112; 105; 110; 103] ++ repeat 0 4083)) (final (read healthy)) /\
  (4 = -1 \/
   (0 < 4 <= 4087 /\
    exists ep buf buf' a,
      endpoints (opened healthy) !! ptr endpoint = Some ep /\
      Some user_buffer = Some buf /\
      Some ([112; 105; 110; 103] ++ repeat 0 4083) = Some buf' /\
      (Recv (sock_fd ep) 4087 (sock_flags_of 0), a)
        ∈ since (opened healthy) (final (read healthy)) /\
      4 = recv_count a 4087 /\
      take (Z.to_nat 4) buf' = take (Z.to_nat 4) (rdata a) /\
      drop (Z.to_nat 4) buf' = drop (Z.to_nat 4) buf)).
Proof.
  assert (E : cpc_read_endpoint (H0 := scripted healthy) endpoint (Some user_buffer)
                4087 0 (opened healthy)
              = Done (4, Some ([112; 105; 110; 103] ++ repeat 0 4083))
                  (final (read healthy)))
    by (vm_compute; reflexivity).
  split; [exact E |].
  exact (cpc_read_endpoint_result (H0 := scripted healthy) endpoint (Some user_buffer)
           4087 0 (opened healthy) 4 _ _ E).
Defined.

Lemma cpc_read_endpoint_recv_error_witness :
  cpc_read_endpoint (H0 := scripted idle) endpoint (Some user_buffer) 4087 1 (opened idle)
  = Done (-1, Some user_buffer)
      (final (cpc_read_endpoint (H0 := scripted idle) endpoint (Some user_buffer)
                4087 1 (opened idle))) /\
  (Recv 4 4087 64, Response (-1) (Some EAGAIN) [])
    ∈ since (opened idle)
        (final (cpc_read_endpoint (H0 := scripted idle) endpoint (Some user_buffer)
                  4087 1 (opened idle))) /\
  rv (Response (-1) (Some EAGAIN) []) < 0 /\
  -1 = -1 /\ Some user_buffer = Some user_buffer /\
  errno (final (cpc_read_endpoint (H0 := scripted idle) endpoint (Some user_buffer)
                  4087 1 (opened idle)))
  = default (errno (opened idle)) (rerrno (Response (-1) (Some EAGAIN) [])).
Proof.
  assert (E : cpc_read_endpoint (H0 := scripted idle) endpoint (Some user_buffer)
                4087 1 (opened idle)
              = Done (-1, Some user_buffer)
                  (final (cpc_read_endpoint (H0 := scripted idle) endpoint
                            (Some user_buffer) 4087 1 (opened idle))))
    by (vm_compute; reflexivity).
  assert (Hin : (Recv 4 4087 64, Response (-1) (Some EAGAIN) [])
                  ∈ since (opened idle)
                      (final (cpc_read_endpoint (H0 := scripted idle) endpoint
                                (Some user_buffer) 4087 1 (opened idle))))
    by (vm_compute; apply list_elem_of_here).
  assert (Hr : rv (Response (-1) (Some EAGAIN) []) < 0) by (simpl; lia).
  split; [exact E |]. split; [exact Hin |]. split; [exact Hr |].
  exact (cpc_read_endpoint_recv_error (H0 := scripted idle) endpoint (Some user_buffer)
           4087 1 (opened idle) (-1) (Some user_buffer) _ 4 4087 64 _ E Hin Hr).
Defined.

Lemma cpc_close_endpoint_releases_witness :
  ptr endpoint <> 0 /\
  cpc_close_endpoint (H0 := scripted healthy) (Some endpoint) (opened healthy)
  = Done (0, Some (Opaque 0)) (closed healthy) /\
  (0 = 0 \/ 0 = -1) /\ Some (Opaque 0) = Some (Opaque 0) /\
  endpoints (closed healthy) = delete (ptr endpoint) (endpoints (opened healthy)) /\
  handles (closed healthy) = handles (opened healthy) /\
  freed (since (opened healthy) (closed healthy)) = [ptr endpoint] /\
  exists ep c,
    endpoints (opened healthy) !! ptr endpoint = Some ep /\
    (Close (sock_fd ep), c) ∈ since (opened healthy) (closed healthy) /\
    (rv c < 0 -> 0 = -1 /\ sent (since (opened healthy) (closed healthy)) = []).
Proof.
  assert (Hp : ptr endpoint <> 0) by (simpl; lia).
  assert (E : cpc_close_endpoint (H0 := scripted healthy) (Some endpoint) (opened healthy)
              = Done (0, Some (Opaque 0)) (closed healthy))
    by (vm_compute; reflexivity).
  split; [exact Hp |]. split; [exact E |].
  exact (cpc_close_endpoint_releases (H0 := scripted healthy) endpoint (opened healthy)
           0 (Some (Opaque 0)) (closed healthy) Hp E).
Defined.

Lemma cpc_close_endpoint_handshake_witness :
  ptr endpoint <> 0 /\
  cpc_close_endpoint (H0 := scripted healthy) (Some endpoint) (opened healthy)
  = Done (0, Some (Opaque 0)) (closed healthy) /\
  exists ep lh c a d,
    endpoints (opened healthy) !! ptr endpoint = Some ep /\
    handles (opened healthy) !! lib_handle ep = Some lh /\
    (Close (sock_fd ep), c) ∈ since (opened healthy) (closed healthy) /\ 0 <= rv c /\
    sent (since (opened healthy) (closed healthy))
    = [(ctrl_sock_fd lh, close_endpoint_query (id ep))] /\
    received (since (opened healthy) (closed healthy))
    = [(ctrl_sock_fd lh, sizeof_cpcd_exchange_buffer_t, a)] /\
    recv_count a sizeof_cpcd_exchange_buffer_t = sizeof_cpcd_exchange_buffer_t /\
    0 <= rv a /\ sizeof_cpcd_exchange_buffer_t <= Z.of_nat (length (rdata a)) /\
    (Mutex pthread_mutex_destroy (sock_fd_lock (ptr endpoint)), d)
      ∈ since (opened healthy) (closed healthy) /\
    0 <= rv d.
Proof.
  assert (Hp : ptr endpoint <> 0) by (simpl; lia).
  assert (E : cpc_close_endpoint (H0 := scripted healthy) (Some endpoint) (opened healthy)
              = Done (0, Some (Opaque 0)) (closed healthy))
    by (vm_compute; reflexivity).
  split; [exact Hp |]. split; [exact E |].
  exact (cpc_close_endpoint_handshake (H0 := scripted healthy) endpoint (opened healthy)
           (Some (Opaque 0)) (closed healthy) Hp E).
Defined.

Lemma cpc_close_endpoint_exclusive_witness :
  ptr endpoint <> 0 /\
  endpoints (opened healthy) !! ptr endpoint = Some (Endpoint 3 4 4096) /\
  handles (opened healthy) !! lib_handle (Endpoint 3 4 4096) = Some (Handle 3 4087) /\
  cpc_close_endpoint (H0 := scripted healthy) (Some endpoint) (opened healthy)
  = Done (0, Some (Opaque 0)) (closed healthy) /\
  exclusive (ctrl_sock_fd_lock (lib_handle (Endpoint 3 4 4096)))
    (ctrl_sock_fd (Handle 3 4087)) false (since (opened healthy) (closed healthy))
  = true.
Proof.
  assert (Hp : ptr endpoint <> 0) by (simpl; lia).
  assert (L1 : endpoints (opened healthy) !! ptr endpoint = Some (Endpoint 3 4 4096))
    by (vm_compute; reflexivity).
  assert (L2 : handles (opened healthy) !! lib_handle (Endpoint 3 4 4096)
               = Some (Handle 3 4087))
    by (vm_compute; reflexivity).
  assert (E : cpc_close_endpoint (H0 := scripted healthy) (Some endpoint) (opened healthy)
              = Done (0, Some (Opaque 0)) (closed healthy))
    by (vm_compute; reflexivity).
  split; [exact Hp |]. split; [exact L1 |]. split; [exact L2 |]. split; [exact E |].
  exact (cpc_close_endpoint_exclusive (H0 := scripted healthy) endpoint (opened healthy)
           0 (Some (Opaque 0)) (closed healthy) _ _ Hp L1 L2 E).
Defined.

Lemma cpc_open_endpoint_all_or_nothing_witness :
  cpc_open_endpoint (H0 := scripted healthy) handle user_endpoint 3 1 (initialised healthy)
  = Done (4, Some endpoint) (opened healthy) /\
  handles (opened healthy) = handles (initialised healthy) /\
  ((4 = -1 /\ Some endpoint = user_endpoint /\
    (endpoints (opened healthy) = endpoints (initialised healthy) \/
     exists a, endpoints (opened healthy) = delete a (endpoints (initialised healthy))))
   \/
   (exists a q sa,
      Some endpoint = Some (Opaque a) /\ a <> 0 /\ 4 <> 0 /\
      endpoints (opened healthy)
      = <[a := Endpoint 3 4 (ptr handle)]> (endpoints (initialised healthy)) /\
      (Socket, sa) ∈ since (initialised healthy) (opened healthy) /\ rv sa = 4 /\
      allocated (since (initialised healthy) (opened healthy)) = [a; q] /\
      freed (since (initialised healthy) (opened healthy)) = [q])).
Proof.
  assert (E : cpc_open_endpoint (H0 := scripted healthy) handle user_endpoint 3 1
                (initialised healthy)
              = Done (4, Some endpoint) (opened healthy))
    by (vm_compute; reflexivity).
  split; [exact E |].
  exact (cpc_open_endpoint_all_or_nothing (H0 := scripted healthy) handle user_endpoint
           3 1 (initialised healthy) 4 (Some endpoint) (opened healthy) E).
Defined.

Lemma cpc_open_endpoint_refused_witness :
  cpc_open_endpoint (H0 := refusing) handle user_endpoint 3 1 (initialised healthy)
  = Done (-1, user_endpoint)
      (final (cpc_open_endpoint (H0 := refusing) handle user_endpoint 3 1
                (initialised healthy))) /\
  received (since (initialised healthy)
              (final (cpc_open_endpoint (H0 := refusing) handle user_endpoint 3 1
                        (initialised healthy))))
  = [(3, 3, datagram [1; 3; 0])] /\
  recv_count (datagram [1; 3; 0]) 3 = 3 /\ nth 2 (rdata (datagram [1; 3; 0])) 0 = 0 /\
  -1 = -1 /\ user_endpoint = user_endpoint /\
  (forall sa,
     (Socket, sa) ∉ since (initialised healthy)
                      (final (cpc_open_endpoint (H0 := refusing) handle user_endpoint 3 1
                                (initialised healthy)))) /\
  ((exists m u,
      (Mutex pthread_mutex_unlock m, u)
        ∈ since (initialised healthy)
            (final (cpc_open_endpoint (H0 := refusing) handle user_endpoint 3 1
                      (initialised healthy))) /\ rv u < 0) \/
   errno (final (cpc_open_endpoint (H0 := refusing) handle user_endpoint 3 1
                   (initialised healthy)))
   = if 3 =? SL_CPC_ENDPOINT_SECURITY then EPERM else EAGAIN).
Proof.
  assert (E : cpc_open_endpoint (H0 := refusing) handle user_endpoint 3 1
                (initialised healthy)
              = Done (-1, user_endpoint)
                  (final (cpc_open_endpoint (H0 := refusing) handle user_endpoint 3 1
                            (initialised healthy))))
    by (vm_compute; reflexivity).
  assert (Hrec : received (since (initialised healthy)
                    (final (cpc_open_endpoint (H0 := refusing) handle user_endpoint 3 1
                              (initialised healthy))))
                 = [(3, 3, datagram [1; 3; 0])])
    by (vm_compute; reflexivity).
  assert (Hc : recv_count (datagram [1; 3; 0]) 3 = 3) by reflexivity.
  assert (Hb : nth 2 (rdata (datagram [1; 3; 0])) 0 = 0) by reflexivity.
  split; [exact E |]. split; [exact Hrec |]. split; [exact Hc |]. split; [exact Hb |].
  exact (cpc_open_endpoint_refused (H0 := refusing) handle user_endpoint 3 1
           (initialised healthy) (-1) user_endpoint _ 3 3 (datagram [1; 3; 0])
           E Hrec Hc Hb).
Defined.

Lemma cpc_close_endpoint_undoes_open_witness :
  cpc_open_endpoint (H0 := scripted healthy) handle user_endpoint 3 1 (initialised healthy)
  = Done (4, Some endpoint) (opened healthy) /\
  4 <> -1 /\
  endpoints (initialised healthy) !! ptr endpoint = None /\
  cpc_close_endpoint (H0 := scripted healthy) (Some endpoint) (opened healthy)
  = Done (0, Some (Opaque 0)) (closed healthy) /\
  Some (Opaque 0) = Some (Opaque 0) /\
  endpoints (closed healthy) = endpoints (initialised healthy) /\
  handles (closed healthy) = handles (initialised healthy) /\
  exists c, (Close 4, c) ∈ since (opened healthy) (closed healthy).
Proof.
  assert (Eo : cpc_open_endpoint (H0 := scripted healthy) handle user_endpoint 3 1
                 (initialised healthy)
               = Done (4, Some endpoint) (opened healthy))
    by (vm_compute; reflexivity).
  assert (Hr : 4 <> -1) by lia.
  assert (Hf : endpoints (initialised healthy) !! ptr endpoint = None)
    by (vm_compute; reflexivity).
  assert (Ec : cpc_close_endpoint (H0 := scripted healthy) (Some endpoint)
                 (opened healthy)
               = Done (0, Some (Opaque 0)) (closed healthy))
    by (vm_compute; reflexivity).
  split; [exact Eo |]. split; [exact Hr |]. split; [exact Hf |]. split; [exact Ec |].
  exact (cpc_close_endpoint_undoes_open (H0 := scripted healthy) handle user_endpoint
           3 1 (initialised healthy) 4 endpoint (opened healthy) 0 (Some (Opaque 0))
           (closed healthy) Eo Hr Hf Ec).
Defined.

Lemma cpc_init_all_or_nothing_witness :
  cpc_init (H0 := scripted healthy) user_handle None false on_reset boot
  = Done (0, Some handle) (initialised healthy) /\
  endpoints (initialised healthy) = endpoints boot /\
  ((0 = -1 /\ Some handle = user_handle /\
    (handles (initialised healthy) = handles boot \/
     exists a, handles (initialised healthy) = delete a (handles boot)))
   \/
   (0 = 0 /\
    exists a lh sa,
      Some handle = Some (Opaque a) /\ a <> 0 /\ user_handle <> None /\
      handles (initialised healthy) = <[a := lh]> (handles boot) /\
      (Socket, sa) ∈ since boot (initialised healthy) /\
      ctrl_sock_fd lh = rv sa /\ rv sa <> 0)).
Proof.
  assert (E : cpc_init (H0 := scripted healthy) user_handle None false on_reset boot
              = Done (0, Some handle) (initialised healthy))
    by (vm_compute; reflexivity).
  split; [exact E |].
  exact (cpc_init_all_or_nothing (H0 := scripted healthy) user_handle None false
           on_reset boot 0 (Some handle) (initialised healthy) E).
Defined.

Lemma cpc_init_handshake_witness :
  cpc_init (H0 := scripted healthy) user_handle None false on_reset boot
  = Done (0, Some handle) (initialised healthy) /\
  exists sa ap am av,
    (Socket, sa) ∈ since boot (initialised healthy) /\
    (Getpid, ap) ∈ since boot (initialised healthy) /\
    sent (since boot (initialised healthy))
    = [(rv sa, set_pid_query (rv ap)); (rv sa, max_write_size_query);
       (rv sa, version_query)] /\
    received (since boot (initialised healthy))
    = [(rv sa, sizeof_cpcd_exchange_buffer_t + sizeof_uint32_t, am);
       (rv sa, sizeof_cpcd_exchange_buffer_t + sizeof_uint8_t, av)] /\
    nth 2 (rdata av) 0 = LIBRARY_API_VERSION.
Proof.
  assert (E : cpc_init (H0 := scripted healthy) user_handle None false on_reset boot
              = Done (0, Some handle) (initialised healthy))
    by (vm_compute; reflexivity).
  split; [exact E |].
  exact (cpc_init_handshake (H0 := scripted healthy) user_handle None false
           on_reset boot (Some handle) (initialised healthy) E).
Defined.

Lemma cpc_init_never_closes_witness :
  cpc_init (H0 := scripted old) user_handle None false on_reset boot
  = Done (-1, user_handle) (initialised old) /\
  forall fd c, (Close fd, c) ∉ since boot (initialised old).
Proof.
  assert (E : cpc_init (H0 := scripted old) user_handle None false on_reset boot
              = Done (-1, user_handle) (initialised old))
    by (vm_compute; reflexivity).
  split; [exact E |].
  exact (cpc_init_never_closes (H0 := scripted old) user_handle None false
           on_reset boot (-1) user_handle (initialised old) E).
Defined.

Lemma cpc_init_socket_test_witness :
  cpc_init (H0 := scripted healthy) user_handle None false on_reset boot
  = Done (0, Some handle) (initialised healthy) /\
  (Socket, ok 3) ∈ since boot (initialised healthy) /\
  (rv (ok 3) = 0 ->
   0 = -1 /\ forall fd path c, (Connect fd path, c) ∉ since boot (initialised healthy)) /\
  (rv (ok 3) <> 0 ->
   exists path c, (Connect (rv (ok 3)) path, c) ∈ since boot (initialised healthy)).
Proof.
  assert (E : cpc_init (H0 := scripted healthy) user_handle None false on_reset boot
              = Done (0, Some handle) (initialised healthy))
    by (vm_compute; reflexivity).
  assert (Hs : (Socket, ok 3) ∈ since boot (initialised healthy))
    by (vm_compute; do 4 apply list_elem_of_further; apply list_elem_of_here).
  split; [exact E |]. split; [exact Hs |].
  exact (cpc_init_socket_test (H0 := scripted healthy) user_handle None false
           on_reset boot 0 (Some handle) (initialised healthy) (ok 3) E Hs).
Defined.

Lemma cpc_restart_handle_witness :
  cpc_restart (H0 := scripted healthy) (Some handle) (initialised healthy)
  = Done (0, Some endpoint) (final (restart healthy)) /\
  saved_instance_name (initialised healthy) = Some "cpcd_0"%string /\
  (Sleep 1, ok 0) ∈ since (initialised healthy) (final (restart healthy)) /\
  exists h,
    Some handle = Some h /\
    endpoints (final (restart healthy)) = endpoints (initialised healthy) /\
    (0 = 0 \/ 0 = -1) /\
    (0 <> 0 ->
     Some endpoint = Some (Opaque 0) /\
     handles (final (restart healthy)) !! ptr h = None /\
     forall k v, handles (final (restart healthy)) !! k = Some v ->
                 handles (initialised healthy) !! k = Some v) /\
    (0 = 0 ->
     exists a lh,
       Some endpoint = Some (Opaque a) /\ a <> 0 /\
       handles (final (restart healthy)) !! a = Some lh /\
       forall k v, k <> a -> handles (final (restart healthy)) !! k = Some v ->
                   k <> ptr h /\ handles (initialised healthy) !! k = Some v).
Proof.
  assert (E : cpc_restart (H0 := scripted healthy) (Some handle) (initialised healthy)
              = Done (0, Some endpoint) (final (restart healthy)))
    by (vm_compute; reflexivity).
  assert (Hn : saved_instance_name (initialised healthy) = Some "cpcd_0"%string)
    by (vm_compute; reflexivity).
  assert (Hs : (Sleep 1, ok 0) ∈ since (initialised healthy) (final (restart healthy)))
    by (vm_compute; do 3 apply list_elem_of_further; apply list_elem_of_here).
  split; [exact E |]. split; [exact Hn |]. split; [exact Hs |].
  exact (cpc_restart_handle (H0 := scripted healthy) (Some handle) (initialised healthy)
           0 (Some endpoint) (final (restart healthy)) "cpcd_0"%string 1 (ok 0)
           E Hn Hs).
Defined.

Lemma sigusr1_serves_latest_callback_witness :
  sigusr1_handler (initialised healthy) = true /\
  cpc_init (H0 := scripted healthy) (Some handle) None false 0 (initialised healthy)
  = Done (0, Some endpoint)
      (final (cpc_init (H0 := scripted healthy) (Some handle) None false 0
                (initialised healthy))) /\
  exists p'',
    deliver_SIGUSR1 (H0 := scripted healthy)
      (final (cpc_init (H0 := scripted healthy) (Some handle) None false 0
                (initialised healthy)))
    = Done tt p'' /\
    (0 = 0 ->
     p'' = final (cpc_init (H0 := scripted healthy) (Some handle) None false 0
                    (initialised healthy))) /\
    (0 <> 0 ->
     exists a,
       since (final (cpc_init (H0 := scripted healthy) (Some handle) None false 0
                       (initialised healthy))) p''
       = [(Callback 0, a)]).
Proof.
  assert (Hh : sigusr1_handler (initialised healthy) = true) by (vm_compute; reflexivity).
  assert (E : cpc_init (H0 := scripted healthy) (Some handle) None false 0
                (initialised healthy)
              = Done (0, Some endpoint)
                  (final (cpc_init (H0 := scripted healthy) (Some handle) None false 0
                            (initialised healthy))))
    by (vm_compute; reflexivity).
  split; [exact Hh |]. split; [exact E |].
  exact (sigusr1_serves_latest_callback (H0 := scripted healthy) (Some handle) None
           false 0 (initialised healthy) (0, Some endpoint) _ Hh E).
Defined.

Lemma cpc_get_endpoint_state_rejects_invalid_arguments_witness :
  (@None Z = None \/ ptr handle = 0 \/ 3 = 0) /\
  exists p',
    cpc_get_endpoint_state sizeof_state handle 3 None boot = Done (-1, None) p' /\
    errno p' = EINVAL /\ since boot p' = [] /\
    handles p' = handles boot /\ endpoints p' = endpoints boot.
Proof.
  split; [left; reflexivity |].
  apply cpc_get_endpoint_state_rejects_invalid_arguments. left; reflexivity.
Defined.

Lemma cpc_get_endpoint_state_value_witness :
  0 <= sizeof_state /\
  cpc_get_endpoint_state (H0 := scripted healthy) sizeof_state handle 3 (Some 0)
    (initialised healthy)
  = Done (0, Some 4087)
      (final (cpc_get_endpoint_state (H0 := scripted healthy) sizeof_state handle 3
                (Some 0) (initialised healthy))) /\
  exists lh a,
    handles (initialised healthy) !! ptr handle = Some lh /\
    sent (since (initialised healthy)
            (final (cpc_get_endpoint_state (H0 := scripted healthy) sizeof_state handle 3
                      (Some 0) (initialised healthy))))
    = [(ctrl_sock_fd lh, endpoint_status_query 3 sizeof_state)] /\
    received (since (initialised healthy)
                (final (cpc_get_endpoint_state (H0 := scripted healthy) sizeof_state
                          handle 3 (Some 0) (initialised healthy))))
    = [(ctrl_sock_fd lh, sizeof_cpcd_exchange_buffer_t + sizeof_state, a)] /\
    0 < recv_count a (sizeof_cpcd_exchange_buffer_t + sizeof_state) /\
    (recv_count a (sizeof_cpcd_exchange_buffer_t + sizeof_state)
     = sizeof_cpcd_exchange_buffer_t + sizeof_state ->
     Some 4087 = Some (le_value (take (Z.to_nat sizeof_state) (payload (rdata a))))) /\
    (recv_count a (sizeof_cpcd_exchange_buffer_t + sizeof_state)
     <= sizeof_cpcd_exchange_buffer_t ->
     Some 4087 = Some 0).
Proof.
  assert (Hs : 0 <= sizeof_state) by (unfold sizeof_state; lia).
  assert (E : cpc_get_endpoint_state (H0 := scripted healthy) sizeof_state handle 3
                (Some 0) (initialised healthy)
              = Done (0, Some 4087)
                  (final (cpc_get_endpoint_state (H0 := scripted healthy) sizeof_state
                            handle 3 (Some 0) (initialised healthy))))
    by (vm_compute; reflexivity).
  split; [exact Hs |]. split; [exact E |].
  exact (cpc_get_endpoint_state_value (H0 := scripted healthy) sizeof_state handle 3
           (Some 0) (initialised healthy) (Some 4087) _ Hs E).
Defined.

Lemma cpc_get_endpoint_state_discipline_witness :
  cpc_get_endpoint_state (H0 := scripted healthy) sizeof_state handle 3 (Some 0)
    (initialised healthy)
  = Done (0, Some 4087)
      (final (cpc_get_endpoint_state (H0 := scripted healthy) sizeof_state handle 3
                (Some 0) (initialised healthy))) /\
  handles (initialised healthy) !! ptr handle = Some (Handle 3 4087) /\
  handles (final (cpc_get_endpoint_state (H0 := scripted healthy) sizeof_state handle 3
                    (Some 0) (initialised healthy)))
  = handles (initialised healthy) /\
  endpoints (final (cpc_get_endpoint_state (H0 := scripted healthy) sizeof_state handle 3
                      (Some 0) (initialised healthy)))
  = endpoints (initialised healthy) /\
  allocated (since (initialised healthy)
               (final (cpc_get_endpoint_state (H0 := scripted healthy) sizeof_state
                         handle 3 (Some 0) (initialised healthy))))
  = freed (since (initialised healthy)
             (final (cpc_get_endpoint_state (H0 := scripted healthy) sizeof_state
                       handle 3 (Some 0) (initialised healthy)))) /\
  exclusive (ctrl_sock_fd_lock (ptr handle)) (ctrl_sock_fd (Handle 3 4087)) false
    (since (initialised healthy)
       (final (cpc_get_endpoint_state (H0 := scripted healthy) sizeof_state handle 3
                 (Some 0) (initialised healthy))))
  = true /\
  (0 = 0 \/ (0 = -1 /\ Some 4087 = Some 0)).
Proof.
  assert (E : cpc_get_endpoint_state (H0 := scripted healthy) sizeof_state handle 3
                (Some 0) (initialised healthy)
              = Done (0, Some 4087)
                  (final (cpc_get_endpoint_state (H0 := scripted healthy) sizeof_state
                            handle 3 (Some 0) (initialised healthy))))
    by (vm_compute; reflexivity).
  assert (Hl : handles (initialised healthy) !! ptr handle = Some (Handle 3 4087))
    by (vm_compute; reflexivity).
  split; [exact E |]. split; [exact Hl |].
  exact (cpc_get_endpoint_state_discipline (H0 := scripted healthy) sizeof_state handle 3
           (Some 0) (initialised healthy) 0 (Some 4087) _ (Handle 3 4087) E Hl).
Defined.

Lemma cpc_set_endpoint_option_rejects_witness :
  (ptr endpoint = 0 \/ Some (opt_size_t 100) = None \/
   set_option_length CPC_OPTION_MAX_WRITE_SIZE <> Some 8) /\
  exists p',
    cpc_set_endpoint_option (H0 := scripted healthy) endpoint CPC_OPTION_MAX_WRITE_SIZE
      (Some (opt_size_t 100)) 8 (opened healthy)
    = Done (-1) p' /\
    errno p' = EINVAL /\
    only_traces (since (opened healthy) p') /\
    handles p' = handles (opened healthy) /\ endpoints p' = endpoints (opened healthy).
Proof.
  assert (Hb : ptr endpoint = 0 \/ Some (opt_size_t 100) = None \/
               set_option_length CPC_OPTION_MAX_WRITE_SIZE <> Some 8)
    by (right; right; discriminate).
  split; [exact Hb |].
  exact (cpc_set_endpoint_option_rejects (H0 := scripted healthy) endpoint
           CPC_OPTION_MAX_WRITE_SIZE (Some (opt_size_t 100)) 8 (opened healthy) Hb).
Defined.

Lemma cpc_set_endpoint_option_setsockopt_witness :
  sockopt_of CPC_OPTION_RX_TIMEOUT = Some SO_RCVTIMEO /\
  cpc_set_endpoint_option (H0 := scripted healthy) endpoint CPC_OPTION_RX_TIMEOUT
    (Some (opt_timeval 1 500)) 8 (opened healthy)
  = Done 0 (final (cpc_set_endpoint_option (H0 := scripted healthy) endpoint
                     CPC_OPTION_RX_TIMEOUT (Some (opt_timeval 1 500)) 8
                     (opened healthy))) /\
  exists ep v a,
    endpoints (opened healthy) !! ptr endpoint = Some ep /\
    Some (opt_timeval 1 500) = Some v /\
    since (opened healthy)
      (final (cpc_set_endpoint_option (H0 := scripted healthy) endpoint
                CPC_OPTION_RX_TIMEOUT (Some (opt_timeval 1 500)) 8 (opened healthy)))
    = [(Setsockopt (sock_fd ep) SO_RCVTIMEO v, a)] /\ 0 <= rv a /\
    handles (final (cpc_set_endpoint_option (H0 := scripted healthy) endpoint
                      CPC_OPTION_RX_TIMEOUT (Some (opt_timeval 1 500)) 8
                      (opened healthy)))
    = handles (opened healthy) /\
    endpoints (final (cpc_set_endpoint_option (H0 := scripted healthy) endpoint
                        CPC_OPTION_RX_TIMEOUT (Some (opt_timeval 1 500)) 8
                        (opened healthy)))
    = endpoints (opened healthy).
Proof.
  assert (Hso : sockopt_of CPC_OPTION_RX_TIMEOUT = Some SO_RCVTIMEO) by reflexivity.
  assert (E : cpc_set_endpoint_option (H0 := scripted healthy) endpoint
                CPC_OPTION_RX_TIMEOUT (Some (opt_timeval 1 500)) 8 (opened healthy)
              = Done 0 (final (cpc_set_endpoint_option (H0 := scripted healthy) endpoint
                                 CPC_OPTION_RX_TIMEOUT (Some (opt_timeval 1 500)) 8
                                 (opened healthy))))
    by (vm_compute; reflexivity).
  split; [exact Hso |]. split; [exact E |].
  exact (cpc_set_endpoint_option_setsockopt (H0 := scripted healthy) endpoint
           CPC_OPTION_RX_TIMEOUT (Some (opt_timeval 1 500)) 8 (opened healthy) _
           SO_RCVTIMEO Hso E).
Defined.

Lemma cpc_get_endpoint_option_rejects_witness :
  ptr endpoint <> 0 /\
  get_option_error CPC_OPTION_BLOCKING 0 = Some ENOMEM /\
  exists p',
    cpc_get_endpoint_option (H0 := scripted healthy) endpoint CPC_OPTION_BLOCKING
      (Some (opt_bool true)) (Some 0) (opened healthy)
    = Done (-1, Some (opt_bool true), Some 0) p' /\
    errno p' = ENOMEM /\
    only_traces (since (opened healthy) p') /\
    handles p' = handles (opened healthy) /\ endpoints p' = endpoints (opened healthy).
Proof.
  assert (Hp : ptr endpoint <> 0) by (simpl; lia).
  assert (He : get_option_error CPC_OPTION_BLOCKING 0 = Some ENOMEM) by reflexivity.
  split; [exact Hp |]. split; [exact He |].
  exact (cpc_get_endpoint_option_rejects (H0 := scripted healthy) endpoint
           CPC_OPTION_BLOCKING (opt_bool true) 0 (opened healthy) ENOMEM Hp He).
Defined.

Lemma cpc_get_endpoint_option_timeout_witness :
  (CPC_OPTION_RX_TIMEOUT = CPC_OPTION_RX_TIMEOUT \/
   CPC_OPTION_RX_TIMEOUT = CPC_OPTION_TX_TIMEOUT) /\
  cpc_get_endpoint_option (H0 := scripted healthy) endpoint CPC_OPTION_RX_TIMEOUT
    (Some (opt_timeval 1 500)) (Some 8) (opened healthy)
  = Done (0, Some (opt_timeval 0 0), Some 8)
      (final (cpc_get_endpoint_option (H0 := scripted healthy) endpoint
                CPC_OPTION_RX_TIMEOUT (Some (opt_timeval 1 500)) (Some 8)
                (opened healthy))) /\
  (Getsockopt 4 SO_RCVTIMEO, ok 0)
    ∈ since (opened healthy)
        (final (cpc_get_endpoint_option (H0 := scripted healthy) endpoint
                  CPC_OPTION_RX_TIMEOUT (Some (opt_timeval 1 500)) (Some 8)
                  (opened healthy))) /\
  0 <= rv (ok 0) /\
  sockopt_of CPC_OPTION_RX_TIMEOUT = Some SO_RCVTIMEO /\
  (exists ep, endpoints (opened healthy) !! ptr endpoint = Some ep /\ 4 = sock_fd ep) /\
  Some 8 = Some 8 /\
  (INT_MAX < nth 0 (rdata (ok 0)) 0 \/ INT_MAX < nth 1 (rdata (ok 0)) 0 ->
   0 = -1 /\
   errno (final (cpc_get_endpoint_option (H0 := scripted healthy) endpoint
                   CPC_OPTION_RX_TIMEOUT (Some (opt_timeval 1 500)) (Some 8)
                   (opened healthy)))
   = EINVAL /\
   Some (opt_timeval 0 0) = Some (opt_timeval 1 500)) /\
  (- 2 ^ 31 <= nth 0 (rdata (ok 0)) 0 <= INT_MAX ->
   - 2 ^ 31 <= nth 1 (rdata (ok 0)) 0 <= INT_MAX ->
   0 = 0 /\
   Some (opt_timeval 0 0)
   = Some (opt_timeval (nth 0 (rdata (ok 0)) 0) (nth 1 (rdata (ok 0)) 0))).
Proof.
  assert (Ho : CPC_OPTION_RX_TIMEOUT = CPC_OPTION_RX_TIMEOUT \/
               CPC_OPTION_RX_TIMEOUT = CPC_OPTION_TX_TIMEOUT) by (left; reflexivity).
  assert (E : cpc_get_endpoint_option (H0 := scripted healthy) endpoint
                CPC_OPTION_RX_TIMEOUT (Some (opt_timeval 1 500)) (Some 8)
                (opened healthy)
              = Done (0, Some (opt_timeval 0 0), Some 8)
                  (final (cpc_get_endpoint_option (H0 := scripted healthy) endpoint
                            CPC_OPTION_RX_TIMEOUT (Some (opt_timeval 1 500)) (Some 8)
                            (opened healthy))))
    by (vm_compute; reflexivity).
  assert (Hin : (Getsockopt 4 SO_RCVTIMEO, ok 0)
                  ∈ since (opened healthy)
                      (final (cpc_get_endpoint_option (H0 := scripted healthy) endpoint
                                CPC_OPTION_RX_TIMEOUT (Some (opt_timeval 1 500)) (Some 8)
                                (opened healthy))))
    by (vm_compute; apply list_elem_of_here).
  assert (Hr : 0 <= rv (ok 0)) by (simpl; lia).
  split; [exact Ho |]. split; [exact E |]. split; [exact Hin |]. split; [exact Hr |].
  exact (cpc_get_endpoint_option_timeout (H0 := scripted healthy) endpoint
           CPC_OPTION_RX_TIMEOUT (Some (opt_timeval 1 500)) (Some 8) (opened healthy)
           0 (Some (opt_timeval 0 0)) (Some 8) _ 4 SO_RCVTIMEO (ok 0) Ho E Hin Hr).
Defined.

Lemma max_write_size_option_is_write_bound_witness :
  ptr endpoint <> 0 /\
  cpc_get_endpoint_option (H0 := scripted healthy) endpoint CPC_OPTION_MAX_WRITE_SIZE
    (Some (opt_size_t 0)) (Some 8) (opened healthy)
  = Done (0, Some (opt_size_t 4087), Some 8) (opened healthy) /\
  0 = 0 /\ opened healthy = opened healthy /\ Some 8 = Some sizeof_size_t /\
  exists m,
    Some (opt_size_t 4087) = Some (opt_size_t m) /\
    forall data data_length flags rw pw,
      cpc_write_endpoint (H0 := scripted healthy) endpoint data data_length flags
        (opened healthy) = Done rw pw ->
      (m < data_length ->
       rw = -1 /\ errno pw = EINVAL /\
       forall fd msg fl a, (Send fd msg fl, a) ∉ since (opened healthy) pw) /\
      (rw <> -1 -> data_length <= m).
Proof.
  assert (Hp : ptr endpoint <> 0) by (simpl; lia).
  assert (E : cpc_get_endpoint_option (H0 := scripted healthy) endpoint
                CPC_OPTION_MAX_WRITE_SIZE (Some (opt_size_t 0)) (Some 8) (opened healthy)
              = Done (0, Some (opt_size_t 4087), Some 8) (opened healthy))
    by (vm_compute; reflexivity).
  split; [exact Hp |]. split; [exact E |].
  exact (max_write_size_option_is_write_bound (H0 := scripted healthy) endpoint
           (opt_size_t 0) 8 (opened healthy) 0 (Some (opt_size_t 4087)) (Some 8)
           (opened healthy) Hp E).
Defined.

Lemma cpc_open_endpoint_memory_witness :
  cpc_open_endpoint (H0 := without_stdin) handle user_endpoint 3 1 (initialised healthy)
  = Done (-1, user_endpoint)
      (final (cpc_open_endpoint (H0 := without_stdin) handle user_endpoint 3 1
                (initialised healthy))) /\
  socket_gave_zero
    (since (initialised healthy)
       (final (cpc_open_endpoint (H0 := without_stdin) handle user_endpoint 3 1
                 (initialised healthy)))) /\
  -1 = -1 /\ user_endpoint = user_endpoint /\
  exists ma mq,
    (Malloc sizeof_sli_cpc_endpoint_t, ma)
      ∈ since (initialised healthy)
          (final (cpc_open_endpoint (H0 := without_stdin) handle user_endpoint 3 1
                    (initialised healthy))) /\
    (Malloc (sizeof_cpcd_exchange_buffer_t + sizeof_bool), mq)
      ∈ since (initialised healthy)
          (final (cpc_open_endpoint (H0 := without_stdin) handle user_endpoint 3 1
                    (initialised healthy))) /\
    allocated (since (initialised healthy)
                 (final (cpc_open_endpoint (H0 := without_stdin) handle user_endpoint 3 1
                           (initialised healthy)))) = [rv ma; rv mq] /\
    freed (since (initialised healthy)
             (final (cpc_open_endpoint (H0 := without_stdin) handle user_endpoint 3 1
                       (initialised healthy)))) = [rv ma].
Proof.
  assert (E : cpc_open_endpoint (H0 := without_stdin) handle user_endpoint 3 1
                (initialised healthy)
              = Done (-1, user_endpoint)
                  (final (cpc_open_endpoint (H0 := without_stdin) handle user_endpoint
                            3 1 (initialised healthy))))
    by (vm_compute; reflexivity).
  assert (Hz : socket_gave_zero
                 (since (initialised healthy)
                    (final (cpc_open_endpoint (H0 := without_stdin) handle user_endpoint
                              3 1 (initialised healthy))))).
  { exists (ok 0). split; [| reflexivity].
    assert (Hs : since (initialised healthy)
                   (final (cpc_open_endpoint (H0 := without_stdin) handle user_endpoint
                             3 1 (initialised healthy)))
                 = [(Malloc 56, ok 4160); (Malloc 3, ok 4224);
                    (Mutex pthread_mutex_lock (ctrl_sock_fd_lock 4096), ok 0);
                    (Send 3 [1; 3; 0] 0, ok 3);
                    (Recv 3 3 0, datagram [1; 3; 1]);
                    (Mutex pthread_mutex_unlock (ctrl_sock_fd_lock 4096), ok 0);
                    (Socket, ok 0); (Free 4160, ok 0)])
      by (vm_compute; reflexivity).
    rewrite Hs. elem_solve. }
  split; [exact E |]. split; [exact Hz |].
  exact (proj1 (cpc_open_endpoint_memory (H0 := without_stdin) handle user_endpoint
                  3 1 (initialised healthy) (-1) user_endpoint _ E) Hz).
Defined.

Lemma cpc_write_endpoint_send_error_witness :
  cpc_write_endpoint (H0 := congested) endpoint (Some [112; 111; 110; 103]) 4 1
    (opened healthy)
  = Done (-1) (final (cpc_write_endpoint (H0 := congested) endpoint
                        (Some [112; 111; 110; 103]) 4 1 (opened healthy))) /\
  (Send 4 [112; 111; 110; 103] 64, Response (-1) (Some EAGAIN) [])
    ∈ since (opened healthy)
        (final (cpc_write_endpoint (H0 := congested) endpoint
                  (Some [112; 111; 110; 103]) 4 1 (opened healthy))) /\
  rv (Response (-1) (Some EAGAIN) []) = -1 /\
  -1 = -1 /\
  errno (final (cpc_write_endpoint (H0 := congested) endpoint
                  (Some [112; 111; 110; 103]) 4 1 (opened healthy)))
  = default (errno (opened healthy)) (rerrno (Response (-1) (Some EAGAIN) [])) /\
  handles (final (cpc_write_endpoint (H0 := congested) endpoint
                    (Some [112; 111; 110; 103]) 4 1 (opened healthy)))
  = handles (opened healthy) /\
  endpoints (final (cpc_write_endpoint (H0 := congested) endpoint
                      (Some [112; 111; 110; 103]) 4 1 (opened healthy)))
  = endpoints (opened healthy).
Proof.
  assert (E : cpc_write_endpoint (H0 := congested) endpoint
                (Some [112; 111; 110; 103]) 4 1 (opened healthy)
              = Done (-1) (final (cpc_write_endpoint (H0 := congested) endpoint
                                    (Some [112; 111; 110; 103]) 4 1 (opened healthy))))
    by (vm_compute; reflexivity).
  assert (Hin : (Send 4 [112; 111; 110; 103] 64, Response (-1) (Some EAGAIN) [])
                  ∈ since (opened healthy)
                      (final (cpc_write_endpoint (H0 := congested) endpoint
                                (Some [112; 111; 110; 103]) 4 1 (opened healthy))))
    by (vm_compute; apply list_elem_of_here).
  assert (Hr : rv (Response (-1) (Some EAGAIN) []) = -1) by reflexivity.
  split; [exact E |]. split; [exact Hin |]. split; [exact Hr |].
  exact (cpc_write_endpoint_send_error (H0 := congested) endpoint
           (Some [112; 111; 110; 103]) 4 1 (opened healthy) (-1) _ 4
           [112; 111; 110; 103] 64 _ E Hin Hr).
Defined.
